(** * claw.ai WhatsApp bridge: provider dispatch, search and chat history

    A shallow embedding of the JavaScript sources
      - [whatsapp/config.js], [whatsapp/providers.js], [whatsapp/search.js],
        [whatsapp/ai.js], [whatsapp/database.js];
      - [whatsapp/index.js]: the session cache, the commands and the
        connection handler ([Module Index], [Module Connection]);
      - the earlier single-file bridge (its own provider table, search and
        [askAI]), embedded in [Module Legacy], and the sessions of the
        earlier bot ([Module LegacyBot]).

    Conventions of the embedding.
      - A JavaScript value that crosses the JSON boundary is a [JValue]; a
        read that finds a member of a prototype gives a [JBuiltin].
      - An [async] function is a function on the [World] (requests issued so
        far, console output so far) that either returns or throws.  A
        request is recorded as it is handed to [axios].
      - What the process cannot decide by itself (the environment variables,
        what the network answers, the engine's [ToString] of numbers, arrays,
        objects and built-ins) is a field of the class [Host].
      - Object literals used as tables ([PROVIDERS], [FALLBACK_CHAINS],
        [SYSTEM_PROMPTS]) are finite maps over their own keys, read through
        [table_get]: a name that is no key of the table but names a member of
        [Object.prototype] ([constructor], [toString], [__proto__], ...)
        finds that member.  [Map]s are finite maps.
      - Strings are [String.string], holding the UTF-8 bytes of the text;
        [length], [slice] and indexing count UTF-16 units, iteration goes by
        code point, and a lone surrogate is held as its three bytes.  What
        the engine does to the text of a message ([toLowerCase], [trim],
        [split]) and the clock of the database are fields of the class
        [Index.Engine]. *)

From Stdlib Require Import ZArith List String Ascii Lia Bool Sorted Permutation.
From stdpp Require Import base option list gmap strings pretty sorting.

Open Scope string_scope.
Open Scope list_scope.

(** ** JavaScript values *)

#[local] Set Warnings "-register-all".
Inductive JValue : Type :=
| JUndef
| JNull
| JBool (b : bool)
| JNum (mantissa exponent : Z)      (* mantissa * 10 ^ exponent *)
| JStr (s : string)
| JArr (items : list JValue)
| JObj (fields : list (string * JValue))
| JBuiltin (name : string).         (* the built-in a read of property [name] finds *)

Record JsError : Type := { err_name : string; message : string }.

Definition TypeError (msg : string) : JsError :=
  {| err_name := "TypeError"; message := msg |}.

Definition URIError (msg : string) : JsError :=
  {| err_name := "URIError"; message := msg |}.

Inductive Completion (A : Type) : Type :=
| Returned (a : A)
| Thrown (e : JsError).
Arguments Returned {A} a.
Arguments Thrown {A} e.

Definition cbind {A B} (c : Completion A) (k : A -> Completion B) : Completion B :=
  match c with
  | Returned a => k a
  | Thrown e => Thrown e
  end.

Definition nl : string := String (ascii_of_nat 10) EmptyString.
Definition dquote : string := String (ascii_of_nat 34) EmptyString.

(** [list.includes(s)] on a list of strings *)
Definition listed (s : string) (l : list string) : bool :=
  existsb (String.eqb s) l.

(** *** Strings in UTF-16 units *)

Definition is_continuation (c : ascii) : bool :=
  (128 <=? nat_of_ascii c)%nat && (nat_of_ascii c <? 192)%nat.

(** The bytes of the character a lead byte opens. *)
Definition utf8_width (c : ascii) : nat :=
  let n := nat_of_ascii c in
  if (n <? 192)%nat then 1 else if (n <? 224)%nat then 2 else if (n <? 240)%nat then 3 else 4.

(** The UTF-16 units of a character: two for one of four bytes. *)
Definition utf16_units (c : ascii) : nat :=
  if (utf8_width c =? 4)%nat then 2 else 1.

(** The high surrogate of the four-byte character that starts with [c], as
    the three bytes of a lone surrogate. *)
Definition high_surrogate (c : ascii) (rest : string) : string :=
  let byte i := match String.get i rest with Some b => N_of_ascii b | None => 0%N end in
  let hi := (55232 + (N_of_ascii c mod 8) * 256 + (byte 0%nat mod 64) * 4
             + (byte 1%nat mod 64) / 16)%N in
  String (ascii_of_N 237)
    (String (ascii_of_N (128 + (hi / 64) mod 64))
       (String (ascii_of_N (128 + hi mod 64)) EmptyString)).

(** [s.slice(0, units)]: [pending] bytes of a character already counted are
    still to be copied.  A character of two units that only one unit is left
    for is cut to its high surrogate. *)
Fixpoint slice_units (units pending : nat) (s : string) : string :=
  match s with
  | EmptyString => EmptyString
  | String c rest =>
      match pending with
      | S pending => String c (slice_units units pending rest)
      | 0 =>
          if (utf16_units c <=? units)%nat
          then String c (slice_units (units - utf16_units c) (utf8_width c - 1) rest)
          else if (units =? 1)%nat then high_surrogate c rest
          else EmptyString
      end
  end.

(** [s.length] *)
Fixpoint utf16_length (s : string) : nat :=
  match s with
  | EmptyString => 0
  | String c rest =>
      (if is_continuation c then 0 else utf16_units c) + utf16_length rest
  end.

(** The characters [for (const c of s)] visits: one per code point. *)
Fixpoint code_points (s : string) : list string :=
  match s with
  | EmptyString => []
  | String c rest =>
      let follows_on := match rest with String c' _ => is_continuation c' | _ => false end in
      match code_points rest with
      | first :: more =>
          if follows_on then String c first :: more
          else String c EmptyString :: first :: more
      | [] => [String c EmptyString]
      end
  end.

(** [encodeURIComponent(s)]: letters, digits and [-_.!~*'()] stay, every
    other byte of the UTF-8 text is escaped; a lone surrogate is refused. *)
Definition uri_unreserved (c : ascii) : bool :=
  let n := nat_of_ascii c in
  ((65 <=? n) && (n <=? 90) || (97 <=? n) && (n <=? 122) || (48 <=? n) && (n <=? 57)
   || listed (String c EmptyString) ["-"; "_"; "."; "!"; "~"; "*"; "'"; "("; ")"])%nat.

Definition hex_digit (n : nat) : ascii :=
  ascii_of_nat (if (n <? 10)%nat then 48 + n else 55 + n).

Fixpoint encodeURIComponent (s : string) : Completion string :=
  match s with
  | EmptyString => Returned EmptyString
  | String c rest =>
      let lone_surrogate :=
        (nat_of_ascii c =? 237)%nat &&
        match rest with
        | String c' _ => (160 <=? nat_of_ascii c')%nat
        | EmptyString => false
        end in
      if lone_surrogate then Thrown (URIError "URI malformed")
      else
        cbind (encodeURIComponent rest) (fun encoded =>
        Returned
          (if uri_unreserved c then String c encoded
           else String "%" (String (hex_digit (nat_of_ascii c / 16))
                              (String (hex_digit (nat_of_ascii c mod 16)) encoded))))
  end.

(** *** Truth, properties and members *)

(** [!!v] *)
Definition truthy (v : JValue) : bool :=
  match v with
  | JUndef | JNull => false
  | JBool b => b
  | JNum m _ => negb (m =? 0)%Z
  | JStr s => negb (String.eqb s "")
  | JArr _ | JObj _ | JBuiltin _ => true
  end.

(** [a || b] *)
Definition js_or (a b : JValue) : JValue := if truthy a then a else b.

Definition nullish (v : JValue) : bool :=
  match v with JUndef | JNull => true | _ => false end.

(** The names of the members every object inherits from [Object.prototype]:
    built-in functions, and the prototype itself under [__proto__]. *)
Definition object_prototype_names : list string :=
  ["constructor"; "__defineGetter__"; "__defineSetter__"; "hasOwnProperty";
   "__lookupGetter__"; "__lookupSetter__"; "isPrototypeOf"; "propertyIsEnumerable";
   "toString"; "valueOf"; "__proto__"; "toLocaleString"].

Definition inherited (name : string) : bool := listed name object_prototype_names.

(** The members of [String.prototype], [Array.prototype] and
    [Number.prototype] besides those of [Object.prototype]. *)
Definition string_prototype_names : list string :=
  ["at"; "charAt"; "charCodeAt"; "codePointAt"; "concat"; "endsWith"; "includes"; "indexOf";
   "isWellFormed"; "lastIndexOf"; "localeCompare"; "match"; "matchAll"; "normalize"; "padEnd";
   "padStart"; "repeat"; "replace"; "replaceAll"; "search"; "slice"; "split"; "startsWith";
   "substring"; "toLocaleLowerCase"; "toLocaleUpperCase"; "toLowerCase"; "toUpperCase";
   "toWellFormed"; "trim"; "trimEnd"; "trimStart"; "substr"; "anchor"; "big"; "blink"; "bold";
   "fixed"; "fontcolor"; "fontsize"; "italics"; "link"; "small"; "strike"; "sub"; "sup";
   "trimLeft"; "trimRight"].

Definition array_prototype_names : list string :=
  ["at"; "concat"; "copyWithin"; "entries"; "every"; "fill"; "filter"; "find"; "findIndex";
   "findLast"; "findLastIndex"; "flat"; "flatMap"; "forEach"; "includes"; "indexOf"; "join";
   "keys"; "lastIndexOf"; "map"; "pop"; "push"; "reduce"; "reduceRight"; "reverse"; "shift";
   "slice"; "some"; "sort"; "splice"; "toReversed"; "toSorted"; "toSpliced"; "unshift";
   "values"; "with"].

Definition number_prototype_names : list string :=
  ["toExponential"; "toFixed"; "toPrecision"].

(** A property an object does not own is looked up on its prototype. *)
Definition prototype_member (names : list string) (k : string) : JValue :=
  if listed k names || inherited k then JBuiltin k else JUndef.

(** [o.k] on an object of a reply: its own properties, first come first,
    then [Object.prototype]. *)
Fixpoint property (fields : list (string * JValue)) (k : string) : JValue :=
  match fields with
  | [] => prototype_member [] k
  | (k', v) :: rest => if String.eqb k' k then v else property rest k
  end.

(** [v.k] on a value that is neither [undefined] nor [null], for a property
    name [k] (an index is read by [first_item]).  The sources read no
    property of a built-in. *)
Definition member (v : JValue) (k : string) : JValue :=
  match v with
  | JObj fields => property fields k
  | JStr s =>
      if String.eqb k "length" then JNum (Z.of_nat (utf16_length s)) 0
      else prototype_member string_prototype_names k
  | JArr items =>
      if String.eqb k "length" then JNum (Z.of_nat (length items)) 0
      else prototype_member array_prototype_names k
  | JNum _ _ => prototype_member number_prototype_names k
  | JBool _ | JBuiltin _ => prototype_member [] k
  | JUndef | JNull => JUndef
  end.

(** [v.k] for a property name [k] *)
Definition get (v : JValue) (k : string) : Completion JValue :=
  match v with
  | JUndef => Thrown (TypeError ("Cannot read properties of undefined (reading '" +:+ k +:+ "')"))
  | JNull => Thrown (TypeError ("Cannot read properties of null (reading '" +:+ k +:+ "')"))
  | _ => Returned (member v k)
  end.

(** [v?.k] *)
Definition opt_get (v : JValue) (k : string) : JValue := member v k.

(** [v[0]] on a value that is neither [undefined] nor [null] *)
Definition first_item (v : JValue) : JValue :=
  match v with
  | JArr items => nth 0 items JUndef
  | JStr s => match s with EmptyString => JUndef | _ => JStr (slice_units 1 0 s) end
  | JObj fields => property fields "0"
  | _ => JUndef
  end.

(** [v?.[0]] *)
Definition opt_first (v : JValue) : JValue :=
  if nullish v then JUndef else first_item v.

(** [v[0]] *)
Definition get_first (v : JValue) : Completion JValue :=
  match v with
  | JUndef => Thrown (TypeError "Cannot read properties of undefined (reading '0')")
  | JNull => Thrown (TypeError "Cannot read properties of null (reading '0')")
  | _ => Returned (first_item v)
  end.

(** [v.slice(0, n)] *)
Definition js_slice (v : JValue) (n : nat) : Completion JValue :=
  match v with
  | JStr s => Returned (JStr (slice_units n 0 s))
  | JArr items => Returned (JArr (firstn n items))
  | JUndef => Thrown (TypeError "Cannot read properties of undefined (reading 'slice')")
  | JNull => Thrown (TypeError "Cannot read properties of null (reading 'slice')")
  | _ => Thrown (TypeError "slice is not a function")
  end.

Definition chars (s : string) : list JValue := map JStr (code_points s).

(** the items [for (const x of v)] visits *)
Definition iterate (v : JValue) : Completion (list JValue) :=
  match v with
  | JArr items => Returned items
  | JStr s => Returned (chars s)
  | _ => Thrown (TypeError "value is not iterable")
  end.

(** *** Object literals used as tables

    [table[name]] on an object literal finds an own property, or a member of
    [Object.prototype], or nothing. *)

Inductive Lookup (A : Type) : Type :=
| Own (a : A)
| Inherited (name : string)
| Missing.
Arguments Own {A} a.
Arguments Inherited {A} name.
Arguments Missing {A}.

Definition table_get {A} (table : gmap string A) (name : string) : Lookup A :=
  match table !! name with
  | Some a => Own a
  | None => if inherited name then Inherited name else Missing
  end.

(** ** The host of the process *)

Inductive Method : Type := GET | POST.

Record HttpRequest : Type := {
  req_method : Method;
  req_url : string;
  req_params : list (string * JValue);
  req_body : JValue;
  req_headers : list (string * string);
  req_timeout : Z
}.

(** What [axios] settles a request with: [{ data }], or a rejection
    (connection error, timeout, status outside 2xx). *)
Inductive HttpResult : Type :=
| Resolved (data : JValue)
| Rejected (msg : string).

Class Host : Type := {
  process_env : gmap string string;
  (** the answer to a request, given the requests issued before it *)
  axios : list HttpRequest -> HttpRequest -> HttpResult;
  (** the engine's [ToString] on numbers, arrays, objects and built-ins *)
  ToString : JValue -> string
}.

Record World : Type := { http_log : list HttpRequest; console : list string }.

Definition Async (A : Type) : Type := World -> Completion A * World.

Definition ret {A} (a : A) : Async A := fun w => (Returned a, w).
Definition throw {A} (e : JsError) : Async A := fun w => (Thrown e, w).
Definition bind {A B} (m : Async A) (k : A -> Async B) : Async B :=
  fun w => match m w with
           | (Returned a, w') => k a w'
           | (Thrown e, w') => (Thrown e, w')
           end.
Definition lift {A} (c : Completion A) : Async A := fun w => (c, w).
(** [try { body } catch (e) { handler(e) }] *)
Definition try_catch {A} (body : Async A) (handler : JsError -> Async A) : Async A :=
  fun w => match body w with
           | (Returned a, w') => (Returned a, w')
           | (Thrown e, w') => handler e w'
           end.

Declare Scope js_scope.
Delimit Scope js_scope with js.
Notation "x <~ m ;; k" := (bind m (fun x => k))
  (at level 100, m at next level, right associativity) : js_scope.
Notation "m ;;; k" := (bind m (fun _ => k))
  (at level 100, right associativity) : js_scope.
Open Scope js_scope.

Definition console_log (line : string) : Async unit :=
  fun w => (Returned tt, {| http_log := http_log w; console := console w ++ [line] |}).

Section HostOperations.
Context `{Host}.

Definition env_get (var : string) : JValue :=
  match process_env !! var with
  | Some s => JStr s
  | None => JUndef
  end.

(** [`${v}`] *)
Definition tmpl (v : JValue) : string :=
  match v with
  | JStr s => s
  | JUndef => "undefined"
  | JNull => "null"
  | JBool true => "true"
  | JBool false => "false"
  | _ => ToString v
  end.

(** [await axios.get/post(...)], destructured to its [data] *)
Definition axios_call (req : HttpRequest) : Async JValue :=
  fun w =>
    let w' := {| http_log := http_log w ++ [req]; console := console w |} in
    match axios (http_log w) req with
    | Resolved data => (Returned data, w')
    | Rejected msg => (Thrown {| err_name := "AxiosError"; message := msg |}, w')
    end.
End HostOperations.

(** Messages of a conversation: [{ role, content }].  The content is a
    string everywhere but in the system message of a mode that names a
    built-in. *)
Record Message : Type := { role : string; content : JValue }.

Definition message_json (m : Message) : JValue :=
  JObj [("role", JStr (role m)); ("content", content m)].

(** [model] is a string, or [null] in the search chain of [config.js]. *)
Definition model_json (model : option string) : JValue :=
  match model with Some s => JStr s | None => JNull end.

Record Candidate : Type := { provider : string; model : option string }.

(** [headers[k] = v] on an object literal kept in insertion order *)
Fixpoint set_header (k v : string) (headers : list (string * string)) : list (string * string) :=
  match headers with
  | [] => [(k, v)]
  | (k', v') :: rest => if String.eqb k' k then (k, v) :: rest else (k', v') :: set_header k v rest
  end.

(** [{ ...headers, ...extra }] *)
Definition spread_headers (headers extra : list (string * string)) : list (string * string) :=
  fold_left (fun acc kv => set_header (fst kv) (snd kv) acc) extra headers.

Definition messages_json (messages : list Message) : JValue :=
  JArr (map message_json messages).

(** ** [whatsapp/config.js] *)

Module Config.
Section WithHost.
Context `{Host}.

Record ApiKeys : Type := {
  groq : JValue;
  openrouter : JValue;
  pollinations : JValue;
  gemini : JValue;
  cerebras : JValue;
  sambanova : JValue;
  cloudflare : JValue;
  cloudflareAccount : JValue;
  huggingface : JValue;
  cohere : JValue;
  siliconflow : JValue;
  routeway : JValue;
  tavily : JValue;
  brave : JValue;
  serper : JValue;
  puter : JValue
}.

Definition API_KEYS : ApiKeys := {|
  groq := env_get "GROQ_API_KEY";
  openrouter := env_get "OPENROUTER_API_KEY";
  pollinations := env_get "POLLINATIONS_API_KEY";
  gemini := env_get "GEMINI_API_KEY";
  cerebras := env_get "CEREBRAS_API_KEY";
  sambanova := env_get "SAMBANOVA_API_KEY";
  cloudflare := env_get "CLOUDFLARE_API_TOKEN";
  cloudflareAccount := env_get "CLOUDFLARE_ACCOUNT_ID";
  huggingface := env_get "HUGGINGFACE_TOKEN";
  cohere := env_get "COHERE_API_KEY";
  siliconflow := env_get "SILICONFLOW_API_KEY";
  routeway := env_get "ROUTEWAY_API_KEY";
  tavily := env_get "TAVILY_API_KEY";
  brave := env_get "BRAVE_API_KEY";
  serper := env_get "SERPER_API_KEY";
  puter := env_get "PUTER_API_KEY"
|}.

Record Defaults : Type := {
  default_provider : JValue;
  default_model : JValue;
  default_mode : string;
  searchEngine : string
}.

Definition DEFAULTS : Defaults := {|
  default_provider := js_or (env_get "DEFAULT_PROVIDER") (JStr "groq");
  default_model := js_or (env_get "DEFAULT_MODEL") (JStr "llama-3.3-70b-versatile");
  default_mode := "normal";
  searchEngine := "duckduckgo"
|}.
End WithHost.

Definition SYSTEM_PROMPTS : gmap string string :=
  <["normal" := "Kamu adalah asisten AI bernama Vee. Jawab dengan bahasa yang sama dengan pengguna. Berikan jawaban yang helpful, akurat, dan friendly."]>
  (<["reasoning" := "Kamu adalah asisten AI bernama Vee dengan kemampuan reasoning tinggi. Gunakan pendekatan step-by-step untuk masalah kompleks. Jawab dengan bahasa yang sama dengan pengguna."]>
  (<["search" := "Kamu adalah asisten AI bernama Vee dengan akses informasi terkini. Gunakan hasil pencarian untuk menjawab. Sebutkan sumber jika relevan. Jawab dengan bahasa yang sama dengan pengguna."]>
   ∅)).

Definition cand (p m : string) : Candidate := {| provider := p; model := Some m |}.
Definition engine (p : string) : Candidate := {| provider := p; model := None |}.

Definition chain_normal : list Candidate := [
  cand "groq" "llama-3.3-70b-versatile";
  cand "groq" "llama-3.1-8b-instant";
  cand "cerebras" "llama-3.3-70b";
  cand "sambanova" "Meta-Llama-3.3-70B-Instruct";
  cand "openrouter" "openrouter/free";
  cand "openrouter" "meta-llama/llama-3.3-70b-instruct:free";
  cand "pollinations" "openai";
  cand "pollinations" "gemini";
  cand "cloudflare" "@cf/meta/llama-3.1-8b-instruct";
  cand "puter" "gpt-4o-mini";
  cand "mlvoca" "tinyllama" ].

Definition chain_reasoning : list Candidate := [
  cand "groq" "deepseek-r1-distill-llama-70b";
  cand "groq" "qwen-qwq-32b";
  cand "groq" "openai/gpt-oss-120b";
  cand "cerebras" "gpt-oss-120b";
  cand "sambanova" "DeepSeek-R1";
  cand "openrouter" "deepseek/deepseek-r1-zero:free";
  cand "pollinations" "perplexity-reasoning";
  cand "routeway" "deepseek-r1:free" ].

Definition chain_search : list Candidate := [
  engine "duckduckgo";
  engine "tavily";
  engine "brave";
  engine "serper" ].

Definition FALLBACK_CHAINS : gmap string (list Candidate) :=
  <["normal" := chain_normal]>
  (<["reasoning" := chain_reasoning]>
  (<["search" := chain_search]> ∅)).
End Config.

(** ** [whatsapp/providers.js] *)

Module Providers.

Inductive Endpoint : Type :=
| EndpointUrl (url : string)
| EndpointFn (f : option string -> string).

Record Provider : Type := {
  name : string;
  endpoint : Endpoint;
  key : JValue;                                   (* the value of [key()] *)
  extraHeaders : option (list (string * string));
  rateLimit : string;
  models : list string
}.

Section WithHost.
Context `{Host}.

Definition openai_style (n url : string) (k : JValue) (rl : string) (ms : list string) : Provider :=
  {| name := n; endpoint := EndpointUrl url; key := k; extraHeaders := None;
     rateLimit := rl; models := ms |}.

Definition PROVIDERS_entries : list (string * Provider) := [
  ("groq", openai_style "Groq" "https://api.groq.com/openai/v1/chat/completions"
     (Config.groq Config.API_KEYS) "30 RPM (70B), 60 RPM (8B)"
     ["compound-beta"; "compound-beta-mini";
      "llama-3.3-70b-versatile"; "llama-3.1-8b-instant";
      "openai/gpt-oss-120b"; "openai/gpt-oss-20b";
      "meta-llama/llama-4-maverick-17b-128e-instruct";
      "meta-llama/llama-4-scout-17b-16e-instruct";
      "qwen-qwq-32b"; "deepseek-r1-distill-llama-70b";
      "moonshotai/kimi-k2-instruct-0905"; "qwen/qwen-3-32b";
      "whisper-large-v3"; "whisper-large-v3-turbo"]);
  ("openrouter",
     {| name := "OpenRouter";
        endpoint := EndpointUrl "https://openrouter.ai/api/v1/chat/completions";
        key := Config.openrouter Config.API_KEYS;
        extraHeaders := Some [("HTTP-Referer", "https://wa-bot.local"); ("X-Title", "WA AI Bot")];
        rateLimit := "20 RPM, 50 RPD (free)";
        models :=
          ["openrouter/free";
           "meta-llama/llama-4-maverick:free"; "meta-llama/llama-4-scout:free";
           "meta-llama/llama-3.3-70b-instruct:free";
           "deepseek/deepseek-chat-v3-0324:free"; "deepseek/deepseek-v3-base:free";
           "deepseek/deepseek-r1-zero:free";
           "mistralai/mistral-small-3.1-24b-instruct:free";
           "nvidia/llama-3.1-nemotron-nano-8b-v1:free";
           "qwen/qwen3-coder:free"; "stepfun/step-3.5-flash:free";
           "google/gemini-2.5-pro-exp-03-25:free";
           "qwen/qwen3-next-80b-a3b-instruct:free";
           "nvidia/nemotron-3-nano-30b-a3b:free";
           "arcee-ai/trinity-large-preview:free"; "arcee-ai/trinity-mini:free";
           "zhipuai/glm-4.5-air:free";
           "openrouter/optimus-alpha"; "openrouter/quasar-alpha"] |});
  ("pollinations", openai_style "Pollinations" "https://gen.pollinations.ai/v1/chat/completions"
     (js_or (Config.pollinations Config.API_KEYS) JNull) "1/15s (anon), unlimited (sk_)"
     ["openai"; "openai-fast"; "openai-large";
      "gemini"; "gemini-fast"; "gemini-large"; "gemini-search";
      "deepseek"; "claude"; "claude-fast"; "claude-large";
      "mistral"; "grok"; "qwen-coder"; "kimi"; "glm"; "minimax";
      "perplexity-fast"; "perplexity-reasoning"]);
  ("gemini",
     {| name := "Google Gemini";
        endpoint := EndpointFn (fun model =>
          "https://generativelanguage.googleapis.com/v1beta/models/" +:+ tmpl (model_json model) +:+ ":generateContent");
        key := Config.gemini Config.API_KEYS;
        extraHeaders := None;
        rateLimit := "5-15 RPM (free)";
        models :=
          ["gemini-2.5-pro"; "gemini-2.5-flash";
           "gemini-2.5-flash-lite-preview-06-17";
           "gemma-3-27b-it"; "gemma-2-9b-it"] |});
  ("cerebras", openai_style "Cerebras" "https://api.cerebras.ai/v1/chat/completions"
     (Config.cerebras Config.API_KEYS) "30 RPM, 1M tokens/day"
     ["llama3.1-8b"; "llama-3.3-70b";
      "qwen-3-32b"; "qwen-3-235b-a22b-instruct-2507";
      "gpt-oss-120b"; "zai-glm-4.6"; "zai-glm-4.7"]);
  ("sambanova", openai_style "SambaNova" "https://api.sambanova.ai/v1/chat/completions"
     (Config.sambanova Config.API_KEYS) "Free tier"
     ["Meta-Llama-3.1-8B-Instruct"; "Meta-Llama-3.3-70B-Instruct";
      "Llama-4-Scout-17B-16E-Instruct"; "Llama-4-Maverick-17B-128E-Instruct";
      "DeepSeek-R1"; "DeepSeek-R1-Distill-Llama-70B"; "DeepSeek-V3-0324";
      "Qwen3-32B"; "QwQ-32B"; "gpt-oss-120b"]);
  ("cloudflare",
     {| name := "Cloudflare";
        endpoint := EndpointFn (fun model =>
          "https://api.cloudflare.com/client/v4/accounts/"
            +:+ tmpl (Config.cloudflareAccount Config.API_KEYS) +:+ "/ai/run/" +:+ tmpl (model_json model));
        key := Config.cloudflare Config.API_KEYS;
        extraHeaders := None;
        rateLimit := "10K neurons/day";
        models :=
          ["@cf/meta/llama-4-scout-17b-16e-instruct";
           "@cf/meta/llama-3.3-70b-instruct-fp8-fast";
           "@cf/meta/llama-3.1-8b-instruct";
           "@cf/mistralai/mistral-small-3.1-24b-instruct";
           "@cf/google/gemma-3-12b-it";
           "@cf/openai/gpt-oss-120b"; "@cf/openai/gpt-oss-20b"] |});
  ("huggingface", openai_style "HuggingFace" "https://router.huggingface.co/v1/chat/completions"
     (Config.huggingface Config.API_KEYS) "~50 calls/day"
     ["deepseek-ai/DeepSeek-R1"; "deepseek-ai/DeepSeek-R1-0528";
      "deepseek-ai/DeepSeek-R1-Distill-Qwen-7B";
      "deepseek-ai/DeepSeek-R1-Distill-Llama-70B";
      "meta-llama/Meta-Llama-3.1-8B-Instruct";
      "mistralai/Mistral-7B-Instruct-v0.3";
      "HuggingFaceH4/zephyr-7b-beta"]);
  ("cohere", openai_style "Cohere" "https://api.cohere.ai/v2/chat"
     (Config.cohere Config.API_KEYS) "1000 calls/month"
     ["command-a-08-2025"; "command-r-plus-08-2024";
      "command-r-08-2024"; "command-r7b-12-2024"]);
  ("siliconflow", openai_style "SiliconFlow" "https://api.siliconflow.com/v1/chat/completions"
     (Config.siliconflow Config.API_KEYS) "100 RPD (free)"
     ["Qwen/Qwen2.5-7B-Instruct"; "Qwen/Qwen2.5-Coder-7B-Instruct";
      "THUDM/GLM-4-9B-0414";
      "deepseek-ai/DeepSeek-R1-Distill-Qwen-7B";
      "deepseek-ai/DeepSeek-R1-Distill-Qwen-14B";
      "deepseek-ai/DeepSeek-R1-Distill-Qwen-32B";
      "Qwen/QwQ-32B";
      "deepseek-ai/DeepSeek-R1-0528"; "deepseek-ai/DeepSeek-R1";
      "deepseek-ai/DeepSeek-V3-0324";
      "Qwen/Qwen2.5-Coder-32B-Instruct"; "Qwen/Qwen3-32B"]);
  ("routeway", openai_style "Routeway" "https://api.routeway.ai/v1/chat/completions"
     (Config.routeway Config.API_KEYS) "20 RPM, 200 RPD"
     ["glm-4.6:free"; "glm-4.5-air:free";
      "deepseek-r1:free"; "minimax-m2:free"; "kimi-k2:free";
      "deepseek-v3.1:free"; "llama-3.3-70b-instruct:free";
      "mistral-small-3:free"]);
  ("mlvoca", openai_style "MLVOCA" "https://mlvoca.com/api/generate"
     JNull "unlimited"
     ["tinyllama"; "deepseek-r1:1.5b"]);
  ("puter", openai_style "Puter" "https://api.puter.com/drivers/call"
     (Config.puter Config.API_KEYS) "Free Tier"
     ["gpt-4o"; "gpt-4o-mini"; "gpt-4.1-nano";
      "claude-sonnet-4"; "claude-3-5-sonnet";
      "google/gemini-2.5-flash"; "google/gemini-2.5-pro";
      "deepseek/deepseek-r1"; "deepseek/deepseek-chat";
      "x-ai/grok-3"; "x-ai/grok-3-mini";
      "meta-llama/llama-3.3-70b-instruct";
      "perplexity/sonar"; "perplexity/sonar-pro"]) ].

Definition PROVIDERS : gmap string Provider := list_to_map PROVIDERS_entries.

(** [['pollinations', 'mlvoca'].includes(name)] *)
Definition anonymous_tier (name : string) : bool :=
  String.eqb name "pollinations" || String.eqb name "mlvoca".

Definition isProviderAvailable (name : string) : Completion bool :=
  match table_get PROVIDERS name with
  | Missing => Returned false
  | Inherited _ =>
      if anonymous_tier name then Returned true
      else Thrown (TypeError "p.key is not a function")
  | Own p =>
      if anonymous_tier name then Returned true
      else Returned (truthy (key p))
  end.

(** [names.filter(isProviderAvailable)] *)
Fixpoint filter_available (names : list string) : Completion (list string) :=
  match names with
  | [] => Returned []
  | name :: rest =>
      cbind (isProviderAvailable name) (fun keep =>
      cbind (filter_available rest) (fun kept =>
      Returned (if keep then name :: kept else kept)))
  end.

(** [Object.keys(PROVIDERS).filter(isProviderAvailable)] *)
Definition listAvailableProviders : Completion (list string) :=
  filter_available (map fst PROVIDERS_entries).
End WithHost.
End Providers.

(** ** [whatsapp/search.js] *)

(** [results.length > 0 ? results.join('\n\n') : null] *)
Definition joined_or_null (results : list string) : JValue :=
  if (0 <? length results)%nat then JStr (String.concat (nl +:+ nl) results) else JNull.

Definition push_if (c : bool) (line : string) (results : list string) : list string :=
  if c then results ++ [line] else results.

Module Search.
Section WithHost.
Context `{Host}.

(** [for (const t of ...) { if (t.Text) results.push(`• ${t.Text}`) }] *)
Fixpoint ddg_topics (items : list JValue) (results : list string) : Completion (list string) :=
  match items with
  | [] => Returned results
  | t :: rest =>
      cbind (get t "Text") (fun text =>
      ddg_topics rest (push_if (truthy text) ("• " +:+ tmpl text) results))
  end.

Definition searchDDG (query : string) (maxResults : nat) : Async JValue :=
  encoded <~ lift (encodeURIComponent query) ;;
  let url := "https://api.duckduckgo.com/?q=" +:+ encoded +:+ "&format=json&no_html=1" in
  data <~ axios_call {| req_method := GET; req_url := url; req_params := []; req_body := JUndef;
                        req_headers := []; req_timeout := 10000 |} ;;
  let results : list string := [] in
  abstract <~ lift (get data "Abstract") ;;
  let results := push_if (truthy abstract) ("📌 " +:+ tmpl abstract) results in
  topics <~ lift (get data "RelatedTopics") ;;
  sliced <~ lift (js_slice (js_or topics (JArr [])) maxResults) ;;
  items <~ lift (iterate sliced) ;;
  results <~ lift (ddg_topics items results) ;;
  ret (joined_or_null results).

(** [results.push(`• *${r.title}*\n  ${r.content.slice(0, 200)}...\n  🔗 ${r.url}`)] *)
Fixpoint tavily_results (items : list JValue) (results : list string) : Completion (list string) :=
  match items with
  | [] => Returned results
  | r :: rest =>
      cbind (get r "title") (fun title =>
      cbind (get r "content") (fun body =>
      cbind (js_slice body 200) (fun snippet =>
      cbind (get r "url") (fun url =>
      tavily_results rest
        (results ++ ["• *" +:+ tmpl title +:+ "*" +:+ nl +:+ "  " +:+ tmpl snippet +:+ "..."
                       +:+ nl +:+ "  🔗 " +:+ tmpl url])))))
  end.

Definition searchTavily (query : string) (maxResults : nat) : Async JValue :=
  if negb (truthy (Config.tavily Config.API_KEYS)) then searchDDG query maxResults else
  data <~ axios_call {| req_method := POST; req_url := "https://api.tavily.com/search";
                        req_params := [];
                        req_body := JObj [("api_key", Config.tavily Config.API_KEYS);
                                          ("query", JStr query);
                                          ("max_results", JNum (Z.of_nat maxResults) 0);
                                          ("include_answer", JBool true)];
                        req_headers := []; req_timeout := 15000 |} ;;
  let results : list string := [] in
  answer <~ lift (get data "answer") ;;
  let results := push_if (truthy answer) ("📌 " +:+ tmpl answer) results in
  found <~ lift (get data "results") ;;
  items <~ lift (iterate (js_or found (JArr []))) ;;
  results <~ lift (tavily_results items results) ;;
  ret (joined_or_null results).

(** [results.push(`• *${r.title}*\n  ${r[text]}\n  🔗 ${r[link]}`)], the line
    [searchBrave] ([description], [url]) and [searchSerper] ([snippet], [link])
    share *)
Fixpoint titled_results (text link : string) (items : list JValue) (results : list string)
  : Completion (list string) :=
  match items with
  | [] => Returned results
  | r :: rest =>
      cbind (get r "title") (fun title =>
      cbind (get r text) (fun body =>
      cbind (get r link) (fun url =>
      titled_results text link rest
        (results ++ ["• *" +:+ tmpl title +:+ "*" +:+ nl +:+ "  " +:+ tmpl body
                       +:+ nl +:+ "  🔗 " +:+ tmpl url]))))
  end.

Definition searchBrave (query : string) (maxResults : nat) : Async JValue :=
  if negb (truthy (Config.brave Config.API_KEYS)) then searchDDG query maxResults else
  data <~ axios_call {| req_method := GET; req_url := "https://api.search.brave.com/res/v1/web/search";
                        req_params := [("q", JStr query); ("count", JNum (Z.of_nat maxResults) 0)];
                        req_body := JUndef;
                        req_headers := [("X-Subscription-Token", tmpl (Config.brave Config.API_KEYS))];
                        req_timeout := 15000 |} ;;
  let results : list string := [] in
  web <~ lift (get data "web") ;;
  items <~ lift (iterate (js_or (opt_get web "results") (JArr []))) ;;
  results <~ lift (titled_results "description" "url" items results) ;;
  ret (joined_or_null results).

Definition searchSerper (query : string) (maxResults : nat) : Async JValue :=
  if negb (truthy (Config.serper Config.API_KEYS)) then searchDDG query maxResults else
  data <~ axios_call {| req_method := POST; req_url := "https://google.serper.dev/search";
                        req_params := [];
                        req_body := JObj [("q", JStr query); ("num", JNum (Z.of_nat maxResults) 0)];
                        req_headers := [("X-API-KEY", tmpl (Config.serper Config.API_KEYS))];
                        req_timeout := 15000 |} ;;
  let results : list string := [] in
  answerBox <~ lift (get data "answerBox") ;;
  let results :=
    push_if (truthy answerBox)
      ("📌 " +:+ tmpl (js_or (opt_get answerBox "answer") (opt_get answerBox "snippet"))) results in
  organic <~ lift (get data "organic") ;;
  items <~ lift (iterate (js_or organic (JArr []))) ;;
  results <~ lift (titled_results "snippet" "link" items results) ;;
  ret (joined_or_null results).

Definition searchJina (query : string) : Async JValue :=
  encoded <~ lift (encodeURIComponent query) ;;
  data <~ axios_call {| req_method := GET; req_url := "https://s.jina.ai/" +:+ encoded;
                        req_params := []; req_body := JUndef; req_headers := [];
                        req_timeout := 30000 |} ;;
  if nullish data then ret JNull else
  sliced <~ lift (js_slice data 2000) ;;
  ret (js_or sliced JNull).

(** [search(query, engine = 'duckduckgo', maxResults = 5)] *)
Definition search (query engine : string) (maxResults : nat) : Async JValue :=
  try_catch
    (if String.eqb engine "duckduckgo" then searchDDG query maxResults
     else if String.eqb engine "tavily" then searchTavily query maxResults
     else if String.eqb engine "brave" then searchBrave query maxResults
     else if String.eqb engine "serper" then searchSerper query maxResults
     else if String.eqb engine "jina" then searchJina query
     else searchDDG query maxResults)
    (fun e =>
       console_log ("Search error (" +:+ engine +:+ "): " +:+ message e) ;;;
       ret JNull).
End WithHost.
End Search.

(** ** [whatsapp/ai.js] *)

Module AI.
Import Providers.
Section WithHost.
Context `{Host}.

Definition openAIRequest (endpoint : string) (apiKey : JValue) (model : option string)
    (messages : list Message) (extraHeaders : list (string * string)) : Async JValue :=
  let headers := spread_headers [("Content-Type", "application/json")] extraHeaders in
  let headers :=
    if truthy apiKey then set_header "Authorization" ("Bearer " +:+ tmpl apiKey) headers
    else headers in
  data <~ axios_call {| req_method := POST; req_url := endpoint; req_params := [];
                        req_body := JObj [("model", model_json model);
                                          ("messages", messages_json messages);
                                          ("temperature", JNum 7 (-1));
                                          ("max_tokens", JNum 4096 0)];
                        req_headers := headers; req_timeout := 60000 |} ;;
  choices <~ lift (get data "choices") ;;
  ret (js_or (opt_get (opt_get (opt_first choices) "message") "content") JNull).

(** The loop of [geminiRequest]: the state is [(contents, systemInstruction)]. *)
Definition gemini_step (st : list JValue * JValue) (msg : Message) : list JValue * JValue :=
  if String.eqb (role msg) "system" then (fst st, content msg)
  else (fst st ++ [JObj [("role", JStr (if String.eqb (role msg) "user" then "user" else "model"));
                         ("parts", JArr [JObj [("text", content msg)]])]],
        snd st).

Definition geminiRequest (model : option string) (messages : list Message) : Async JValue :=
  let apiKey := Config.gemini Config.API_KEYS in
  if negb (truthy apiKey) then ret JNull else
  let endpoint := "https://generativelanguage.googleapis.com/v1beta/models/"
                    +:+ tmpl (model_json model) +:+ ":generateContent?key=" +:+ tmpl apiKey in
  let st := fold_left gemini_step messages ([], JNull) in
  let contents := fst st in
  let systemInstruction := snd st in
  let payload := [("contents", JArr contents);
                  ("generationConfig", JObj [("temperature", JNum 7 (-1));
                                             ("maxOutputTokens", JNum 4096 0)])] in
  let payload :=
    if truthy systemInstruction
    then payload ++ [("systemInstruction",
                      JObj [("parts", JArr [JObj [("text", systemInstruction)]])])]
    else payload in
  data <~ axios_call {| req_method := POST; req_url := endpoint; req_params := [];
                        req_body := JObj payload;
                        req_headers := [("Content-Type", "application/json")];
                        req_timeout := 60000 |} ;;
  candidates <~ lift (get data "candidates") ;;
  ret (js_or (opt_get (opt_first (opt_get (opt_get (opt_first candidates) "content") "parts")) "text")
             JNull).

Definition cohere_message (m : Message) : JValue :=
  JObj [("role", JStr (if String.eqb (role m) "assistant" then "assistant"
                       else if String.eqb (role m) "system" then "system" else "user"));
        ("content", content m)].

Definition cohereRequest (model : option string) (messages : list Message) : Async JValue :=
  let apiKey := Config.cohere Config.API_KEYS in
  if negb (truthy apiKey) then ret JNull else
  let cohereMessages := map cohere_message messages in
  data <~ axios_call {| req_method := POST; req_url := "https://api.cohere.ai/v2/chat";
                        req_params := [];
                        req_body := JObj [("model", model_json model);
                                          ("messages", JArr cohereMessages);
                                          ("temperature", JNum 7 (-1));
                                          ("max_tokens", JNum 4096 0)];
                        req_headers := [("Authorization", "Bearer " +:+ tmpl apiKey);
                                        ("X-Client-Name", "wa-bot")];
                        req_timeout := 60000 |} ;;
  msg <~ lift (get data "message") ;;
  ret (js_or (opt_get (opt_first (opt_get msg "content")) "text") JNull).

Definition cloudflareRequest (model : option string) (messages : list Message) : Async JValue :=
  let apiKey := Config.cloudflare Config.API_KEYS in
  let accountId := Config.cloudflareAccount Config.API_KEYS in
  if negb (truthy apiKey) || negb (truthy accountId) then ret JNull else
  let endpoint := "https://api.cloudflare.com/client/v4/accounts/" +:+ tmpl accountId
                    +:+ "/ai/run/" +:+ tmpl (model_json model) in
  data <~ axios_call {| req_method := POST; req_url := endpoint; req_params := [];
                        req_body := JObj [("messages", messages_json messages);
                                          ("max_tokens", JNum 4096 0)];
                        req_headers := [("Authorization", "Bearer " +:+ tmpl apiKey)];
                        req_timeout := 60000 |} ;;
  result <~ lift (get data "result") ;;
  ret (js_or (opt_get result "response") JNull).

(** [messages[messages.length - 1]?.content || ''] *)
Definition mlvoca_prompt (messages : list Message) : JValue :=
  js_or (match last messages with
         | Some m => content m
         | None => JUndef
         end) (JStr "").

(** [messages.find(m => m.role === 'system')?.content || ''] *)
Definition mlvoca_sys (messages : list Message) : JValue :=
  js_or (match List.find (fun m => String.eqb (role m) "system") messages with
         | Some m => content m
         | None => JUndef
         end) (JStr "").

(** [sys ? `${sys}\n\n${prompt}` : prompt] *)
Definition mlvoca_payload_prompt (messages : list Message) : JValue :=
  let prompt := mlvoca_prompt messages in
  let sys := mlvoca_sys messages in
  if truthy sys then JStr (tmpl sys +:+ nl +:+ nl +:+ tmpl prompt) else prompt.

Definition mlvocaRequest (model : option string) (messages : list Message) : Async JValue :=
  data <~ axios_call {| req_method := POST; req_url := "https://mlvoca.com/api/generate";
                        req_params := [];
                        req_body := JObj [("model", model_json model);
                                          ("prompt", mlvoca_payload_prompt messages);
                                          ("stream", JBool false)];
                        req_headers := []; req_timeout := 60000 |} ;;
  response <~ lift (get data "response") ;;
  ret (js_or response JNull).

(** The driver table of [puterRequest]; [model.startsWith] throws on [null]. *)
Definition puter_driver (model : option string) : Completion string :=
  match model with
  | None => Thrown (TypeError "Cannot read properties of null (reading 'startsWith')")
  | Some m =>
      Returned
        (if String.prefix "claude" m then "anthropic"
         else if String.prefix "google/" m || String.prefix "gemini" m then "google-vertex"
         else if String.prefix "x-ai/" m || String.prefix "grok" m then "xai"
         else if String.prefix "deepseek" m then "deepseek"
         else if String.prefix "meta-llama" m || String.prefix "llama" m then "together"
         else if String.prefix "perplexity" m then "perplexity"
         else "openai-completion")
  end.

Definition puterRequest (model : option string) (messages : list Message) : Async JValue :=
  let apiToken := Config.puter Config.API_KEYS in
  if negb (truthy apiToken) then ret JNull else
  driver <~ lift (puter_driver model) ;;
  data <~ axios_call {| req_method := POST; req_url := "https://api.puter.com/drivers/call";
                        req_params := [];
                        req_body := JObj [("interface", JStr "puter-chat-completion");
                                          ("driver", JStr driver);
                                          ("test_mode", JBool false);
                                          ("method", JStr "complete");
                                          ("args", JObj [("messages", messages_json messages);
                                                         ("model", model_json model);
                                                         ("stream", JBool false)])];
                        req_headers := [("Authorization", "Bearer " +:+ tmpl apiToken);
                                        ("Origin", "https://puter.com")];
                        req_timeout := 90000 |} ;;
  result <~ lift (get data "result") ;;
  ret (js_or (opt_get (opt_get result "message") "content")
        (js_or (opt_get (opt_get (opt_first (opt_get result "choices")) "message") "content")
               JNull)).

(** The body of the [try] block of [tryProvider]. *)
Definition callAdapter (providerName : string) (provider : Provider) (apiKey : JValue)
    (model : option string) (messages : list Message) : Async JValue :=
  if String.eqb providerName "gemini" then geminiRequest model messages
  else if String.eqb providerName "cohere" then cohereRequest model messages
  else if String.eqb providerName "cloudflare" then cloudflareRequest model messages
  else if String.eqb providerName "mlvoca" then mlvocaRequest model messages
  else if String.eqb providerName "puter" then puterRequest model messages
  else
    let endpoint := match Providers.endpoint provider with
                    | EndpointFn f => f model
                    | EndpointUrl url => url
                    end in
    openAIRequest endpoint apiKey model messages (default [] (extraHeaders provider)).

Definition tryProvider (providerName : string) (model : option string) (messages : list Message)
  : Async JValue :=
  match table_get PROVIDERS providerName with
  | Missing => ret JNull
  | Inherited _ => throw (TypeError "provider.key is not a function")
  | Own provider =>
      let apiKey := key provider in
      if negb (truthy apiKey) && negb (anonymous_tier providerName) then ret JNull else
      try_catch
        (callAdapter providerName provider apiKey model messages)
        (fun e =>
           console_log ("⚠️ [" +:+ providerName +:+ "/" +:+ tmpl (model_json model)
                          +:+ "] failed: " +:+ message e) ;;;
           ret JNull)
  end.

Definition apology : string := "Maaf, semua provider tidak tersedia saat ini.".

(** [SYSTEM_PROMPTS[mode] || SYSTEM_PROMPTS.normal]: a prompt, or the
    built-in a mode like [constructor] names. *)
Definition systemPromptFor (mode : string) : JValue :=
  let normal := match Config.SYSTEM_PROMPTS !! "normal" with
                | Some s => JStr s
                | None => JUndef
                end in
  match table_get Config.SYSTEM_PROMPTS mode with
  | Own s => js_or (JStr s) normal
  | Inherited name => JBuiltin name
  | Missing => normal
  end.

(** [FALLBACK_CHAINS[mode] || FALLBACK_CHAINS.normal]: an array, or the
    built-in a mode like [constructor] names (arrays and built-ins are
    truthy). *)
Definition chainFor (mode : string) : Lookup (list Candidate) :=
  match table_get Config.FALLBACK_CHAINS mode with
  | Missing => table_get Config.FALLBACK_CHAINS "normal"
  | found => found
  end.

(** [chatHistory.slice(-8)] *)
Definition last8 (chatHistory : list Message) : list Message :=
  drop (length chatHistory - 8) chatHistory.

(** [selectedProvider && ...] on a string or [null] *)
Definition given (s : option string) : bool :=
  match s with
  | Some s => truthy (JStr s)
  | None => false
  end.

(** Lines 103-117 of [askAI]: the message list it assembles. *)
Definition askAI_compose (userMessage : string) (useSearch : bool)
    (chatHistory : list Message) (mode : string) : Async (list Message) :=
  let systemPrompt := systemPromptFor mode in
  let messages := [{| role := "system"; content := systemPrompt |}] in
  let messages :=
    if (0 <? length chatHistory)%nat then messages ++ last8 chatHistory else messages in
  messages <~
    (if useSearch || String.eqb mode "search" then
       searchResult <~ Search.search userMessage "duckduckgo" 5 ;;
       ret (if truthy searchResult
            then messages ++ [{| role := "system";
                                 content := JStr ("Hasil pencarian:" +:+ nl
                                                    +:+ tmpl searchResult) |}]
            else messages)
     else ret messages) ;;
  ret (messages ++ [{| role := "user"; content := JStr userMessage |}]).

(** The [for] loop of [askAI] over the chain ([tryChain] in the design
    notes): [None] when the loop runs off the end of the chain. *)
Fixpoint tryChain (chain : list Candidate) (messages : list Message) : Async (option JValue) :=
  match chain with
  | [] => ret None
  | c :: rest =>
      available <~ lift (isProviderAvailable (provider c)) ;;
      if negb available then tryChain rest messages else
      result <~ tryProvider (provider c) (model c) messages ;;
      if truthy result then
        console_log ("✅ [" +:+ provider c +:+ "/" +:+ tmpl (model_json (model c)) +:+ "]") ;;;
        ret (Some result)
      else tryChain rest messages
  end.

(** Lines 119-126 of [askAI]: the probe of the override, [None] when there is
    none to try or it fails. *)
Definition askAI_probe (messages : list Message) (selectedProvider selectedModel : option string)
  : Async (option JValue) :=
  if given selectedProvider && given selectedModel then
    available <~ lift (isProviderAvailable (default "" selectedProvider)) ;;
    if available then
      result <~ tryProvider (default "" selectedProvider) selectedModel messages ;;
      if truthy result then
        console_log ("✅ [" +:+ default "" selectedProvider +:+ "/"
                       +:+ default "" selectedModel +:+ "]") ;;;
        ret (Some result)
      else
        console_log ("⚠️ [" +:+ default "" selectedProvider +:+ "] failed, trying fallback...") ;;;
        ret None
    else ret None
  else ret None.

(** Lines 128-138 of [askAI]: the chain of the mode, then the apology.  A
    built-in in the place of the chain stops the [for ... of]. *)
Definition askAI_chain (messages : list Message) (mode : string) : Async JValue :=
  match chainFor mode with
  | Own chain =>
      found <~ tryChain chain messages ;;
      match found with
      | Some result => ret result
      | None => ret (JStr apology)
      end
  | Inherited _ | Missing => throw (TypeError "chain is not iterable")
  end.

(** Lines 119-138 of [askAI]. *)
Definition askAI_dispatch (messages : list Message) (selectedProvider selectedModel : option string)
    (mode : string) : Async JValue :=
  probe <~ askAI_probe messages selectedProvider selectedModel ;;
  match probe with
  | Some result => ret result
  | None => askAI_chain messages mode
  end.

Definition askAI (userMessage : string) (useSearch : bool)
    (selectedProvider selectedModel : option string)
    (chatHistory : list Message) (mode : string) : Async JValue :=
  messages <~ askAI_compose userMessage useSearch chatHistory mode ;;
  askAI_dispatch messages selectedProvider selectedModel mode.
End WithHost.
End AI.

(** ** The earlier single-file bridge (provider table, search and [askAI]) *)

Module Legacy.

Record Provider : Type := {
  endpoint : Providers.Endpoint;
  key : JValue;                                   (* the value of [key()] *)
  models : list string;
  defaultModel : string;
  extraHeaders : option (list (string * string));
  special : option string
}.

Section WithHost.
Context `{Host}.

Definition plain (url var : string) (ms : list string) (dm : string) : Provider :=
  {| endpoint := Providers.EndpointUrl url; key := env_get var; models := ms;
     defaultModel := dm; extraHeaders := None; special := None |}.

Definition PROVIDERS_entries : list (string * Provider) := [
  ("groq", plain "https://api.groq.com/openai/v1/chat/completions" "GROQ_API_KEY"
     ["llama-3.3-70b-versatile"; "llama-3.1-8b-instant"; "deepseek-r1-distill-llama-70b"]
     "llama-3.3-70b-versatile");
  ("openrouter",
     {| endpoint := Providers.EndpointUrl "https://openrouter.ai/api/v1/chat/completions";
        key := env_get "OPENROUTER_API_KEY";
        models := ["meta-llama/llama-3.3-70b-instruct:free"; "deepseek/deepseek-r1:free"; "openrouter/free"];
        defaultModel := "meta-llama/llama-3.3-70b-instruct:free";
        extraHeaders := Some [("HTTP-Referer", "https://wa-bot.local"); ("X-Title", "WhatsApp AI Bot")];
        special := None |});
  ("gemini",
     {| endpoint := Providers.EndpointFn (fun model =>
          "https://generativelanguage.googleapis.com/v1beta/models/" +:+ tmpl (model_json model)
            +:+ ":generateContent");
        key := env_get "GEMINI_API_KEY";
        models := ["gemini-2.0-flash"; "gemini-2.5-flash"];
        defaultModel := "gemini-2.0-flash";
        extraHeaders := None;
        special := Some "gemini" |});
  ("cerebras", plain "https://api.cerebras.ai/v1/chat/completions" "CEREBRAS_API_KEY"
     ["llama3.3-70b"; "llama3.1-8b"] "llama3.3-70b");
  ("sambanova", plain "https://api.sambanova.ai/v1/chat/completions" "SAMBANOVA_API_KEY"
     ["Meta-Llama-3.3-70B-Instruct"; "DeepSeek-R1"] "Meta-Llama-3.3-70B-Instruct");
  ("pollinations",
     {| endpoint := Providers.EndpointUrl "https://gen.pollinations.ai/v1/chat/completions";
        key := js_or (env_get "POLLINATIONS_API_KEY") JNull;
        models := ["openai"; "gemini"; "claude"; "deepseek"; "mistral"];
        defaultModel := "openai";
        extraHeaders := None;
        special := None |});
  ("cohere",
     {| endpoint := Providers.EndpointUrl "https://api.cohere.ai/v2/chat";
        key := env_get "COHERE_API_KEY";
        models := ["command-r-plus-08-2024"; "command-r-08-2024"];
        defaultModel := "command-r-plus-08-2024";
        extraHeaders := None;
        special := Some "cohere" |});
  ("siliconflow", plain "https://api.siliconflow.com/v1/chat/completions" "SILICONFLOW_API_KEY"
     ["Qwen/Qwen2.5-72B-Instruct"; "deepseek-ai/DeepSeek-V3"] "Qwen/Qwen2.5-72B-Instruct");
  ("cloudflare",
     {| endpoint := Providers.EndpointFn (fun model =>
          "https://api.cloudflare.com/client/v4/accounts/" +:+ tmpl (env_get "CLOUDFLARE_ACCOUNT_ID")
            +:+ "/ai/run/" +:+ tmpl (model_json model));
        key := env_get "CLOUDFLARE_API_TOKEN";
        models := ["@cf/meta/llama-3.1-8b-instruct"; "@cf/meta/llama-3.3-70b-instruct-fp8-fast"];
        defaultModel := "@cf/meta/llama-3.1-8b-instruct";
        extraHeaders := None;
        special := Some "cloudflare" |});
  ("huggingface", plain "https://router.huggingface.co/v1/chat/completions" "HUGGINGFACE_TOKEN"
     ["meta-llama/Llama-3.3-70B-Instruct"; "Qwen/Qwen2.5-72B-Instruct"]
     "meta-llama/Llama-3.3-70B-Instruct") ].

Definition PROVIDERS : gmap string Provider := list_to_map PROVIDERS_entries.

Definition FALLBACK_CHAIN : list Candidate := [
  Config.cand "groq" "llama-3.3-70b-versatile";
  Config.cand "sambanova" "Meta-Llama-3.3-70B-Instruct";
  Config.cand "cerebras" "llama3.3-70b";
  Config.cand "openrouter" "meta-llama/llama-3.3-70b-instruct:free";
  Config.cand "pollinations" "openai";
  Config.cand "cloudflare" "@cf/meta/llama-3.1-8b-instruct";
  Config.cand "huggingface" "meta-llama/Llama-3.3-70B-Instruct" ].

Definition openAIRequest (endpoint : string) (apiKey : JValue) (model : option string)
    (messages : list Message) (extraHeaders : list (string * string)) : Async JValue :=
  let headers :=
    spread_headers [("Content-Type", "application/json");
                    ("Authorization", "Bearer " +:+ tmpl apiKey)] extraHeaders in
  data <~ axios_call {| req_method := POST; req_url := endpoint; req_params := [];
                        req_body := JObj [("model", model_json model);
                                          ("messages", messages_json messages);
                                          ("max_tokens", JNum 1024 0);
                                          ("temperature", JNum 7 (-1))];
                        req_headers := headers; req_timeout := 30000 |} ;;
  choices <~ lift (get data "choices") ;;
  choice <~ lift (get_first choices) ;;
  msg <~ lift (get choice "message") ;;
  lift (get msg "content").

Definition geminiRequest (model : option string) (messages : list Message) : Async JValue :=
  let apiKey := env_get "GEMINI_API_KEY" in
  let endpoint := "https://generativelanguage.googleapis.com/v1beta/models/"
                    +:+ tmpl (model_json model) +:+ ":generateContent?key=" +:+ tmpl apiKey in
  let st := fold_left AI.gemini_step messages ([], JNull) in
  let payload := [("contents", JArr (fst st));
                  ("generationConfig", JObj [("maxOutputTokens", JNum 1024 0)])] in
  let payload :=
    if truthy (snd st)
    then payload ++ [("systemInstruction", JObj [("parts", JArr [JObj [("text", snd st)]])])]
    else payload in
  data <~ axios_call {| req_method := POST; req_url := endpoint; req_params := [];
                        req_body := JObj payload;
                        req_headers := [("Content-Type", "application/json")];
                        req_timeout := 30000 |} ;;
  candidates <~ lift (get data "candidates") ;;
  candidate <~ lift (get_first candidates) ;;
  body <~ lift (get candidate "content") ;;
  parts <~ lift (get body "parts") ;;
  part <~ lift (get_first parts) ;;
  lift (get part "text").

Definition cohereRequest (model : option string) (messages : list Message) : Async JValue :=
  data <~ axios_call {| req_method := POST; req_url := "https://api.cohere.ai/v2/chat";
                        req_params := [];
                        req_body := JObj [("model", model_json model);
                                          ("messages", messages_json messages);
                                          ("max_tokens", JNum 1024 0)];
                        req_headers := [("Authorization", "Bearer " +:+ tmpl (env_get "COHERE_API_KEY"));
                                        ("Content-Type", "application/json")];
                        req_timeout := 30000 |} ;;
  msg <~ lift (get data "message") ;;
  body <~ lift (get msg "content") ;;
  part <~ lift (get_first body) ;;
  lift (get part "text").

Definition cloudflareRequest (model : option string) (messages : list Message) : Async JValue :=
  let accountId := env_get "CLOUDFLARE_ACCOUNT_ID" in
  let apiKey := env_get "CLOUDFLARE_API_TOKEN" in
  let endpoint := "https://api.cloudflare.com/client/v4/accounts/" +:+ tmpl accountId
                    +:+ "/ai/run/" +:+ tmpl (model_json model) in
  data <~ axios_call {| req_method := POST; req_url := endpoint; req_params := [];
                        req_body := JObj [("messages", messages_json messages);
                                          ("max_tokens", JNum 1024 0)];
                        req_headers := [("Authorization", "Bearer " +:+ tmpl apiKey);
                                        ("Content-Type", "application/json")];
                        req_timeout := 30000 |} ;;
  result <~ lift (get data "result") ;;
  lift (get result "response").

(** [.forEach] and [.map] are members of arrays only *)
Definition array_items (method : string) (v : JValue) : Completion (list JValue) :=
  match v with
  | JArr items => Returned items
  | _ => Thrown (TypeError (method +:+ " is not a function"))
  end.

(** an element as [Array.prototype.join] renders it *)
Definition join_item (v : JValue) : string :=
  if nullish v then "" else tmpl v.

(** [forEach(t => { if (t.Text) results.push(t.Text) })] *)
Fixpoint ddg_texts (items : list JValue) (results : list JValue) : Completion (list JValue) :=
  match items with
  | [] => Returned results
  | t :: rest =>
      cbind (get t "Text") (fun text =>
      ddg_texts rest (if truthy text then results ++ [text] else results))
  end.

Definition searchDuckDuckGo (query : string) : Async JValue :=
  try_catch
    (encoded <~ lift (encodeURIComponent query) ;;
     data <~ axios_call {| req_method := GET;
                           req_url := "https://api.duckduckgo.com/?q=" +:+ encoded
                                        +:+ "&format=json&no_html=1";
                           req_params := []; req_body := JUndef; req_headers := [];
                           req_timeout := 10000 |} ;;
     let results : list JValue := [] in
     abstract <~ lift (get data "AbstractText") ;;
     let results := if truthy abstract then results ++ [abstract] else results in
     topics <~ lift (get data "RelatedTopics") ;;
     results <~
       (if truthy topics then
          sliced <~ lift (js_slice topics 3) ;;
          items <~ lift (array_items "forEach" sliced) ;;
          lift (ddg_texts items results)
        else ret results) ;;
     ret (if (0 <? length results)%nat
          then JStr (String.concat (nl +:+ nl) (map join_item results))
          else JNull))
    (fun _ => ret JNull).

(** [.map(r => `${r.title}: ${r[field]}`)] *)
Fixpoint title_lines (field : string) (items : list JValue) : Completion (list string) :=
  match items with
  | [] => Returned []
  | r :: rest =>
      cbind (get r "title") (fun title =>
      cbind (get r field) (fun body =>
      cbind (title_lines field rest) (fun lines =>
      Returned ((tmpl title +:+ ": " +:+ tmpl body) :: lines))))
  end.

(** [found?.slice(0, 3).map(...).join('\n\n')] *)
Definition top3_lines (field : string) (found : JValue) : Completion JValue :=
  if nullish found then Returned JUndef else
  cbind (js_slice found 3) (fun sliced =>
  cbind (array_items "map" sliced) (fun items =>
  cbind (title_lines field items) (fun lines =>
  Returned (JStr (String.concat (nl +:+ nl) lines))))).

Definition searchSerper (query : string) : Async JValue :=
  try_catch
    (data <~ axios_call {| req_method := POST; req_url := "https://google.serper.dev/search";
                           req_params := [];
                           req_body := JObj [("q", JStr query); ("num", JNum 3 0)];
                           req_headers := [("X-API-KEY", tmpl (env_get "SERPER_API_KEY"));
                                           ("Content-Type", "application/json")];
                           req_timeout := 10000 |} ;;
     organic <~ lift (get data "organic") ;;
     lift (top3_lines "snippet" organic))
    (fun _ => ret JNull).

Definition searchTavily (query : string) : Async JValue :=
  try_catch
    (data <~ axios_call {| req_method := POST; req_url := "https://api.tavily.com/search";
                           req_params := [];
                           req_body := JObj [("api_key", env_get "TAVILY_API_KEY");
                                             ("query", JStr query);
                                             ("max_results", JNum 3 0)];
                           req_headers := []; req_timeout := 10000 |} ;;
     found <~ lift (get data "results") ;;
     lift (top3_lines "content" found))
    (fun _ => ret JNull).

Definition search (query : string) : Async JValue :=
  viaTavily <~
    (if truthy (env_get "TAVILY_API_KEY") then
       result <~ searchTavily query ;;
       ret (if truthy result then Some result else None)
     else ret None) ;;
  match viaTavily with
  | Some result => ret result
  | None =>
      viaSerper <~
        (if truthy (env_get "SERPER_API_KEY") then
           result <~ searchSerper query ;;
           ret (if truthy result then Some result else None)
         else ret None) ;;
      match viaSerper with
      | Some result => ret result
      | None => searchDuckDuckGo query
      end
  end.

Definition SYSTEM_PROMPT : string :=
  "Kamu adalah asisten AI yang membantu bernama Vee. " +:+ nl
  +:+ "Jawab dengan bahasa yang sama dengan pengguna. " +:+ nl
  +:+ "Berikan jawaban yang informatif, ramah, dan ringkas.".

Definition apology : string :=
  "Maaf, semua provider AI sedang tidak tersedia. Coba lagi nanti.".

(** The first lines of [askAI]: the message list it assembles. *)
Definition askAI_compose (userMessage : string) (useSearch : bool) : Async (list Message) :=
  let messages := [{| role := "system"; content := JStr SYSTEM_PROMPT |}] in
  messages <~
    (if useSearch then
       searchResult <~ search userMessage ;;
       ret (if truthy searchResult
            then messages ++ [{| role := "system";
                                 content :=
                                   JStr ("Hasil pencarian web untuk " +:+ dquote +:+ userMessage
                                           +:+ dquote +:+ ":" +:+ nl +:+ nl +:+ tmpl searchResult
                                           +:+ nl +:+ nl
                                           +:+ "Gunakan informasi ini untuk menjawab.") |}]
            else messages)
     else ret messages) ;;
  ret (messages ++ [{| role := "user"; content := JStr userMessage |}]).

(** the [try] block of the loop body *)
Definition attempt (providerName : string) (provider : Provider) (apiKey : JValue)
    (model : option string) (messages : list Message) : Async JValue :=
  match special provider with
  | Some "gemini" => geminiRequest model messages
  | Some "cohere" => cohereRequest model messages
  | Some "cloudflare" => cloudflareRequest model messages
  | _ =>
      let endpoint := match endpoint provider with
                      | Providers.EndpointFn f => f model
                      | Providers.EndpointUrl url => url
                      end in
      openAIRequest endpoint apiKey model messages (default [] (extraHeaders provider))
  end.

(** The [for] loop of [askAI] over a chain: [None] when it runs off the end.
    [provider.key()] on a name missing from [PROVIDERS], or on one that names
    a built-in, throws outside the [try]. *)
Fixpoint askAI_loop (chain : list Candidate) (messages : list Message) : Async (option JValue) :=
  match chain with
  | [] => ret None
  | c :: rest =>
      match table_get PROVIDERS (provider c) with
      | Missing => throw (TypeError "Cannot read properties of undefined (reading 'key')")
      | Inherited _ => throw (TypeError "provider.key is not a function")
      | Own p =>
          let apiKey := key p in
          if negb (truthy apiKey) && negb (String.eqb (provider c) "pollinations")
          then askAI_loop rest messages else
          outcome <~
            try_catch
              (reply <~ attempt (provider c) p apiKey (model c) messages ;;
               if truthy reply then
                 console_log ("✅ [" +:+ provider c +:+ "/" +:+ tmpl (model_json (model c))
                                +:+ "] responded") ;;;
                 ret (Some reply)
               else ret None)
              (fun e =>
                 console_log ("⚠️ [" +:+ provider c +:+ "] failed: " +:+ message e) ;;;
                 ret None) ;;
          match outcome with
          | Some reply => ret (Some reply)
          | None => askAI_loop rest messages
          end
      end
  end.

Definition askAI (userMessage : string) (useSearch : bool) : Async JValue :=
  messages <~ askAI_compose userMessage useSearch ;;
  found <~ askAI_loop FALLBACK_CHAIN messages ;;
  match found with
  | Some reply => ret reply
  | None => ret (JStr apology)
  end.
End WithHost.
End Legacy.

(** ** [whatsapp/database.js]

    The two tables of the SQLite file and the statements the module runs on
    them.  Each function is the resolved branch of its promise; the [err]
    branch (the engine failing) rejects and changes nothing. *)

Module Database.

Record ConversationRow : Type := {
  id : Z;
  user_id : string;
  row_role : string;
  row_content : string;
  timestamp : Z
}.

Record SettingsRow : Type := {
  settings_provider : string;
  settings_model : string;
  settings_mode : string;
  updated_at : Z
}.

Record Db : Type := {
  conversations : list ConversationRow;     (* in rowid order *)
  last_id : Z;                              (* AUTOINCREMENT sequence *)
  user_settings : gmap string SettingsRow   (* PRIMARY KEY user_id *)
}.

Definition empty_db : Db :=
  {| conversations := []; last_id := 0; user_settings := ∅ |}.

Definition of_user (userId : string) (r : ConversationRow) : bool :=
  String.eqb (user_id r) userId.

(** [ORDER BY timestamp DESC]: insertion into a list sorted by descending
    timestamp, rows of equal timestamp kept in scan order. *)
Fixpoint insert_desc (r : ConversationRow) (sorted : list ConversationRow) : list ConversationRow :=
  match sorted with
  | [] => [r]
  | x :: rest =>
      if (timestamp x <? timestamp r)%Z then r :: x :: rest
      else x :: insert_desc r rest
  end.

Definition order_by_timestamp_desc (rows : list ConversationRow) : list ConversationRow :=
  fold_left (fun sorted r => insert_desc r sorted) rows [].

(** [LIMIT ?]: a negative limit is no limit. *)
Definition limit_rows {A} (limit : Z) (rows : list A) : list A :=
  if (limit <? 0)%Z then rows else firstn (Z.to_nat limit) rows.

(** [SELECT role, content ... WHERE user_id = ? ORDER BY timestamp DESC LIMIT ?],
    then [rows.reverse()] *)
Definition getHistory (userId : string) (limit : Z) (db : Db) : list Message :=
  let rows := limit_rows limit (order_by_timestamp_desc (List.filter (of_user userId) (conversations db))) in
  rev (map (fun r => {| role := row_role r; content := JStr (row_content r) |}) rows).

(** [INSERT INTO conversations (user_id, role, content)], at clock [now] *)
Definition addMessage (now : Z) (userId role content : string) (db : Db) : Db :=
  let rowid := (last_id db + 1)%Z in
  {| conversations := conversations db ++
       [{| id := rowid; user_id := userId; row_role := role; row_content := content;
           timestamp := now |}];
     last_id := rowid;
     user_settings := user_settings db |}.

(** [DELETE FROM conversations WHERE user_id = ?] *)
Definition clearHistory (userId : string) (db : Db) : Db :=
  {| conversations := List.filter (fun r => negb (of_user userId r)) (conversations db);
     last_id := last_id db;
     user_settings := user_settings db |}.

(** [SELECT provider, model, mode FROM user_settings WHERE user_id = ?],
    [row || null] *)
Definition getSettings (userId : string) (db : Db) : option (string * string * string) :=
  match user_settings db !! userId with
  | Some row => Some (settings_provider row, settings_model row, settings_mode row)
  | None => None
  end.

(** [INSERT ... ON CONFLICT(user_id) DO UPDATE SET ...], at clock [now] *)
Definition saveSettings (now : Z) (userId provider model mode : string) (db : Db) : Db :=
  {| conversations := conversations db;
     last_id := last_id db;
     user_settings :=
       <[userId := {| settings_provider := provider; settings_model := model;
                      settings_mode := mode; updated_at := now |}]> (user_settings db) |}.

(** [SELECT COUNT( * ) as total ...], [row.total || 0] *)
Definition getStats (userId : string) (db : Db) : Z :=
  let total := Z.of_nat (length (List.filter (of_user userId) (conversations db))) in
  if (total =? 0)%Z then 0%Z else total.
End Database.

(** ** [whatsapp/index.js]: sessions and commands

    The session cache is the module-level [Map]; the state of the application
    is that cache, the database and the world of the network.  What the
    process reads from the engine (case folding and whitespace of strings) and
    from the clock is a field of the class [Engine]. *)

Module Index.

Record Session : Type := {
  session_provider : string;
  session_model : string;
  session_mode : string
}.

Class Engine : Type := {
  toLowerCase : string -> string;
  trim : string -> string;
  (** [s.split(/\s+/)] *)
  split_whitespace : string -> list string;
  (** [strftime('%s', 'now')] when a statement runs on a database *)
  strftime_now : Database.Db -> Z
}.

Record AppState : Type := {
  world : World;
  db : Database.Db;
  sessionCache : gmap string Session
}.

Definition App (A : Type) : Type := AppState -> Completion A * AppState.

Definition app_ret {A} (a : A) : App A := fun st => (Returned a, st).
Definition app_throw {A} (e : JsError) : App A := fun st => (Thrown e, st).
Definition app_bind {A B} (m : App A) (k : A -> App B) : App B :=
  fun st => match m st with
            | (Returned a, st') => k a st'
            | (Thrown e, st') => (Thrown e, st')
            end.

Definition app_lift {A} (c : Completion A) : App A := fun st => (c, st).

(** an [async] function of the network, run on the world of the state *)
Definition on_world {A} (m : Async A) : App A :=
  fun st => let (c, w') := m (world st) in
            (c, {| world := w'; db := db st; sessionCache := sessionCache st |}).

(** a statement that reads the database *)
Definition query_db {A} (f : Database.Db -> A) : App A :=
  fun st => (Returned (f (db st)), st).

(** a statement that writes the database *)
Definition run_db (f : Database.Db -> Database.Db) : App unit :=
  fun st => (Returned tt, {| world := world st; db := f (db st); sessionCache := sessionCache st |}).

Declare Scope app_scope.
Delimit Scope app_scope with app.
Notation "x <~ m ;; k" := (app_bind m (fun x => k))
  (at level 100, m at next level, right associativity) : app_scope.
Notation "m ;;; k" := (app_bind m (fun _ => k))
  (at level 100, right associativity) : app_scope.
Local Open Scope app_scope.

(** [m.includes(needle)] *)
Fixpoint includes (hay needle : string) : bool :=
  String.prefix needle hay ||
  match hay with
  | EmptyString => false
  | String _ rest => includes rest needle
  end.

Section WithHost.
Context `{Host} `{Engine}.

(** [field || fallback] on a column of the settings row *)
Definition or_default (field : option string) (fallback : JValue) : string :=
  match field with
  | Some s => if truthy (JStr s) then s else tmpl fallback
  | None => tmpl fallback
  end.

Definition getSession (userId : string) : App Session :=
  fun st =>
    match sessionCache st !! userId with
    | Some session => (Returned session, st)
    | None =>
        let dbSettings := Database.getSettings userId (db st) in
        let session :=
          {| session_provider :=
               or_default (option_map (fun s => fst (fst s)) dbSettings)
                 (Config.default_provider Config.DEFAULTS);
             session_model :=
               or_default (option_map (fun s => snd (fst s)) dbSettings)
                 (Config.default_model Config.DEFAULTS);
             session_mode :=
               or_default (option_map snd dbSettings)
                 (JStr (Config.default_mode Config.DEFAULTS)) |} in
        (Returned session,
         {| world := world st; db := db st;
            sessionCache := <[userId := session]> (sessionCache st) |})
    end.

Definition saveSession (userId provider model mode : string) : App unit :=
  fun st =>
    (Returned tt,
     {| world := world st;
        db := Database.saveSettings (strftime_now (db st)) userId provider model mode (db st);
        sessionCache :=
          <[userId := {| session_provider := provider; session_model := model;
                         session_mode := mode |}]> (sessionCache st) |}).

Definition valid_modes : list string := ["normal"; "search"; "reasoning"].

Definition help_text (session : Session) : string :=
  "*🤖 Claw AI - WhatsApp Bot*" +:+ nl +:+ nl +:+ "*Commands:*" +:+ nl
  +:+ "• !help - Bantuan" +:+ nl +:+ "• !set - Lihat provider" +:+ nl
  +:+ "• !set <provider> - Lihat model" +:+ nl +:+ "• !set <provider> <model> - Pilih" +:+ nl
  +:+ "• !mode normal|search|reasoning" +:+ nl +:+ "• !search <query>" +:+ nl
  +:+ "• !clear - Hapus history" +:+ nl +:+ "• !stats - Statistik chat" +:+ nl
  +:+ "• !status" +:+ nl +:+ nl +:+ "*Aktif:* " +:+ session_provider session +:+ " / "
  +:+ session_model session +:+ " / " +:+ session_mode session.

(** The loop of [!set] over [Object.entries(PROVIDERS)]. *)
Definition provider_line (session : Session) (reply : string) (entry : string * Providers.Provider)
  : string :=
  let name := fst entry in
  let p := snd entry in
  let apiKey := Providers.key p in
  if negb (truthy apiKey) && negb (Providers.anonymous_tier name) then reply else
  let active := if String.eqb (session_provider session) name then " ✅" else "" in
  reply +:+ "*" +:+ name +:+ "*" +:+ active +:+ " (" +:+ pretty (length (Providers.models p))
    +:+ " model)" +:+ nl.

(** The [forEach((m, i) => ...)] of [!set <provider>]. *)
Fixpoint model_lines (session : Session) (providerName : string) (i : nat) (ms : list string)
    (reply : string) : string :=
  match ms with
  | [] => reply
  | m :: rest =>
      let active :=
        if String.eqb (session_provider session) providerName
           && String.eqb (session_model session) m then " ✅" else "" in
      model_lines session providerName (S i) rest
        (reply +:+ pretty (i + 1) +:+ ". " +:+ m +:+ active +:+ nl)
  end.

(** [provider.models.find(m => m === modelName || m.includes(modelName))] *)
Definition find_model (modelName : string) (ms : list string) : option string :=
  List.find (fun m => String.eqb m modelName || includes m modelName) ms.

Definition handleCommand (from text : string) : App JValue :=
  session <~ getSession from ;;
  let args := split_whitespace (trim text) in
  match args with
  | [] => app_throw (TypeError "Cannot read properties of undefined (reading 'toLowerCase')")
  | first :: more =>
      let cmd := toLowerCase first in
      if String.eqb cmd "!help" then app_ret (JStr (help_text session))
      else if String.eqb cmd "!status" then
        available <~ app_lift Providers.listAvailableProviders ;;
        totalMessages <~ query_db (Database.getStats from) ;;
        app_ret (JStr ("*📊 Status*" +:+ nl +:+ "• Provider: " +:+ session_provider session +:+ nl
                         +:+ "• Model: " +:+ session_model session +:+ nl
                         +:+ "• Mode: " +:+ session_mode session +:+ nl
                         +:+ "• Messages: " +:+ pretty totalMessages +:+ nl
                         +:+ "• Available: " +:+ pretty (length available) +:+ " providers"))
      else if String.eqb cmd "!stats" then
        total <~ query_db (Database.getStats from) ;;
        app_ret (JStr ("*📊 Chat Statistics*" +:+ nl +:+ "• Total messages: " +:+ pretty total +:+ nl
                         +:+ "• Database: SQLite" +:+ nl +:+ "• Storage: Persistent" +:+ nl +:+ nl
                         +:+ "Gunakan !clear untuk hapus history"))
      else if String.eqb cmd "!clear" then
        run_db (Database.clearHistory from) ;;;
        app_ret (JStr ("🗑️ History dihapus!" +:+ nl +:+ "(Settings tetap tersimpan)"))
      else if String.eqb cmd "!mode" then
        let mode := option_map toLowerCase (head more) in
        if negb (AI.given mode) then
          app_ret (JStr ("Mode aktif: *" +:+ session_mode session +:+ "*" +:+ nl
                           +:+ "Pilihan: normal, search, reasoning"))
        else if negb (listed (default "" mode) valid_modes) then
          app_ret (JStr "❌ Mode tidak valid.")
        else
          saveSession from (session_provider session) (session_model session) (default "" mode) ;;;
          app_ret (JStr ("✅ Mode: *" +:+ default "" mode +:+ "*"))
      else if String.eqb cmd "!search" then
        let query := String.concat " " more in
        if negb (truthy (JStr query)) then app_ret (JStr "❌ Contoh: !search cuaca jakarta") else
        result <~ on_world (Search.search query "duckduckgo" 5) ;;
        app_ret (if truthy result
                 then JStr ("🔍 *Hasil:*" +:+ nl +:+ nl +:+ tmpl result)
                 else JStr "❌ Tidak ada hasil.")
      else if String.eqb cmd "!set" && (length args =? 1)%nat then
        let reply := "*⚙️ Provider Tersedia:*" +:+ nl +:+ nl in
        let reply := fold_left (provider_line session) Providers.PROVIDERS_entries reply in
        app_ret (JStr (reply +:+ nl +:+ "Ketik !set <provider> untuk lihat model"))
      else if String.eqb cmd "!set" && (length args =? 2)%nat then
        let providerName := toLowerCase (default "" (head more)) in
        match table_get Providers.PROVIDERS providerName with
        | Missing => app_ret (JStr ("❌ Provider tidak ada: " +:+ providerName))
        | Inherited _ =>
            (* [provider.models] of a built-in is [undefined] *)
            app_throw (TypeError "Cannot read properties of undefined (reading 'slice')")
        | Own provider =>
            let reply := "*📋 Model di " +:+ providerName +:+ ":*" +:+ nl +:+ nl in
            let reply :=
              model_lines session providerName 0 (firstn 20 (Providers.models provider)) reply in
            let reply :=
              if (20 <? length (Providers.models provider))%nat
              then reply +:+ nl +:+ "...dan " +:+ pretty (length (Providers.models provider) - 20)
                     +:+ " lainnya"
              else reply in
            app_ret (JStr (reply +:+ nl +:+ "Gunakan: !set " +:+ providerName +:+ " <model>"))
        end
      else if String.eqb cmd "!set" && (3 <=? length args)%nat then
        let providerName := toLowerCase (default "" (head more)) in
        let modelName := String.concat " " (drop 1 more) in
        match table_get Providers.PROVIDERS providerName with
        | Missing => app_ret (JStr ("❌ Provider tidak ada: " +:+ providerName))
        | Inherited _ =>
            app_throw (TypeError "Cannot read properties of undefined (reading 'find')")
        | Own provider =>
            let validModel := find_model modelName (Providers.models provider) in
            if negb (AI.given validModel) then
              app_ret (JStr ("❌ Model tidak ada: " +:+ modelName +:+ nl
                               +:+ "Ketik !set " +:+ providerName +:+ " untuk daftar."))
            else
              saveSession from providerName (default "" validModel) (session_mode session) ;;;
              app_ret (JStr ("✅ *Provider & Model Updated!*" +:+ nl
                               +:+ "• Provider: " +:+ providerName +:+ nl
                               +:+ "• Model: " +:+ default "" validModel +:+ nl
                               +:+ "• History: TETAP TERSIMPAN ✅"))
        end
      else app_ret JNull
  end.
End WithHost.
End Index.

(** ** [whatsapp/index.js]: the connection handler

    [connection.update] events of the WhatsApp socket.  What the handler does
    besides counting is recorded as an action: the lines it prints and the
    timer it sets.  [DisconnectReason.loggedOut] is a constant of the
    library. *)

Module Connection.

Record Update : Type := {
  connection : option string;
  (** [lastDisconnect?.error?.output?.statusCode] *)
  statusCode : option Z;
  (** the truth value of [qr] *)
  qr : bool
}.

Inductive Action : Type :=
| ShowQr                       (* the QR code is printed *)
| LoggedOut                    (* [❌ Logged out! ...], no timer *)
| GiveUp                       (* [❌ Gagal reconnect 10x, berhenti.], no timer *)
| ReconnectIn (delay : Z)      (* [setTimeout(connectWhatsApp, delay)] *)
| Connected                    (* [✅ WhatsApp Connected!] and the provider list *)
| Ignored.

Definition MAX_RECONNECT : Z := 10.

Definition same_code (a : option Z) (b : Z) : bool :=
  match a with
  | Some x => (x =? b)%Z
  | None => false
  end.

(** The handler: the action taken and the new value of [reconnectAttempts]. *)
Definition on_connection_update (loggedOut : Z) (update : Update) (reconnectAttempts : Z)
  : Action * Z :=
  if qr update then (ShowQr, reconnectAttempts)
  else if bool_decide (connection update = Some "close") then
    if same_code (statusCode update) loggedOut then (LoggedOut, reconnectAttempts)
    else
      let reconnectAttempts := (reconnectAttempts + 1)%Z in
      if (MAX_RECONNECT <? reconnectAttempts)%Z then (GiveUp, reconnectAttempts)
      else (ReconnectIn (Z.min (3000 * reconnectAttempts) 30000), reconnectAttempts)
  else if bool_decide (connection update = Some "open") then (Connected, 0%Z)
  else (Ignored, reconnectAttempts).
End Connection.

(** ** The earlier bot: sessions held in memory

    [Date.now()] is an argument of the function that reads it. *)

Module LegacyBot.

Record Session : Type := {
  history : list Message;
  mode : string;
  lastActivity : Z
}.

(** [getSession(userId)]: the session of the user and the map, with a fresh
    session put in it on a miss. *)
Definition getSession (now : Z) (userId : string) (sessions : gmap string Session)
  : Session * gmap string Session :=
  match sessions !! userId with
  | Some session => (session, sessions)
  | None =>
      let session := {| history := []; mode := "normal"; lastActivity := now |} in
      (session, <[userId := session]> sessions)
  end.

(** [addToHistory(userId, role, content)]; [created] and [now] are the two
    readings of the clock. *)
Definition addToHistory (created now : Z) (userId role : string) (content : JValue)
    (sessions : gmap string Session) : gmap string Session :=
  let (session, sessions) := getSession created userId sessions in
  let pushed := history session ++ [{| role := role; content := content |}] in
  let kept := if (10 <? length pushed)%nat then drop 1 pushed else pushed in
  <[userId := {| history := kept; mode := mode session; lastActivity := now |}]> sessions.
End LegacyBot.

(** ** Vocabulary of the statements *)

(** The names of the catalog of [providers.js], in the order of its keys. *)
Definition catalog_names : list string :=
  ["groq"; "openrouter"; "pollinations"; "gemini"; "cerebras"; "sambanova"; "cloudflare";
   "huggingface"; "cohere"; "siliconflow"; "routeway"; "mlvoca"; "puter"].

(** The environment variable behind the credential of each provider that
    needs one. *)
Definition credential_variables : list (string * string) :=
  [("groq", "GROQ_API_KEY"); ("openrouter", "OPENROUTER_API_KEY"); ("gemini", "GEMINI_API_KEY");
   ("cerebras", "CEREBRAS_API_KEY"); ("sambanova", "SAMBANOVA_API_KEY");
   ("cloudflare", "CLOUDFLARE_API_TOKEN"); ("huggingface", "HUGGINGFACE_TOKEN");
   ("cohere", "COHERE_API_KEY"); ("siliconflow", "SILICONFLOW_API_KEY");
   ("routeway", "ROUTEWAY_API_KEY"); ("puter", "PUTER_API_KEY")].

(** A step of a reply path: a property, or the first element. *)
Inductive PathStep : Type :=
| Field (k : string)
| First.

(** Following a path with optional chaining ([?.]) at every step. *)
Fixpoint walk (path : list PathStep) (v : JValue) : JValue :=
  match path with
  | [] => v
  | Field k :: rest => walk rest (opt_get v k)
  | First :: rest => walk rest (opt_first v)
  end.

(** The paths the adapters of [ai.js] read a reply from. *)
Definition reply_paths : list (list PathStep) :=
  [ [Field "choices"; First; Field "message"; Field "content"];
    [Field "candidates"; First; Field "content"; Field "parts"; First; Field "text"];
    [Field "message"; Field "content"; First; Field "text"];
    [Field "result"; Field "response"];
    [Field "response"];
    [Field "result"; Field "message"; Field "content"];
    [Field "result"; Field "choices"; First; Field "message"; Field "content"] ].

(** An answer of the network that carries no reply: a rejection (status
    outside 2xx, timeout, connection error), or a body none of whose reply
    paths holds a truthy value (a malformed body included). *)
Definition no_reply (r : HttpResult) : bool :=
  match r with
  | Rejected _ => true
  | Resolved data => forallb (fun p => negb (truthy (walk p data))) reply_paths
  end.

(** Where each adapter of [ai.js] reads the reply, in the order it tries. *)
Definition adapter_paths (providerName : string) : list (list PathStep) :=
  if String.eqb providerName "gemini" then
    [[Field "candidates"; First; Field "content"; Field "parts"; First; Field "text"]]
  else if String.eqb providerName "cohere" then
    [[Field "message"; Field "content"; First; Field "text"]]
  else if String.eqb providerName "cloudflare" then [[Field "result"; Field "response"]]
  else if String.eqb providerName "mlvoca" then [[Field "response"]]
  else if String.eqb providerName "puter" then
    [[Field "result"; Field "message"; Field "content"];
     [Field "result"; Field "choices"; First; Field "message"; Field "content"]]
  else [[Field "choices"; First; Field "message"; Field "content"]].

(** An answer of the network that carries no reply for one adapter: a
    rejection, or a body in which none of the paths that adapter reads holds a
    truthy value. *)
Definition no_reply_at (paths : list (list PathStep)) (r : HttpResult) : bool :=
  match r with
  | Rejected _ => true
  | Resolved data => forallb (fun p => negb (truthy (walk p data))) paths
  end.

(** The chain [askAI] runs over in a mode: the array its lookup finds (none
    where it finds a built-in). *)
Definition chain_of (mode : string) : list Candidate :=
  match AI.chainFor mode with
  | Own chain => chain
  | Inherited _ | Missing => []
  end.

(** A completion that hands no reply to its caller. *)
Definition null_or_thrown (c : Completion JValue) : Prop :=
  match c with
  | Returned v => v = JNull
  | Thrown _ => True
  end.

Section Vocabulary.
Context `{Host}.

(** The credential resolver answers [true] for the name. *)
Definition available (name : string) : bool :=
  match Providers.isProviderAvailable name with
  | Returned answer => answer
  | Thrown _ => false
  end.

(** The world after candidate [c] has been attempted once, if it is available. *)
Definition attempted (messages : list Message) (w : World) (c : Candidate) : World :=
  if available (provider c)
  then snd (AI.tryProvider (provider c) (model c) messages w)
  else w.

(** The world in which the candidate at position [k] of the chain is reached:
    every available candidate before it has been attempted once, in order. *)
Definition world_before (chain : list Candidate) (messages : list Message) (w : World) (k : nat)
  : World :=
  fold_left (attempted messages) (take k chain) w.

(** The world after the success line of the loop is printed. *)
Definition won (c : Candidate) (w : World) : World :=
  snd (console_log ("✅ [" +:+ provider c +:+ "/" +:+ tmpl (model_json (model c)) +:+ "]") w).

(** The worlds after the two console lines of the override probe. *)
Definition probe_won (p m : string) (w : World) : World :=
  snd (console_log ("✅ [" +:+ p +:+ "/" +:+ m +:+ "]") w).

Definition probe_lost (p : string) (w : World) : World :=
  snd (console_log ("⚠️ [" +:+ p +:+ "] failed, trying fallback...") w).

(** The layout the message list has according to the design notes: the search
    context right after the base system prompt, before the history window. *)
Definition layout_context_before_history (base : Message) (context window : list Message)
    (user : Message) : list Message :=
  [base] ++ context ++ window ++ [user].

(** The layout [askAI] produces: the search context after the history window. *)
Definition layout_context_after_history (base : Message) (context window : list Message)
    (user : Message) : list Message :=
  [base] ++ window ++ context ++ [user].
End Vocabulary.



Section SearchVocabulary.
Context `{Host}.




(** The one request [searchDDG] issues, for the encoded query. *)
Definition ddg_request (encoded : string) : HttpRequest :=
  {| req_method := GET;
     req_url := "https://api.duckduckgo.com/?q=" +:+ encoded +:+ "&format=json&no_html=1";
     req_params := []; req_body := JUndef; req_headers := []; req_timeout := 10000 |}.

(** What [searchDDG] sends for a query: its one request, or nothing when the
    query cannot be encoded. *)
Definition ddg_requests (query : string) : list HttpRequest :=
  match encodeURIComponent query with
  | Returned encoded => [ddg_request encoded]
  | Thrown _ => []
  end.

Definition jina_request (encoded : string) : HttpRequest :=
  {| req_method := GET; req_url := "https://s.jina.ai/" +:+ encoded;
     req_params := []; req_body := JUndef; req_headers := []; req_timeout := 30000 |}.

Definition jina_requests (query : string) : list HttpRequest :=
  match encodeURIComponent query with
  | Returned encoded => [jina_request encoded]
  | Thrown _ => []
  end.

Definition tavily_request (query : string) (maxResults : nat) : HttpRequest :=
  {| req_method := POST; req_url := "https://api.tavily.com/search"; req_params := [];
     req_body := JObj [("api_key", Config.tavily Config.API_KEYS);
                       ("query", JStr query);
                       ("max_results", JNum (Z.of_nat maxResults) 0);
                       ("include_answer", JBool true)];
     req_headers := []; req_timeout := 15000 |}.

Definition brave_request (query : string) (maxResults : nat) : HttpRequest :=
  {| req_method := GET; req_url := "https://api.search.brave.com/res/v1/web/search";
     req_params := [("q", JStr query); ("count", JNum (Z.of_nat maxResults) 0)];
     req_body := JUndef;
     req_headers := [("X-Subscription-Token", tmpl (Config.brave Config.API_KEYS))];
     req_timeout := 15000 |}.

Definition serper_request (query : string) (maxResults : nat) : HttpRequest :=
  {| req_method := POST; req_url := "https://google.serper.dev/search"; req_params := [];
     req_body := JObj [("q", JStr query); ("num", JNum (Z.of_nat maxResults) 0)];
     req_headers := [("X-API-KEY", tmpl (Config.serper Config.API_KEYS))];
     req_timeout := 15000 |}.

(** The backend the [engine] argument of [search] selects, as the request
    sent to it: a premium engine when it is named and its key is configured,
    Jina when it is named, DuckDuckGo otherwise. *)
Definition requests_of_engine (query engine : string) (maxResults : nat) : list HttpRequest :=
  if String.eqb engine "tavily" && truthy (Config.tavily Config.API_KEYS)
  then [tavily_request query maxResults]
  else if String.eqb engine "brave" && truthy (Config.brave Config.API_KEYS)
  then [brave_request query maxResults]
  else if String.eqb engine "serper" && truthy (Config.serper Config.API_KEYS)
  then [serper_request query maxResults]
  else if String.eqb engine "jina" then jina_requests query
  else ddg_requests query.


(** The [catch] of [search]. *)
Definition search_failed (engine : string) (e : JsError) : Async JValue :=
  console_log ("Search error (" +:+ engine +:+ "): " +:+ message e) ;;; ret JNull.
End SearchVocabulary.


Section LegacyVocabulary.
Context `{Host}.

(** The inline credential check of the earlier bridge's loop. *)
Definition legacy_available (c : Candidate) : bool :=
  match Legacy.PROVIDERS !! provider c with
  | Some p => truthy (Legacy.key p) || String.eqb (provider c) "pollinations"
  | None => false
  end.

(** The world after the earlier bridge's loop has dealt with candidate [c]
    alone. *)
Definition legacy_passed (messages : list Message) (w : World) (c : Candidate) : World :=
  snd (Legacy.askAI_loop [c] messages w).

Definition legacy_world_before (chain : list Candidate) (messages : list Message) (w : World)
    (k : nat) : World :=
  fold_left (legacy_passed messages) (take k chain) w.
End LegacyVocabulary.

(** The prompt the design notes describe for the raw-generate adapter: the
    last system message, then the last user message. *)
Definition last_with_role (r : string) (messages : list Message) : option Message :=
  List.find (fun m => String.eqb (role m) r) (rev messages).

Section PromptVocabulary.
Context `{Host}.

(** A system text, a blank line and a prompt; the prompt alone when there is
    no system text. *)
Definition system_then_prompt (sys prompt : JValue) : JValue :=
  if truthy sys then JStr (tmpl sys +:+ nl +:+ nl +:+ tmpl prompt) else prompt.

(** The content of a message, the empty string when there is no message or
    it says nothing. *)
Definition content_or_empty (m : option Message) : JValue :=
  js_or (from_option content JUndef m) (JStr "").

Definition prompt_of_last_system_and_last_user (messages : list Message) : JValue :=
  system_then_prompt (content_or_empty (last_with_role "system" messages))
                     (content_or_empty (last_with_role "user" messages)).

(** The prompt [mlvocaRequest] builds, in words: the first system message (when
    it is not empty), a blank line, the last message of the list. *)
Definition prompt_of_first_system_and_last_message (messages : list Message) : JValue :=
  system_then_prompt
    (content_or_empty (head (List.filter (fun m => String.eqb (role m) "system") messages)))
    (content_or_empty (last messages)).
End PromptVocabulary.

(** The rows [getHistory] selects, newest first, before it projects and
    reverses them. *)
Definition selected_rows (userId : string) (limit : Z) (db : Database.Db)
  : list Database.ConversationRow :=
  Database.limit_rows limit
    (Database.order_by_timestamp_desc
       (List.filter (Database.of_user userId) (Database.conversations db))).

Definition message_of_row (r : Database.ConversationRow) : Message :=
  {| role := Database.row_role r; content := JStr (Database.row_content r) |}.

Definition oldest_first (rows : list Database.ConversationRow) : Prop :=
  StronglySorted (fun a b => (Database.timestamp a <= Database.timestamp b)%Z) rows.

Definition newest_first (rows : list Database.ConversationRow) : Prop :=
  StronglySorted (fun a b => (Database.timestamp b <= Database.timestamp a)%Z) rows.

(** [m] only appends to the request log, and at most [n] requests. *)
Definition issues_at_most {A} (n : nat) (m : Async A) : Prop :=
  forall w, exists reqs, http_log (snd (m w)) = http_log w ++ reqs /\ length reqs <= n.

(** The candidates of a chain the loop of [askAI] does not skip. *)
Definition available_candidates `{Host} (chain : list Candidate) : list Candidate :=
  List.filter (fun c => available (provider c)) chain.

(** One turn of a Gemini conversation: [user] stays, every other role is
    [model]. *)
Definition gemini_turn (m : Message) : JValue :=
  JObj [("role", JStr (if String.eqb (role m) "user" then "user" else "model"));
        ("parts", JArr [JObj [("text", content m)]])].

Definition conversation_turns (messages : list Message) : list Message :=
  List.filter (fun m => negb (String.eqb (role m) "system")) messages.

Definition gemini_instruction (text : JValue) : JValue :=
  JObj [("parts", JArr [JObj [("text", text)]])].

(** [headers[k]] on the headers of a request *)
Definition header (k : string) (headers : list (string * string)) : option string :=
  option_map snd (List.find (fun kv => String.eqb (fst kv) k) headers).

Section PremiumVocabulary.
Context `{Host}.

(** The engines of [search.js] that need a key: the key and the address the
    query is sent to. *)
Definition premium_engines : list (string * (JValue * string)) :=
  [("tavily", (Config.tavily Config.API_KEYS, "https://api.tavily.com/search"));
   ("brave", (Config.brave Config.API_KEYS, "https://api.search.brave.com/res/v1/web/search"));
   ("serper", (Config.serper Config.API_KEYS, "https://google.serper.dev/search"))].
End PremiumVocabulary.

Section IndexVocabulary.
Context `{Host} `{Index.Engine}.

(** The process started again on the same database: nothing is cached. *)
Definition restarted (st : Index.AppState) : Index.AppState :=
  {| Index.world := Index.world st; Index.db := Index.db st; Index.sessionCache := ∅ |}.

(** Every cached session is the one a restart would load from the database. *)
Definition cache_coherent (st : Index.AppState) : Prop :=
  forall userId session,
    Index.sessionCache st !! userId = Some session ->
    fst (Index.getSession userId (restarted st)) = Returned session.

(** [args[0].toLowerCase()] of a message *)
Definition command_word (text : string) : option string :=
  option_map Index.toLowerCase (head (Index.split_whitespace (Index.trim text))).

(** The message is [!set] followed by a provider name that is the name of a
    member every object inherits. *)
Definition sets_inherited_provider (text : string) : bool :=
  match Index.split_whitespace (Index.trim text) with
  | first :: p :: _ =>
      String.eqb (Index.toLowerCase first) "!set" && inherited (Index.toLowerCase p)
  | _ => false
  end.
End IndexVocabulary.

(** The handler run over a sequence of events: the actions it takes. *)
Fixpoint connection_actions (loggedOut : Z) (updates : list Connection.Update)
    (reconnectAttempts : Z) : list Connection.Action :=
  match updates with
  | [] => []
  | update :: rest =>
      let (action, reconnectAttempts) :=
        Connection.on_connection_update loggedOut update reconnectAttempts in
      action :: connection_actions loggedOut rest reconnectAttempts
  end.

(** The connection was lost, for a reason other than a logout. *)
Definition lost (loggedOut : Z) (update : Connection.Update) : Prop :=
  Connection.qr update = false /\
  Connection.connection update = Some "close" /\
  Connection.same_code (Connection.statusCode update) loggedOut = false.

(** [a || b || ... || null] *)
Definition first_truthy (values : list JValue) : JValue := fold_right js_or JNull values.

(** ** Sample hosts and inputs *)

Definition host_with (env : list (string * string))
    (net : list HttpRequest -> HttpRequest -> HttpResult) : Host :=
  {| process_env := list_to_map env;
     axios := net;
     ToString := fun _ => "[object Object]" |}.

Definition fresh_world : World := {| http_log := []; console := [] |}.

Definition chat_reply (text : string) : JValue :=
  JObj [("choices", JArr [JObj [("message", JObj [("role", JStr "assistant");
                                                  ("content", JStr text)])]])].

(** Nothing answers. *)
Definition net_offline : list HttpRequest -> HttpRequest -> HttpResult :=
  fun _ _ => Rejected "connect ECONNREFUSED".

(** Only Pollinations answers; every other endpoint is down. *)
Definition net_pollinations_only : list HttpRequest -> HttpRequest -> HttpResult :=
  fun _ req =>
    if String.eqb (req_url req) "https://gen.pollinations.ai/v1/chat/completions"
    then Resolved (chat_reply "hi there")
    else Rejected "Request failed with status code 503".

Definition host_groq_down : Host :=
  host_with [("GROQ_API_KEY", "gsk_demo")] net_pollinations_only.

(** A Groq key is configured and nothing answers. *)
Definition host_offline : Host :=
  host_with [("GROQ_API_KEY", "gsk_demo")] net_offline.

(** DuckDuckGo answers with an abstract; every other endpoint is down. *)
Definition net_ddg_answers : list HttpRequest -> HttpRequest -> HttpResult :=
  fun _ req =>
    if String.prefix "https://api.duckduckgo.com/" (req_url req)
    then Resolved (JObj [("Abstract", JStr "Jakarta: 31 C, cerah"); ("RelatedTopics", JArr [])])
    else Rejected "Request failed with status code 503".

Definition host_ddg_answers : Host := host_with [] net_ddg_answers.

Definition two_turns : list Message :=
  [{| role := "user"; content := JStr "halo" |};
   {| role := "assistant"; content := JStr "hai" |}].



Definition hello_messages : list Message :=
  [{| role := "system"; content := AI.systemPromptFor "normal" |};
   {| role := "user"; content := JStr "hello" |}].

(** Two users with history and settings. *)
Definition two_users_db : Database.Db :=
  Database.saveSettings 1700000005 "628111@s.whatsapp.net" "groq" "llama-3.3-70b-versatile" "search"
    (Database.addMessage 1700000004 "628222@s.whatsapp.net" "assistant" "hai juga"
       (Database.addMessage 1700000003 "628222@s.whatsapp.net" "user" "hai"
          (Database.addMessage 1700000002 "628111@s.whatsapp.net" "assistant" "halo juga"
             (Database.addMessage 1700000001 "628111@s.whatsapp.net" "user" "halo"
                Database.empty_db)))).

(** A Gemini key is configured and nothing answers. *)
Definition host_gemini_offline : Host :=
  host_with [("GEMINI_API_KEY", "AIza_demo")] net_offline.

(** A Cloudflare token without the account id. *)
Definition host_cloudflare_token_only : Host :=
  host_with [("CLOUDFLARE_API_TOKEN", "cf_demo")] net_offline.

(** What [askAI] composes in search mode: prompt, history, search context,
    question. *)
Definition searched_messages : list Message :=
  [{| role := "system"; content := AI.systemPromptFor "search" |};
   {| role := "user"; content := JStr "halo" |};
   {| role := "assistant"; content := JStr "hai" |};
   {| role := "system";
      content := JStr ("Hasil pencarian:" +:+ nl +:+ "📌 Jakarta: 31 C, cerah") |};
   {| role := "user"; content := JStr "cuaca jakarta" |}].

(** A Tavily key is configured and nothing answers. *)
Definition host_tavily_offline : Host :=
  host_with [("TAVILY_API_KEY", "tvly_demo")] net_offline.

(** A sample engine for strings of ASCII letters and blanks. *)
Definition ascii_lower (c : ascii) : ascii :=
  let n := nat_of_ascii c in
  if (65 <=? n)%nat && (n <=? 90)%nat then ascii_of_nat (n + 32) else c.

Fixpoint string_lower (s : string) : string :=
  match s with
  | EmptyString => EmptyString
  | String c rest => String (ascii_lower c) (string_lower rest)
  end.

Fixpoint drop_blanks (s : string) : string :=
  match s with
  | String c rest => if Ascii.is_space c then drop_blanks rest else s
  | EmptyString => EmptyString
  end.

Definition engine_ascii : Index.Engine :=
  {| Index.toLowerCase := string_lower;
     Index.trim := fun s => String.rev (drop_blanks (String.rev (drop_blanks s)));
     Index.split_whitespace := fun s => match String.words s with [] => [""] | ws => ws end;
     Index.strftime_now := fun _ => 1700000100%Z |}.

(** The bot just started on the database of the two users. *)
Definition started : Index.AppState :=
  {| Index.world := fresh_world; Index.db := two_users_db; Index.sessionCache := ∅ |}.

(** A session of the earlier bot that holds ten messages. *)
Definition ten_messages : list Message :=
  map (fun n => {| role := "user"; content := JStr (pretty n) |}) (seq 1 10).

Definition full_sessions : gmap string LegacyBot.Session :=
  <["628111@s.whatsapp.net" :=
      {| LegacyBot.history := ten_messages; LegacyBot.mode := "search";
         LegacyBot.lastActivity := 1700000000000 |}]> ∅.

(** The connection drops with status 428. *)
Definition dropped : Connection.Update :=
  {| Connection.connection := Some "close"; Connection.statusCode := Some 428%Z;
     Connection.qr := false |}.

(** * Properties *)

(** ** The catalog *)

Section CatalogFacts.
Context `{Host}.
Import Providers.

Lemma catalog_names_keys : map fst PROVIDERS_entries = catalog_names.
Proof. reflexivity. Qed.

Lemma catalog_NoDup : NoDup (map fst PROVIDERS_entries).
Proof. rewrite catalog_names_keys. apply (bool_decide_unpack _). vm_compute. exact I. Qed.

Lemma PROVIDERS_lookup_Some name p :
  PROVIDERS !! name = Some p <-> (name, p) ∈ PROVIDERS_entries.
Proof.
  split.
  - apply elem_of_list_to_map_2.
  - apply elem_of_list_to_map_1. apply catalog_NoDup.
Qed.

Lemma PROVIDERS_registered name :
  is_Some (PROVIDERS !! name) <-> name ∈ catalog_names.
Proof.
  rewrite <- catalog_names_keys. split.
  - intros [p Hp]. apply PROVIDERS_lookup_Some in Hp.
    apply list_elem_of_fmap. exists (name, p). split; [reflexivity | exact Hp].
  - intros Hin. destruct (PROVIDERS !! name) eqn:E; [eauto |].
    apply not_elem_of_list_to_map_2 in E. contradiction.
Qed.

(** What [key()] can be: a variable of the environment, or [null]. *)
Lemma key_shapes name p :
  PROVIDERS !! name = Some p ->
  key p = JNull \/ exists var, key p = env_get var \/ key p = js_or (env_get var) JNull.
Proof.
  intros Hp. apply PROVIDERS_lookup_Some in Hp.
  unfold PROVIDERS_entries in Hp.
  repeat (apply elem_of_cons in Hp as [Hp | Hp];
          [ injection Hp as -> ->; cbn; eauto | ]).
  inversion Hp.
Qed.

Lemma truthy_env_get var :
  truthy (env_get var) = true -> exists s, env_get var = JStr s /\ s <> "".
Proof.
  unfold env_get. destruct (process_env !! var) as [s|]; cbn; [| discriminate].
  intros Ht. exists s. split; [reflexivity |].
  intros ->. discriminate.
Qed.

Lemma truthy_key name p :
  PROVIDERS !! name = Some p ->
  truthy (key p) = true <-> exists s, key p = JStr s /\ s <> "".
Proof.
  intros Hp. split.
  - intros Ht. destruct (key_shapes _ _ Hp) as [E | [var [E | E]]]; rewrite E in *.
    + discriminate.
    + apply truthy_env_get, Ht.
    + unfold js_or in *. destruct (truthy (env_get var)) eqn:Tv; [| discriminate].
      apply truthy_env_get, Tv.
  - intros (s & -> & Hs). cbn. destruct s; [contradiction | reflexivity].
Qed.
End CatalogFacts.

(** ** Credential resolver *)

Section Availability.
Context `{Host}.
Import Providers.

Lemma anonymous_tier_iff name :
  anonymous_tier name = true <-> name = "pollinations" \/ name = "mlvoca".
Proof.
  unfold anonymous_tier. rewrite orb_true_iff, !String.eqb_eq. reflexivity.
Qed.

Lemma table_get_Own {A} (table : gmap string A) name a :
  table !! name = Some a -> table_get table name = Own a.
Proof. intros E. unfold table_get. rewrite E. reflexivity. Qed.

Lemma table_get_None {A} (table : gmap string A) name :
  table !! name = None ->
  table_get table name = if inherited name then Inherited name else Missing.
Proof. intros E. unfold table_get. rewrite E. reflexivity. Qed.

Lemma table_get_None_inherited {A} (table : gmap string A) name :
  table !! name = None -> inherited name = true -> table_get table name = Inherited name.
Proof. intros E Hin. rewrite (table_get_None _ _ E), Hin. reflexivity. Qed.

Lemma table_get_Own_inv {A} (table : gmap string A) name a :
  table_get table name = Own a -> table !! name = Some a.
Proof.
  unfold table_get. destruct (table !! name); [congruence |].
  destruct (inherited name); discriminate.
Qed.

Lemma table_get_Inherited_inv {A} (table : gmap string A) name name' :
  table_get table name = Inherited name' ->
  table !! name = None /\ inherited name = true /\ name' = name.
Proof.
  unfold table_get. destruct (table !! name); [discriminate |].
  destruct (inherited name); [| discriminate]. intros [= <-]. auto.
Qed.

Lemma table_get_Missing_inv {A} (table : gmap string A) name :
  table_get table name = Missing -> table !! name = None /\ inherited name = false.
Proof.
  unfold table_get. destruct (table !! name); [discriminate |].
  destruct (inherited name); [discriminate | auto].
Qed.

Lemma catalog_not_inherited name : name ∈ catalog_names -> inherited name = false.
Proof.
  intros Hin. unfold catalog_names in Hin.
  repeat (apply elem_of_cons in Hin as [-> | Hin]; [reflexivity |]). inversion Hin.
Qed.

Lemma unregistered_not_anonymous name : name ∉ catalog_names -> anonymous_tier name = false.
Proof.
  intros Hout. destruct (anonymous_tier name) eqn:Ha; [| reflexivity].
  exfalso. apply Hout. apply anonymous_tier_iff in Ha as [-> | ->];
    apply (bool_decide_unpack _); vm_compute; exact I.
Qed.

Lemma PROVIDERS_unregistered name : name ∉ catalog_names -> PROVIDERS !! name = None.
Proof.
  intros Hout. destruct (PROVIDERS !! name) as [p |] eqn:E; [| reflexivity].
  exfalso. apply Hout, PROVIDERS_registered. eauto.
Qed.

Lemma isProviderAvailable_unregistered name :
  name ∉ catalog_names ->
  isProviderAvailable name
  = if inherited name then Thrown (TypeError "p.key is not a function") else Returned false.
Proof.
  intros Hout. unfold isProviderAvailable.
  rewrite (table_get_None _ _ (PROVIDERS_unregistered _ Hout)).
  destruct (inherited name); [| reflexivity].
  rewrite (unregistered_not_anonymous _ Hout). reflexivity.
Qed.

Lemma isProviderAvailable_Some name p :
  PROVIDERS !! name = Some p ->
  isProviderAvailable name = Returned (anonymous_tier name || truthy (key p)).
Proof.
  intros E. unfold isProviderAvailable. rewrite (table_get_Own _ _ _ E).
  destruct (anonymous_tier name); reflexivity.
Qed.

Lemma isProviderAvailable_true_registered name :
  isProviderAvailable name = Returned true -> name ∈ catalog_names.
Proof.
  intros Hav. destruct (decide (name ∈ catalog_names)) as [Hin | Hout]; [exact Hin |].
  rewrite (isProviderAvailable_unregistered _ Hout) in Hav.
  destruct (inherited name); discriminate.
Qed.

Lemma available_iff name : available name = true <-> isProviderAvailable name = Returned true.
Proof.
  unfold available. destruct (isProviderAvailable name) as [[|] | e]; split; congruence.
Qed.

Lemma available_false name answer :
  isProviderAvailable name = Returned answer -> available name = answer.
Proof. unfold available. intros ->. reflexivity. Qed.

Lemma isProviderAvailable_credentialed name var :
  (name, var) ∈ credential_variables ->
  isProviderAvailable name = Returned (truthy (env_get var)).
Proof.
  intros Hin. unfold credential_variables in Hin.
  repeat (apply elem_of_cons in Hin as [Hin | Hin];
          [ injection Hin as -> ->; erewrite isProviderAvailable_Some by reflexivity;
            cbn; unfold env_get; destruct (process_env !! _) as [[| c s] |]; reflexivity
          | ]).
  inversion Hin.
Qed.

Ltac lookup_concrete :=
  lazymatch goal with
  | |- context [PROVIDERS !! ?n] =>
      let E := fresh "E" in
      eassert (E : PROVIDERS !! n = Some _) by reflexivity; rewrite E; clear E
  end.

(** C4. [isProviderAvailable] answers [true] exactly for a name of the catalog
    that is one of the two anonymous-tier providers or whose credential lookup
    returns a non-empty string.  For a name of the catalog it always answers,
    and with an empty or missing secret a credentialed provider gets [false].
    A name outside the catalog is never answered with [true]: the answer is
    [false], unless the name is that of a member every object inherits
    ([constructor], [toString], ...), for which the lookup finds that member
    and the call of its [key] throws.  The last part names the environment
    variable behind each credentialed provider. *)
Theorem isProviderAvailable_iff_registered_and_credentialed (name : string) :
  (isProviderAvailable name = Returned true <->
     name ∈ catalog_names /\
     (name = "pollinations" \/ name = "mlvoca" \/
      exists p s, PROVIDERS !! name = Some p /\ key p = JStr s /\ s <> "")) /\
  (name ∈ catalog_names -> exists answer, isProviderAvailable name = Returned answer) /\
  (forall p, PROVIDERS !! name = Some p -> name <> "pollinations" -> name <> "mlvoca" ->
     truthy (key p) = false -> isProviderAvailable name = Returned false) /\
  (name ∉ catalog_names ->
     isProviderAvailable name <> Returned true /\
     isProviderAvailable name
     = if inherited name then Thrown (TypeError "p.key is not a function")
       else Returned false) /\
  (forall var, (name, var) ∈ credential_variables ->
     (isProviderAvailable name = Returned true <->
        exists s, process_env !! var = Some s /\ s <> "") /\
     (isProviderAvailable name = Returned false <->
        process_env !! var = None \/ process_env !! var = Some "")).
Proof.
  split; [| split; [| split; [| split]]].
  - split.
    + intros Hav. pose proof (isProviderAvailable_true_registered _ Hav) as Hreg.
      split; [exact Hreg |]. apply PROVIDERS_registered in Hreg as [p E].
      rewrite (isProviderAvailable_Some _ _ E) in Hav. injection Hav as Hav.
      apply orb_true_iff in Hav as [Ha | Hk].
      * apply anonymous_tier_iff in Ha. tauto.
      * right; right. apply (truthy_key _ _ E) in Hk as (s & Hs & Hne). eauto.
    + intros [Hreg Hcred]. apply PROVIDERS_registered in Hreg as [p E].
      rewrite (isProviderAvailable_Some _ _ E). f_equal. apply orb_true_iff.
      destruct Hcred as [-> | [-> | (p' & s & E' & Hk & Hne)]].
      * left. reflexivity.
      * left. reflexivity.
      * right. rewrite E in E'. injection E' as <-.
        apply (truthy_key _ _ E). eauto.
  - intros Hreg. apply PROVIDERS_registered in Hreg as [p E].
    rewrite (isProviderAvailable_Some _ _ E). eauto.
  - intros p E Hp Hm Hk. rewrite (isProviderAvailable_Some _ _ E), Hk, orb_false_r.
    destruct (anonymous_tier name) eqn:Ha; [| reflexivity].
    apply anonymous_tier_iff in Ha. tauto.
  - intros Hout. rewrite (isProviderAvailable_unregistered _ Hout).
    split; [destruct (inherited name); discriminate | reflexivity].
  - intros var Hin. rewrite (isProviderAvailable_credentialed _ _ Hin).
    unfold env_get. destruct (process_env !! var) as [[| c s] |]; cbn.
    + split; split; try discriminate; try reflexivity.
      * intros (s' & [= <-] & Hne). contradiction.
      * intros _. right. reflexivity.
    + split; split; try discriminate; try reflexivity.
      * intros _. eexists. split; [reflexivity | discriminate].
      * intros [[=] | [=]].
    + split; split; try discriminate; try reflexivity.
      * intros (s' & [=] & _).
      * intros _. left. reflexivity.
Qed.
End Availability.

(** C4 at a sample input: only the Groq key is configured. *)
Lemma isProviderAvailable_iff_registered_and_credentialed_witness :
  @Providers.isProviderAvailable host_groq_down "groq" = Returned true /\
  @Providers.isProviderAvailable host_groq_down "cohere" = Returned false /\
  @Providers.isProviderAvailable host_groq_down "duckduckgo" = Returned false /\
  @Providers.isProviderAvailable host_groq_down "constructor" <> Returned true.
Proof.
  split; [| split; [| split]].
  - destruct (@isProviderAvailable_iff_registered_and_credentialed host_groq_down "groq")
      as (_ & _ & _ & _ & Hvar).
    apply (Hvar "GROQ_API_KEY").
    + apply (bool_decide_unpack _). vm_compute. exact I.
    + exists "gsk_demo". split; [vm_compute; reflexivity | discriminate].
  - destruct (@isProviderAvailable_iff_registered_and_credentialed host_groq_down "cohere")
      as (_ & _ & Hmissing & _).
    eapply Hmissing; [reflexivity | discriminate | discriminate | vm_compute; reflexivity].
  - destruct (@isProviderAvailable_iff_registered_and_credentialed host_groq_down "duckduckgo")
      as (_ & _ & _ & Hout & _).
    destruct Hout as [_ Hanswer]; [| exact Hanswer].
    apply (bool_decide_unpack _). vm_compute. exact I.
  - destruct (@isProviderAvailable_iff_registered_and_credentialed host_groq_down "constructor")
      as (_ & _ & _ & Hout & _).
    apply Hout. apply (bool_decide_unpack _). vm_compute. exact I.
Defined.

(** ** Adapters and [tryProvider] *)

Section Adapters.
Context `{Host}.
Import Providers.


Lemma get_nullish d k :
  nullish d = true -> exists e, get d k = Thrown e.
Proof. destruct d; cbn; intros; try discriminate; eauto. Qed.

Lemma js_or_null v : truthy v = false -> js_or v JNull = JNull.
Proof. unfold js_or. intros ->. reflexivity. Qed.

Lemma no_reply_at_paths paths data :
  no_reply_at paths (Resolved data) = true ->
  Forall (fun p => truthy (walk p data) = false) paths.
Proof.
  cbn [no_reply_at]. rewrite forallb_forall. intros Hall.
  apply Forall_forall. intros p Hp. apply negb_true_iff, Hall, list_elem_of_In, Hp.
Qed.

Lemma adapter_paths_reply_paths providerName path :
  path ∈ adapter_paths providerName -> path ∈ reply_paths.
Proof.
  unfold adapter_paths, reply_paths.
  repeat match goal with |- context [if ?b then _ else _] => destruct b end;
    intros Hin; repeat (apply elem_of_cons in Hin as [-> | Hin]; [set_solver |]);
    inversion Hin.
Qed.

Lemma no_reply_adapter_paths providerName r :
  no_reply r = true -> no_reply_at (adapter_paths providerName) r = true.
Proof.
  destruct r as [data | msg]; [| reflexivity]. cbn [no_reply no_reply_at].
  rewrite !forallb_forall. intros Hall p Hp.
  apply Hall, list_elem_of_In, (adapter_paths_reply_paths providerName), list_elem_of_In, Hp.
Qed.

(** Unfolds one adapter call against a network that carries no reply. *)
Ltac no_reply_adapter Hnet :=
  unfold bind, axios_call, lift, ret;
  lazymatch goal with
  | |- context [axios ?log ?req] =>
      specialize (Hnet req); destruct (axios log req) as [data | msg]; cbn;
      [ apply no_reply_at_paths in Hnet;
        repeat (apply Forall_cons in Hnet as [? Hnet]); cbn [walk] in *;
        destruct (nullish data) eqn:Hn;
        [ destruct data; try discriminate; cbn; exact I
        | destruct data; try discriminate; cbn in *;
          repeat match goal with
                 | Hf : truthy ?v = false |- context [js_or ?v _] => rewrite (js_or_null v Hf)
                 end;
          try reflexivity ]
      | exact I ]
  end.

Lemma openAIRequest_no_reply endpoint apiKey model messages extra w :
  (forall req, no_reply_at [[Field "choices"; First; Field "message"; Field "content"]]
                 (axios (http_log w) req) = true) ->
  null_or_thrown (fst (AI.openAIRequest endpoint apiKey model messages extra w)).
Proof. intros Hnet. unfold AI.openAIRequest. no_reply_adapter Hnet. Qed.

Lemma geminiRequest_no_reply model messages w :
  (forall req, no_reply_at (adapter_paths "gemini") (axios (http_log w) req) = true) ->
  null_or_thrown (fst (AI.geminiRequest model messages w)).
Proof.
  intros Hnet. unfold AI.geminiRequest.
  destruct (negb (truthy (Config.gemini Config.API_KEYS))); [reflexivity |].
  no_reply_adapter Hnet.
Qed.

Lemma cohereRequest_no_reply model messages w :
  (forall req, no_reply_at (adapter_paths "cohere") (axios (http_log w) req) = true) ->
  null_or_thrown (fst (AI.cohereRequest model messages w)).
Proof.
  intros Hnet. unfold AI.cohereRequest.
  destruct (negb (truthy (Config.cohere Config.API_KEYS))); [reflexivity |].
  no_reply_adapter Hnet.
Qed.

Lemma cloudflareRequest_no_reply model messages w :
  (forall req, no_reply_at (adapter_paths "cloudflare") (axios (http_log w) req) = true) ->
  null_or_thrown (fst (AI.cloudflareRequest model messages w)).
Proof.
  intros Hnet. unfold AI.cloudflareRequest.
  destruct (negb (truthy (Config.cloudflare Config.API_KEYS))
            || negb (truthy (Config.cloudflareAccount Config.API_KEYS))); [reflexivity |].
  no_reply_adapter Hnet.
Qed.

Lemma mlvocaRequest_no_reply model messages w :
  (forall req, no_reply_at (adapter_paths "mlvoca") (axios (http_log w) req) = true) ->
  null_or_thrown (fst (AI.mlvocaRequest model messages w)).
Proof. intros Hnet. unfold AI.mlvocaRequest. no_reply_adapter Hnet. Qed.

Lemma puterRequest_no_reply model messages w :
  (forall req, no_reply_at (adapter_paths "puter") (axios (http_log w) req) = true) ->
  null_or_thrown (fst (AI.puterRequest model messages w)).
Proof.
  intros Hnet. unfold AI.puterRequest.
  destruct (negb (truthy (Config.puter Config.API_KEYS))); [reflexivity |].
  destruct model as [m|]; [| exact I].
  unfold bind at 1, lift at 1. cbn [AI.puter_driver].
  no_reply_adapter Hnet.
Qed.

Lemma callAdapter_silent providerName provider apiKey model messages w :
  (forall req, no_reply_at (adapter_paths providerName) (axios (http_log w) req) = true) ->
  null_or_thrown (fst (AI.callAdapter providerName provider apiKey model messages w)).
Proof.
  unfold AI.callAdapter, adapter_paths.
  destruct (String.eqb providerName "gemini"); [apply geminiRequest_no_reply |].
  destruct (String.eqb providerName "cohere"); [apply cohereRequest_no_reply |].
  destruct (String.eqb providerName "cloudflare"); [apply cloudflareRequest_no_reply |].
  destruct (String.eqb providerName "mlvoca"); [apply mlvocaRequest_no_reply |].
  destruct (String.eqb providerName "puter"); [apply puterRequest_no_reply |].
  apply openAIRequest_no_reply.
Qed.

Lemma callAdapter_no_reply providerName provider apiKey model messages w :
  (forall req, no_reply (axios (http_log w) req) = true) ->
  null_or_thrown (fst (AI.callAdapter providerName provider apiKey model messages w)).
Proof.
  intros Hnet. apply callAdapter_silent. intros req. apply no_reply_adapter_paths, Hnet.
Qed.

Lemma tryProvider_Own providerName p model messages :
  PROVIDERS !! providerName = Some p ->
  AI.tryProvider providerName model messages
  = if negb (truthy (key p)) && negb (anonymous_tier providerName) then ret JNull else
      try_catch
        (AI.callAdapter providerName p (key p) model messages)
        (fun e =>
           console_log ("⚠️ [" +:+ providerName +:+ "/" +:+ tmpl (model_json model)
                          +:+ "] failed: " +:+ message e) ;;;
           ret JNull).
Proof. intros E. unfold AI.tryProvider. rewrite (table_get_Own _ _ _ E). reflexivity. Qed.

Lemma tryProvider_unregistered providerName model messages :
  PROVIDERS !! providerName = None ->
  AI.tryProvider providerName model messages
  = if inherited providerName then throw (TypeError "provider.key is not a function")
    else ret JNull.
Proof.
  intros E. unfold AI.tryProvider. rewrite (table_get_None _ _ E).
  destruct (inherited providerName); reflexivity.
Qed.

Lemma tryProvider_returns providerName model messages w :
  inherited providerName = false ->
  exists v w', AI.tryProvider providerName model messages w = (Returned v, w').
Proof.
  intros Hown. destruct (PROVIDERS !! providerName) as [p|] eqn:E.
  - rewrite (tryProvider_Own _ _ _ _ E).
    destruct (negb (truthy (key p)) && negb (anonymous_tier providerName)); [cbn; eauto |].
    unfold try_catch.
    destruct (AI.callAdapter providerName p (key p) model messages w) as [[v | e] w1];
      cbn; eauto.
  - rewrite (tryProvider_unregistered _ _ _ E), Hown. cbn. eauto.
Qed.

Lemma tryProvider_silent providerName model messages w :
  inherited providerName = false ->
  (forall req, no_reply_at (adapter_paths providerName) (axios (http_log w) req) = true) ->
  fst (AI.tryProvider providerName model messages w) = Returned JNull.
Proof.
  intros Hown Hnet. destruct (PROVIDERS !! providerName) as [p|] eqn:E.
  - rewrite (tryProvider_Own _ _ _ _ E).
    destruct (negb (truthy (key p)) && negb (anonymous_tier providerName)); [reflexivity |].
    pose proof (callAdapter_silent providerName p (key p) model messages w Hnet) as Hc.
    unfold try_catch.
    destruct (AI.callAdapter providerName p (key p) model messages w) as [[v | e] w1];
      cbn in *; [congruence | reflexivity].
  - rewrite (tryProvider_unregistered _ _ _ E), Hown. reflexivity.
Qed.

Lemma tryProvider_no_reply providerName model messages w :
  inherited providerName = false ->
  (forall req, no_reply (axios (http_log w) req) = true) ->
  fst (AI.tryProvider providerName model messages w) = Returned JNull.
Proof.
  intros Hown Hnet. apply tryProvider_silent; [exact Hown |].
  intros req. apply no_reply_adapter_paths, Hnet.
Qed.

(** C7. The provider name [constructor] is no key of the catalog, yet the
    lookup [PROVIDERS[providerName]] finds the member every object inherits
    under that name; the guard for an unknown provider lets it pass, and the
    call of its [key], which stands before the [try] block, throws.  For every
    model, message list and world, [tryProvider] throws a [TypeError] there,
    with nothing sent and nothing logged; the same holds for each of the
    other inherited names. *)
Theorem tryProvider_throws_for_inherited_name (model : option string)
    (messages : list Message) (w : World) :
  AI.tryProvider "constructor" model messages w
  = (Thrown (TypeError "provider.key is not a function"), w) /\
  Forall (fun name =>
            AI.tryProvider name model messages w
            = (Thrown (TypeError "provider.key is not a function"), w))
    object_prototype_names.
Proof. split; [reflexivity |]. repeat constructor. Qed.

(** X22. [tryProvider] throws for no name but an inherited one, whatever the
    model ([null] included), message list and world: an unknown provider, a
    missing key, an error of the adapter all give [null].  And when the
    network carries no reply for the adapter of that provider (it rejects the
    request, or resolves it with a body in which the paths that adapter reads
    hold nothing), the result is [null]. *)
Theorem tryProvider_null_unless_replied (providerName : string) (model : option string)
    (messages : list Message) (w : World) :
  inherited providerName = false ->
  (exists v w', AI.tryProvider providerName model messages w = (Returned v, w')) /\
  (PROVIDERS !! providerName = None ->
   AI.tryProvider providerName model messages w = (Returned JNull, w)) /\
  (forall p, PROVIDERS !! providerName = Some p -> truthy (key p) = false ->
             anonymous_tier providerName = false ->
             AI.tryProvider providerName model messages w = (Returned JNull, w)) /\
  ((forall req, no_reply_at (adapter_paths providerName) (axios (http_log w) req) = true) ->
   fst (AI.tryProvider providerName model messages w) = Returned JNull).
Proof.
  intros Hown. split; [| split; [| split]].
  - apply tryProvider_returns, Hown.
  - intros E. rewrite (tryProvider_unregistered _ _ _ E), Hown. reflexivity.
  - intros p E Hk Ha. rewrite (tryProvider_Own _ _ _ _ E), Hk, Ha. reflexivity.
  - apply tryProvider_silent, Hown.
Qed.
End Adapters.

(** At a sample input: a Groq key is configured and the network is down. *)
Lemma tryProvider_null_unless_replied_witness :
  fst (@AI.tryProvider host_offline "groq" (Some "llama-3.3-70b-versatile") hello_messages
         fresh_world) = Returned JNull.
Proof.
  destruct (@tryProvider_null_unless_replied host_offline "groq"
              (Some "llama-3.3-70b-versatile") hello_messages fresh_world eq_refl)
    as (_ & _ & _ & Hsilent).
  apply Hsilent. intros req. reflexivity.
Defined.

(** ** The dispatch loop *)

Section Dispatch.
Context `{Host}.
Import Providers.

Lemma world_before_0 chain messages w : world_before chain messages w 0 = w.
Proof. reflexivity. Qed.

Lemma world_before_S c chain messages w k :
  world_before (c :: chain) messages w (S k) = world_before chain messages (attempted messages w c) k.
Proof. reflexivity. Qed.

Lemma world_before_snoc chain messages w k c :
  chain !! k = Some c ->
  world_before chain messages w (S k) = attempted messages (world_before chain messages w k) c.
Proof.
  intros Hk. unfold world_before.
  rewrite (take_S_r _ _ _ Hk), fold_left_app. reflexivity.
Qed.

Lemma tryChain_skip c rest messages w :
  isProviderAvailable (provider c) = Returned false ->
  AI.tryChain (c :: rest) messages w = AI.tryChain rest messages w.
Proof. intros Hav. cbn [AI.tryChain]. rewrite Hav. reflexivity. Qed.

Lemma tryChain_attempt c rest messages w r w1 :
  isProviderAvailable (provider c) = Returned true ->
  AI.tryProvider (provider c) (model c) messages w = (Returned r, w1) ->
  AI.tryChain (c :: rest) messages w =
    if truthy r then (Returned (Some r), won c w1) else AI.tryChain rest messages w1.
Proof.
  intros Hav Htry. cbn [AI.tryChain]. rewrite Hav. unfold bind at 1, lift at 1. cbn [negb].
  unfold bind at 1. rewrite Htry. destruct (truthy r); reflexivity.
Qed.

Lemma tryChain_throws c rest messages w e :
  isProviderAvailable (provider c) = Thrown e ->
  AI.tryChain (c :: rest) messages w = (Thrown e, w).
Proof. intros Hav. cbn [AI.tryChain]. rewrite Hav. reflexivity. Qed.

Lemma available_tryProvider_returns name model messages w :
  isProviderAvailable name = Returned true ->
  exists v w', AI.tryProvider name model messages w = (Returned v, w').
Proof.
  intros Hav. apply tryProvider_returns, catalog_not_inherited,
    isProviderAvailable_true_registered, Hav.
Qed.

Lemma tryChain_first_match chain : forall messages w k c v,
  chain !! k = Some c ->
  isProviderAvailable (provider c) = Returned true ->
  (forall j cj, j < k -> chain !! j = Some cj ->
     exists answer, isProviderAvailable (provider cj) = Returned answer) ->
  (forall j cj, j < k -> chain !! j = Some cj ->
     isProviderAvailable (provider cj) = Returned true ->
     forall r, fst (AI.tryProvider (provider cj) (model cj) messages
                      (world_before chain messages w j)) = Returned r ->
               truthy r = false) ->
  fst (AI.tryProvider (provider c) (model c) messages (world_before chain messages w k))
    = Returned v ->
  truthy v = true ->
  AI.tryChain chain messages w =
    (Returned (Some v),
     won c (snd (AI.tryProvider (provider c) (model c) messages (world_before chain messages w k)))).
Proof.
  induction chain as [| c0 rest IH];
    intros messages w k c v Hk Hav Hanswers Hbefore Hwin Htruthy.
  - rewrite lookup_nil in Hk. discriminate.
  - destruct k as [| k].
    + injection Hk as ->. rewrite world_before_0 in *.
      destruct (AI.tryProvider (provider c) (model c) messages w) as [r w1] eqn:Htry.
      cbn in Hwin. subst r.
      rewrite (tryChain_attempt _ _ _ _ _ _ Hav Htry), Htruthy. reflexivity.
    + cbn in Hk. rewrite world_before_S in *.
      assert (Hrest : AI.tryChain (c0 :: rest) messages w
                      = AI.tryChain rest messages (attempted messages w c0)).
      { unfold attempted.
        destruct (Hanswers 0 c0) as [[|] Hav0]; [lia | reflexivity | |];
          rewrite (available_false _ _ Hav0).
        - destruct (available_tryProvider_returns _ (model c0) messages w Hav0)
            as (r & w1 & Htry).
          rewrite (tryChain_attempt _ _ _ _ _ _ Hav0 Htry), Htry. cbn [snd].
          rewrite (Hbefore 0 c0); [reflexivity | lia | reflexivity | exact Hav0 |].
          rewrite world_before_0, Htry. reflexivity.
        - apply tryChain_skip, Hav0. }
      rewrite Hrest. apply IH; try assumption.
      * intros j cj Hj Hcj. apply (Hanswers (S j) cj); [lia | exact Hcj].
      * intros j cj Hj Hcj Havj r Hr.
        apply (Hbefore (S j) cj); [lia | exact Hcj | exact Havj |].
        rewrite world_before_S. exact Hr.
Qed.

Lemma chainFor_cases mode :
  (AI.chainFor mode = Inherited mode /\ inherited mode = true) \/
  (inherited mode = false /\
   (AI.chainFor mode = Own Config.chain_normal \/
    AI.chainFor mode = Own Config.chain_reasoning \/
    AI.chainFor mode = Own Config.chain_search)).
Proof.
  unfold AI.chainFor, table_get.
  destruct (Config.FALLBACK_CHAINS !! mode) as [chain |] eqn:E.
  - right. unfold Config.FALLBACK_CHAINS in E.
    destruct (decide (mode = "normal")) as [-> | Hn]; [injection E as <-; auto |].
    rewrite lookup_insert_ne in E by congruence.
    destruct (decide (mode = "reasoning")) as [-> | Hr]; [injection E as <-; auto |].
    rewrite lookup_insert_ne in E by congruence.
    destruct (decide (mode = "search")) as [-> | Hs]; [injection E as <-; auto |].
    rewrite lookup_insert_ne in E by congruence. discriminate.
  - destruct (inherited mode); [left | right]; auto.
Qed.

Lemma chainFor_own mode : inherited mode = false -> AI.chainFor mode = Own (chain_of mode).
Proof.
  intros Hown. unfold chain_of.
  destruct (chainFor_cases mode) as [[_ Hin] | [_ [E | [E | E]]]]; [congruence | | |];
    rewrite E; reflexivity.
Qed.

Lemma chain_of_cases mode :
  chain_of mode = [] \/ chain_of mode = Config.chain_normal \/
  chain_of mode = Config.chain_reasoning \/ chain_of mode = Config.chain_search.
Proof.
  unfold chain_of.
  destruct (chainFor_cases mode) as [[E _] | [_ [E | [E | E]]]]; rewrite E; auto.
Qed.

(** The resolver answers for every candidate of the chains of [config.js]. *)
Lemma chain_of_answers mode :
  Forall (fun c => exists answer, isProviderAvailable (provider c) = Returned answer)
    (chain_of mode).
Proof.
  assert (Hcatalog : forall name, name ∈ catalog_names ->
            exists answer, isProviderAvailable name = Returned answer).
  { intros name Hin. apply PROVIDERS_registered in Hin as [p E].
    rewrite (isProviderAvailable_Some _ _ E). eauto. }
  destruct (chain_of_cases mode) as [E | [E | [E | E]]]; rewrite E.
  - constructor.
  - repeat constructor; apply Hcatalog, (bool_decide_unpack _); vm_compute; exact I.
  - repeat constructor; apply Hcatalog, (bool_decide_unpack _); vm_compute; exact I.
  - repeat constructor; exists false; reflexivity.
Qed.

Lemma won_http_log c w : http_log (won c w) = http_log w.
Proof. reflexivity. Qed.

(** C1. Dispatch is a first-match-wins scan.  If the candidate at position [k]
    of a chain is available and its attempt returns a truthy value [v] (a
    non-empty text), while the resolver answers for every candidate before it
    and every available one of them, attempted in turn, returns nothing truthy
    (skipped, empty, or failed and caught), the loop returns exactly [v].  The
    world it ends in is the one in which every available candidate up to
    position [k] has been attempted once, in order, with the success line on
    the console: nothing after [k] is attempted and nothing is attempted
    twice.  For the chain of a mode, as [askAI] runs it, the resolver answers
    for every candidate, and the scan needs no such condition. *)
Theorem dispatch_first_match_wins (chain : list Candidate) (messages : list Message)
    (w : World) (k : nat) (c : Candidate) (v : JValue) :
  chain !! k = Some c ->
  isProviderAvailable (provider c) = Returned true ->
  (forall j cj, j < k -> chain !! j = Some cj ->
     isProviderAvailable (provider cj) = Returned true ->
     forall r, fst (AI.tryProvider (provider cj) (model cj) messages
                      (world_before chain messages w j)) = Returned r ->
               truthy r = false) ->
  fst (AI.tryProvider (provider c) (model c) messages (world_before chain messages w k))
    = Returned v ->
  truthy v = true ->
  ((forall j cj, j < k -> chain !! j = Some cj ->
      exists answer, isProviderAvailable (provider cj) = Returned answer) ->
   AI.tryChain chain messages w =
     (Returned (Some v), won c (world_before chain messages w (S k)))) /\
  (forall mode, chain = chain_of mode ->
   AI.tryChain chain messages w =
     (Returned (Some v), won c (world_before chain messages w (S k)))).
Proof.
  intros Hk Hav Hbefore Hwin Htruthy.
  assert (Hscan : (forall j cj, j < k -> chain !! j = Some cj ->
                     exists answer, isProviderAvailable (provider cj) = Returned answer) ->
                  AI.tryChain chain messages w =
                    (Returned (Some v), won c (world_before chain messages w (S k)))).
  { intros Hanswers.
    rewrite (tryChain_first_match chain messages w k c v Hk Hav Hanswers Hbefore Hwin Htruthy).
    rewrite (world_before_snoc _ _ _ _ _ Hk). unfold attempted.
    rewrite (available_false _ _ Hav). reflexivity. }
  split; [exact Hscan |].
  intros mode ->. apply Hscan. intros j cj _ Hcj.
  pose proof (chain_of_answers mode) as Hall. rewrite Forall_forall in Hall.
  apply Hall. eapply list_elem_of_lookup_2. exact Hcj.
Qed.
End Dispatch.

(** C1 at a sample input: the chain of mode [normal], Groq down, Pollinations
    answering at position 6. *)
Lemma dispatch_first_match_wins_witness :
  @AI.tryChain host_groq_down Config.chain_normal hello_messages fresh_world =
    (Returned (Some (JStr "hi there")),
     @won host_groq_down (Config.cand "pollinations" "openai")
       (@world_before host_groq_down Config.chain_normal hello_messages fresh_world 7)).
Proof.
  apply (fun Hk Hav Hbefore Hwin Htruthy =>
           proj2 (@dispatch_first_match_wins host_groq_down Config.chain_normal hello_messages
                    fresh_world 6 (Config.cand "pollinations" "openai") (JStr "hi there")
                    Hk Hav Hbefore Hwin Htruthy) "normal" eq_refl).
  - reflexivity.
  - vm_compute. reflexivity.
  - intros j cj Hj Hcj Hav r Hr.
    do 6 (destruct j as [| j]; [ injection Hcj as <-; vm_compute in Hav; vm_compute in Hr;
                                 try discriminate; injection Hr as <-; reflexivity | ]).
    lia.
  - vm_compute. reflexivity.
  - reflexivity.
Defined.

(** ** [askAI]: probe, chain, apology *)

Section Orchestrator.
Context `{Host}.
Import Providers.

Lemma tryChain_step c rest messages w :
  (exists answer, isProviderAvailable (provider c) = Returned answer) ->
  (available (provider c) = false /\
   AI.tryChain (c :: rest) messages w = AI.tryChain rest messages w) \/
  (available (provider c) = true /\
   exists r w1, AI.tryProvider (provider c) (model c) messages w = (Returned r, w1) /\
     AI.tryChain (c :: rest) messages w
     = if truthy r then (Returned (Some r), won c w1) else AI.tryChain rest messages w1).
Proof.
  intros [[|] Hav]; [right | left]; rewrite (available_false _ _ Hav); (split; [reflexivity |]).
  - destruct (available_tryProvider_returns _ (model c) messages w Hav) as (r & w1 & Htry).
    exists r, w1. split; [exact Htry | apply tryChain_attempt; assumption].
  - apply tryChain_skip, Hav.
Qed.

Lemma tryChain_exhausted chain : forall messages w,
  Forall (fun c => exists answer, isProviderAvailable (provider c) = Returned answer) chain ->
  (forall j cj, chain !! j = Some cj ->
     isProviderAvailable (provider cj) = Returned true ->
     forall r, fst (AI.tryProvider (provider cj) (model cj) messages
                      (world_before chain messages w j)) = Returned r ->
               truthy r = false) ->
  AI.tryChain chain messages w = (Returned None, world_before chain messages w (length chain)).
Proof.
  induction chain as [| c0 rest IH]; intros messages w Hanswers Hall; [reflexivity |].
  apply Forall_cons in Hanswers as [Hanswer0 Hanswers].
  cbn [length]. rewrite world_before_S.
  assert (Hrest : AI.tryChain (c0 :: rest) messages w
                  = AI.tryChain rest messages (attempted messages w c0)).
  { unfold attempted.
    destruct (tryChain_step c0 rest messages w Hanswer0)
      as [[Hav0 Hrun] | [Hav0 (r & w1 & Htry & Hrun)]]; rewrite Hrun, Hav0; [reflexivity |].
    rewrite Htry. cbn [snd].
    rewrite (Hall 0 c0); [reflexivity | reflexivity | apply available_iff, Hav0 |].
    rewrite world_before_0, Htry. reflexivity. }
  rewrite Hrest. apply IH; [exact Hanswers |].
  intros j cj Hcj Havj r Hr. apply (Hall (S j) cj); [exact Hcj | exact Havj |].
  rewrite world_before_S. exact Hr.
Qed.

(** What the loop hands back is a truthy reply of one of its candidates. *)
Lemma tryChain_returns chain : forall messages w,
  Forall (fun c => exists answer, isProviderAvailable (provider c) = Returned answer) chain ->
  exists found w', AI.tryChain chain messages w = (Returned found, w') /\
    forall v, found = Some v ->
      truthy v = true /\
      exists c w0, c ∈ chain /\
        fst (AI.tryProvider (provider c) (model c) messages w0) = Returned v.
Proof.
  induction chain as [| c0 rest IH]; intros messages w Hanswers.
  - exists None, w. split; [reflexivity | discriminate].
  - apply Forall_cons in Hanswers as [Hanswer0 Hanswers].
    destruct (tryChain_step c0 rest messages w Hanswer0)
      as [[Hav0 Hrun] | [Hav0 (r & w1 & Htry & Hrun)]]; rewrite Hrun.
    + destruct (IH messages w Hanswers) as (found & w' & Hrest & Hfound).
      exists found, w'. split; [exact Hrest |].
      intros v Hv. destruct (Hfound v Hv) as (Ht & c & w0 & Hin & Hc).
      split; [exact Ht |]. exists c, w0. split; [right; exact Hin | exact Hc].
    + destruct (truthy r) eqn:Hr.
      * exists (Some r), (won c0 w1). split; [reflexivity |].
        intros v [= <-]. split; [exact Hr |].
        exists c0, w. split; [left | rewrite Htry; reflexivity].
      * destruct (IH messages w1 Hanswers) as (found & w' & Hrest & Hfound).
        exists found, w'. split; [exact Hrest |].
        intros v Hv. destruct (Hfound v Hv) as (Ht & c & w0 & Hin & Hc).
        split; [exact Ht |]. exists c, w0. split; [right; exact Hin | exact Hc].
Qed.

Lemma search_returns query engine maxResults w :
  exists v w', Search.search query engine maxResults w = (Returned v, w').
Proof.
  unfold Search.search, try_catch.
  match goal with |- context [match ?body w with _ => _ end] => destruct (body w) as [[v | e] w1] end;
    cbn; eauto.
Qed.

Lemma askAI_compose_returns userMessage useSearch chatHistory mode w :
  exists messages w', AI.askAI_compose userMessage useSearch chatHistory mode w
                      = (Returned messages, w').
Proof.
  unfold AI.askAI_compose.
  destruct (useSearch || String.eqb mode "search").
  - unfold bind at 1. unfold bind at 1.
    destruct (search_returns userMessage "duckduckgo" 5 w) as (v & w' & ->).
    cbn. eauto.
  - cbn. eauto.
Qed.

(** The ways the probe of an override ends. *)
Lemma askAI_probe_cases messages selectedProvider selectedModel w :
  let p := default "" selectedProvider in
  let m := default "" selectedModel in
  (AI.given selectedProvider && AI.given selectedModel = false /\
   AI.askAI_probe messages selectedProvider selectedModel w = (Returned None, w)) \/
  (AI.given selectedProvider && AI.given selectedModel = true /\
   ((exists e, isProviderAvailable p = Thrown e /\
       AI.askAI_probe messages selectedProvider selectedModel w = (Thrown e, w)) \/
    (isProviderAvailable p = Returned false /\
       AI.askAI_probe messages selectedProvider selectedModel w = (Returned None, w)) \/
    (isProviderAvailable p = Returned true /\
     exists r w1, AI.tryProvider p selectedModel messages w = (Returned r, w1) /\
       ((truthy r = true /\
         AI.askAI_probe messages selectedProvider selectedModel w
           = (Returned (Some r), probe_won p m w1)) \/
        (truthy r = false /\
         AI.askAI_probe messages selectedProvider selectedModel w
           = (Returned None, probe_lost p w1)))))).
Proof.
  cbn zeta. unfold AI.askAI_probe.
  destruct (AI.given selectedProvider && AI.given selectedModel) eqn:Hgo;
    [right | left]; (split; [reflexivity |]); [| reflexivity].
  destruct (isProviderAvailable (default "" selectedProvider)) as [[|] | e] eqn:Hav.
  - right; right. split; [reflexivity |].
    destruct (available_tryProvider_returns _ selectedModel messages w Hav) as (r & w1 & Htry).
    exists r, w1. split; [exact Htry |].
    destruct (truthy r) eqn:Ht; [left | right]; (split; [reflexivity |]);
      unfold bind at 1, lift at 1; unfold bind at 1; rewrite Htry, Ht; reflexivity.
  - right; left. split; reflexivity.
  - left. exists e. split; reflexivity.
Qed.

Lemma askAI_chain_own messages mode :
  inherited mode = false ->
  AI.askAI_chain messages mode
  = (found <~ AI.tryChain (chain_of mode) messages ;;
     match found with
     | Some result => ret result
     | None => ret (JStr AI.apology)
     end).
Proof. intros Hown. unfold AI.askAI_chain. rewrite (chainFor_own _ Hown). reflexivity. Qed.

Lemma askAI_chain_returns messages mode w :
  inherited mode = false ->
  exists v w', AI.askAI_chain messages mode w = (Returned v, w') /\
    (v = JStr AI.apology \/
     (truthy v = true /\
      exists p m w0, fst (AI.tryProvider p m messages w0) = Returned v)).
Proof.
  intros Hown. rewrite (askAI_chain_own _ _ Hown).
  destruct (tryChain_returns (chain_of mode) messages w (chain_of_answers mode))
    as (found & w' & Hrun & Hfound).
  unfold bind. rewrite Hrun. destruct found as [v |].
  - exists v, w'. split; [reflexivity |]. right.
    destruct (Hfound v eq_refl) as (Ht & c & w0 & _ & Hc). split; [exact Ht | eauto].
  - exists (JStr AI.apology), w'. split; [reflexivity | left; reflexivity].
Qed.

Lemma not_inherited_answers name :
  inherited name = false -> exists answer, isProviderAvailable name = Returned answer.
Proof.
  intros Hown. destruct (decide (name ∈ catalog_names)) as [Hin | Hout].
  - apply PROVIDERS_registered in Hin as [p E]. rewrite (isProviderAvailable_Some _ _ E). eauto.
  - rewrite (isProviderAvailable_unregistered _ Hout), Hown. eauto.
Qed.

Lemma askAI_never_throws userMessage useSearch selectedProvider selectedModel chatHistory
    mode w :
  inherited mode = false ->
  (AI.given selectedProvider && AI.given selectedModel = true ->
   inherited (default "" selectedProvider) = false) ->
  exists v w',
    AI.askAI userMessage useSearch selectedProvider selectedModel chatHistory mode w
      = (Returned v, w') /\
    (v = JStr AI.apology \/
     (truthy v = true /\
      exists p m messages w0, fst (AI.tryProvider p m messages w0) = Returned v)).
Proof.
  intros Hmode Hoverride.
  destruct (askAI_compose_returns userMessage useSearch chatHistory mode w)
    as (messages & w1 & Hcompose).
  unfold AI.askAI, AI.askAI_dispatch. unfold bind at 1. rewrite Hcompose.
  unfold bind at 1.
  destruct (askAI_probe_cases messages selectedProvider selectedModel w1)
    as [[_ Hp] | [Hgiven [(e & Hthrown & _) | [[_ Hp] |
         [_ (r & w2 & Htry & [[Ht Hp] | [Ht Hp]])]]]]].
  - rewrite Hp. destruct (askAI_chain_returns messages mode w1 Hmode) as (v & w' & Hrun & Hv).
    exists v, w'. split; [exact Hrun |].
    destruct Hv as [-> | (Ht & p & m & w0 & Hv)]; [left; reflexivity | right; eauto 10].
  - destruct (not_inherited_answers _ (Hoverride Hgiven)) as [answer Hanswer]. congruence.
  - rewrite Hp. destruct (askAI_chain_returns messages mode w1 Hmode) as (v & w' & Hrun & Hv).
    exists v, w'. split; [exact Hrun |].
    destruct Hv as [-> | (Ht & p & m & w0 & Hv)]; [left; reflexivity | right; eauto 10].
  - rewrite Hp. eexists r, _. split; [reflexivity |]. right. split; [exact Ht |].
    exists (default "" selectedProvider), selectedModel, messages, w1.
    rewrite Htry. reflexivity.
  - rewrite Hp.
    match goal with |- context [AI.askAI_chain messages mode ?w3] =>
      destruct (askAI_chain_returns messages mode w3 Hmode) as (v & w' & Hrun & Hv) end.
    exists v, w'. split; [exact Hrun |].
    destruct Hv as [-> | (Ht' & p & m & w0 & Hv)]; [left; reflexivity | right; eauto 10].
Qed.

Lemma askAI_exhausted userMessage useSearch selectedProvider selectedModel chatHistory mode w
    messages w1 w2 :
  inherited mode = false ->
  AI.askAI_compose userMessage useSearch chatHistory mode w = (Returned messages, w1) ->
  AI.askAI_probe messages selectedProvider selectedModel w1 = (Returned None, w2) ->
  (forall j cj, chain_of mode !! j = Some cj ->
     isProviderAvailable (provider cj) = Returned true ->
     forall r, fst (AI.tryProvider (provider cj) (model cj) messages
                      (world_before (chain_of mode) messages w2 j)) = Returned r ->
               truthy r = false) ->
  AI.askAI userMessage useSearch selectedProvider selectedModel chatHistory mode w
    = (Returned (JStr AI.apology),
       world_before (chain_of mode) messages w2 (length (chain_of mode))).
Proof.
  intros Hmode Hcompose Hprobe Hall.
  unfold AI.askAI, AI.askAI_dispatch. unfold bind at 1. rewrite Hcompose.
  unfold bind at 1. rewrite Hprobe.
  rewrite (askAI_chain_own _ _ Hmode). unfold bind.
  rewrite (tryChain_exhausted _ _ _ (chain_of_answers mode) Hall). reflexivity.
Qed.

(** X3. In mode [search] the chain of [config.js] names search engines, none of
    which is a provider of the catalog: every candidate is skipped, and
    [askAI] returns the apology as soon as the probe of the override hands
    back nothing, without a further request. *)
Theorem search_mode_chain_is_skipped (userMessage : string) (useSearch : bool)
    (selectedProvider selectedModel : option string) (chatHistory : list Message)
    (w : World) (messages : list Message) (w1 w2 : World) :
  AI.askAI_compose userMessage useSearch chatHistory "search" w = (Returned messages, w1) ->
  AI.askAI_probe messages selectedProvider selectedModel w1 = (Returned None, w2) ->
  AI.chainFor "search" = Own Config.chain_search /\
  Forall (fun c => isProviderAvailable (provider c) = Returned false) Config.chain_search /\
  AI.askAI userMessage useSearch selectedProvider selectedModel chatHistory "search" w
    = (Returned (JStr "Maaf, semua provider tidak tersedia saat ini."), w2).
Proof.
  intros Hcompose Hprobe.
  assert (Hskip : Forall (fun c => isProviderAvailable (provider c) = Returned false)
                    Config.chain_search).
  { repeat constructor; reflexivity. }
  split; [reflexivity |]. split; [exact Hskip |].
  rewrite (askAI_exhausted userMessage useSearch selectedProvider selectedModel chatHistory
             "search" w messages w1 w2 eq_refl Hcompose Hprobe).
  - reflexivity.
  - intros j cj Hcj Hav. exfalso.
    apply list_elem_of_lookup_2 in Hcj. change (chain_of "search") with Config.chain_search in Hcj.
    rewrite Forall_forall in Hskip. rewrite (Hskip cj Hcj) in Hav. discriminate.
Qed.
End Orchestrator.

(** Mode [search] at a sample input: the override fails, nothing else is tried. *)
Lemma search_mode_chain_is_skipped_witness :
  AI.chainFor "search" = Own Config.chain_search /\
  Forall (fun c => @Providers.isProviderAvailable host_offline (provider c) = Returned false)
    Config.chain_search /\
  @AI.askAI host_offline "cuaca" false (Some "groq") (Some "llama-3.3-70b-versatile") []
     "search" fresh_world
  = (Returned (JStr "Maaf, semua provider tidak tersedia saat ini."),
     snd (@AI.askAI_probe host_offline
            [{| role := "system"; content := AI.systemPromptFor "search" |};
             {| role := "user"; content := JStr "cuaca" |}]
            (Some "groq") (Some "llama-3.3-70b-versatile")
            (snd (@AI.askAI_compose host_offline "cuaca" false [] "search" fresh_world)))).
Proof.
  apply (@search_mode_chain_is_skipped host_offline "cuaca" false (Some "groq")
           (Some "llama-3.3-70b-versatile") [] fresh_world
           [{| role := "system"; content := AI.systemPromptFor "search" |};
            {| role := "user"; content := JStr "cuaca" |}]
           (snd (@AI.askAI_compose host_offline "cuaca" false [] "search" fresh_world))).
  - vm_compute. reflexivity.
  - vm_compute. reflexivity.
Defined.

(** ** Override and mode selection *)

Section Selection.
Context `{Host}.
Import Providers.

Lemma given_Some s : s <> "" -> AI.given (Some s) = true.
Proof. intros Hs. cbn. destruct s; [contradiction | reflexivity]. Qed.

(** C5. An override whose provider is [constructor] is not skipped: the
    resolver finds the member every object inherits under that name and
    throws on its [key], outside any [try], so [askAI] rejects with a
    [TypeError] instead of going on to the chain of the mode.  Nothing is
    sent and nothing is logged. *)
Theorem askAI_rejects_inherited_override (userMessage : string) (chatHistory : list Message)
    (w : World) :
  isProviderAvailable "constructor" = Thrown (TypeError "p.key is not a function") /\
  AI.askAI userMessage false (Some "constructor") (Some "x") chatHistory "normal" w
  = (Thrown (TypeError "p.key is not a function"), w).
Proof.
  split; [reflexivity |].
  unfold AI.askAI, AI.askAI_compose. cbn [orb String.eqb Ascii.eqb Bool.eqb].
  destruct ((0 <? length chatHistory)%nat); reflexivity.
Qed.

(** X23. With an override [(p, m)] supplied: when the resolver answers [false]
    for [p], dispatch is exactly the chain of the mode run from the untouched
    world (no request is issued for the override); when it answers [true],
    [p] is attempted first, in the initial world, and a truthy reply is
    returned at once, while an empty or failed attempt falls through to the
    chain of the mode; when the resolver throws, dispatch throws the same
    error from the untouched world.  The chain run after the probe is the
    chain of the mode, the same one dispatch runs without any override. *)
Theorem override_probed_before_chain (messages : list Message) (p m mode : string) (w : World) :
  p <> "" -> m <> "" ->
  (isProviderAvailable p = Returned false ->
     AI.askAI_dispatch messages (Some p) (Some m) mode w = AI.askAI_chain messages mode w) /\
  (isProviderAvailable p = Returned true ->
     exists r w1,
       AI.tryProvider p (Some m) messages w = (Returned r, w1) /\
       (truthy r = true ->
          AI.askAI_dispatch messages (Some p) (Some m) mode w = (Returned r, probe_won p m w1)) /\
       (truthy r = false ->
          AI.askAI_dispatch messages (Some p) (Some m) mode w
            = AI.askAI_chain messages mode (probe_lost p w1))) /\
  (forall e, isProviderAvailable p = Thrown e ->
     AI.askAI_dispatch messages (Some p) (Some m) mode w = (Thrown e, w)) /\
  (forall w', AI.askAI_dispatch messages None None mode w' = AI.askAI_chain messages mode w') /\
  (inherited mode = false ->
   forall w', AI.askAI_chain messages mode w'
              = (found <~ AI.tryChain (chain_of mode) messages ;;
                 ret (default (JStr AI.apology) found)) w').
Proof.
  intros Hp Hm.
  pose proof (askAI_probe_cases messages (Some p) (Some m) w) as Hcases.
  cbn zeta in Hcases. cbn [default from_option id] in Hcases.
  rewrite (given_Some p Hp), (given_Some m Hm) in Hcases. cbn [andb] in Hcases.
  destruct Hcases as [[[=] _] | [_ Hcases]].
  split; [| split; [| split; [| split]]].
  - intros Hav.
    destruct Hcases as [(e & He & _) | [[_ Hprobe] | [Hgo _]]]; [congruence | | congruence].
    unfold AI.askAI_dispatch, bind. rewrite Hprobe. reflexivity.
  - intros Hav.
    destruct Hcases as [(e & He & _) | [[Hgo _] | [_ (r & w1 & Htry & Hr)]]];
      [congruence | congruence |].
    exists r, w1. split; [exact Htry |]. split; intros Ht.
    + destruct Hr as [[_ Hprobe] | [Hf _]]; [| congruence].
      unfold AI.askAI_dispatch, bind. rewrite Hprobe. reflexivity.
    + destruct Hr as [[Hf _] | [_ Hprobe]]; [congruence |].
      unfold AI.askAI_dispatch. unfold bind at 1. rewrite Hprobe. reflexivity.
  - intros e Hav.
    destruct Hcases as [(e' & He & Hprobe) | [[Hgo _] | [Hgo _]]]; [| congruence | congruence].
    unfold AI.askAI_dispatch, bind. rewrite Hprobe. congruence.
  - intros w'. reflexivity.
  - intros Hmode w'. rewrite (askAI_chain_own _ _ Hmode). unfold bind.
    destruct (AI.tryChain (chain_of mode) messages w') as [[[v |] | e] w2]; reflexivity.
Qed.

Lemma unknown_mode_lookup {A} (mode : string) (a b c : A) :
  mode <> "normal" -> mode <> "reasoning" -> mode <> "search" ->
  (<["normal" := a]> (<["reasoning" := b]> (<["search" := c]> (∅ : gmap string A)))) !! mode = None.
Proof.
  intros Hn Hr Hs.
  rewrite !lookup_insert_ne by congruence. apply lookup_empty.
Qed.

(** C6. The mode [constructor] is none of [normal], [reasoning] and [search],
    yet it does not select the chain and the prompt of [normal]: both lookups
    find the member every object inherits under that name, which is truthy,
    so the fallback is not taken.  Without an override [askAI] throws on the
    [for ... of] over that member, having sent nothing, where mode [normal]
    returns. *)
Theorem inherited_mode_is_not_normal (userMessage : string) (chatHistory : list Message)
    (w : World) :
  AI.chainFor "constructor" = Inherited "constructor" /\
  AI.chainFor "normal" = Own Config.chain_normal /\
  AI.systemPromptFor "constructor" = JBuiltin "constructor" /\
  AI.askAI userMessage false None None chatHistory "constructor" w
  = (Thrown (TypeError "chain is not iterable"), w) /\
  exists v w', AI.askAI userMessage false None None chatHistory "normal" w = (Returned v, w').
Proof.
  split; [reflexivity |]. split; [reflexivity |]. split; [reflexivity |]. split.
  - unfold AI.askAI, AI.askAI_compose. cbn [orb String.eqb Ascii.eqb Bool.eqb].
    destruct ((0 <? length chatHistory)%nat); reflexivity.
  - destruct (askAI_never_throws userMessage false None None chatHistory "normal" w)
      as (v & w' & Hrun & _); [reflexivity | discriminate |]. eauto.
Qed.

(** X24. A mode string other than [normal], [reasoning] and [search], and
    other than the names every object inherits, selects the chain and the
    system prompt of [normal], and [askAI] behaves on it exactly as on
    [normal]. *)
Theorem unknown_mode_falls_back_to_normal (mode : string) :
  mode <> "normal" -> mode <> "reasoning" -> mode <> "search" ->
  inherited mode = false ->
  AI.chainFor mode = AI.chainFor "normal" /\
  AI.chainFor "normal" = Own Config.chain_normal /\
  AI.systemPromptFor mode = AI.systemPromptFor "normal" /\
  forall userMessage useSearch selectedProvider selectedModel chatHistory w,
    AI.askAI userMessage useSearch selectedProvider selectedModel chatHistory mode w
    = AI.askAI userMessage useSearch selectedProvider selectedModel chatHistory "normal" w.
Proof.
  intros Hn Hr Hs Hown.
  assert (Hchain : AI.chainFor mode = AI.chainFor "normal").
  { unfold AI.chainFor at 1.
    rewrite (table_get_None Config.FALLBACK_CHAINS mode
               (unknown_mode_lookup mode _ _ _ Hn Hr Hs)), Hown.
    reflexivity. }
  assert (Hprompt : AI.systemPromptFor mode = AI.systemPromptFor "normal").
  { unfold AI.systemPromptFor at 1.
    rewrite (table_get_None Config.SYSTEM_PROMPTS mode
               (unknown_mode_lookup mode _ _ _ Hn Hr Hs)), Hown.
    reflexivity. }
  assert (Hsearch : String.eqb mode "search" = false) by (apply String.eqb_neq; exact Hs).
  split; [exact Hchain |]. split; [reflexivity |]. split; [exact Hprompt |].
  intros userMessage useSearch selectedProvider selectedModel chatHistory w.
  unfold AI.askAI, AI.askAI_dispatch, AI.askAI_chain, AI.askAI_compose.
  rewrite Hchain, Hprompt, Hsearch. reflexivity.
Qed.
End Selection.

(** At sample inputs: an override whose provider has no key is skipped, and
    one that answers is returned at once. *)
Lemma override_probed_before_chain_witness :
  @AI.askAI_dispatch host_groq_down hello_messages (Some "cohere") (Some "command-r-08-2024")
     "normal" fresh_world
  = @AI.askAI_chain host_groq_down hello_messages "normal" fresh_world /\
  fst (@AI.askAI_dispatch host_groq_down hello_messages (Some "pollinations") (Some "openai")
         "normal" fresh_world)
  = Returned (JStr "hi there").
Proof.
  split.
  - assert (Hp : "cohere" <> "") by discriminate.
    assert (Hm : "command-r-08-2024" <> "") by discriminate.
    apply (proj1 (@override_probed_before_chain host_groq_down hello_messages "cohere"
                    "command-r-08-2024" "normal" fresh_world Hp Hm)).
    vm_compute. reflexivity.
  - assert (Hp : "pollinations" <> "") by discriminate.
    assert (Hm : "openai" <> "") by discriminate.
    destruct (@override_probed_before_chain host_groq_down hello_messages "pollinations"
                "openai" "normal" fresh_world Hp Hm) as (_ & Havailable & _).
    destruct Havailable as (r & w1 & Htry & Hwon & _); [vm_compute; reflexivity |].
    assert (Hr : r = JStr "hi there").
    { vm_compute in Htry. injection Htry as <- _. reflexivity. }
    subst r. rewrite (Hwon eq_refl). reflexivity.
Defined.

(** At a sample input: a mode that does not exist. *)
Lemma unknown_mode_falls_back_to_normal_witness :
  AI.chainFor "creative" = Own Config.chain_normal.
Proof.
  destruct (@unknown_mode_falls_back_to_normal host_offline "creative")
    as (Hchain & Hnormal & _); [discriminate | discriminate | discriminate | reflexivity |].
  rewrite Hchain. exact Hnormal.
Defined.

(** ** The message list [askAI] assembles *)

Section Compose.
Context `{Host}.

Lemma last8_length chatHistory : length (AI.last8 chatHistory) <= 8.
Proof. unfold AI.last8. rewrite length_drop. lia. Qed.

Lemma last8_suffix chatHistory : exists older, chatHistory = older ++ AI.last8 chatHistory.
Proof.
  exists (take (length chatHistory - 8) chatHistory).
  unfold AI.last8. symmetry. apply take_drop.
Qed.

Lemma legacy_search_returns query w :
  exists v w', Legacy.search query w = (Returned v, w').
Proof.
  assert (Htry : forall (body : Async JValue) w0,
             exists v w', try_catch body (fun _ => ret JNull) w0 = (Returned v, w')).
  { intros body w0. unfold try_catch. destruct (body w0) as [[v | e] w1]; cbn; eauto. }
  unfold Legacy.search.
  destruct (truthy (env_get "TAVILY_API_KEY")).
  - unfold bind at 1. unfold bind at 1. unfold Legacy.searchTavily.
    match goal with |- context [try_catch ?b ?h w] => destruct (Htry b w) as (v & w1 & ->) end.
    cbn [ret]. destruct (truthy v); [eauto |].
    destruct (truthy (env_get "SERPER_API_KEY")).
    + unfold bind at 1. unfold bind at 1. unfold Legacy.searchSerper.
      match goal with |- context [try_catch ?b ?h w1] => destruct (Htry b w1) as (v2 & w2 & ->) end.
      cbn [ret]. destruct (truthy v2); [eauto |].
      unfold Legacy.searchDuckDuckGo. apply Htry.
    + unfold bind at 1. cbn [ret]. unfold Legacy.searchDuckDuckGo. apply Htry.
  - unfold bind at 1. cbn [ret].
    destruct (truthy (env_get "SERPER_API_KEY")).
    + unfold bind at 1. unfold bind at 1. unfold Legacy.searchSerper.
      match goal with |- context [try_catch ?b ?h w] => destruct (Htry b w) as (v2 & w2 & ->) end.
      cbn [ret]. destruct (truthy v2); [eauto |].
      unfold Legacy.searchDuckDuckGo. apply Htry.
    + unfold bind at 1. cbn [ret]. unfold Legacy.searchDuckDuckGo. apply Htry.
Qed.

(** C3, as the code has it.  The list [askAI] assembles is: the base system
    prompt, the last eight entries of the history, at most one search-context
    system message, the new user message.  The search context, when present,
    comes after the history window, right before the user message; it is
    present only when search was asked for and returned something.  The
    earlier bridge has no history: its list is the base prompt, at most one
    search context, the user message. *)
Theorem search_context_follows_history (userMessage : string) (useSearch : bool)
    (chatHistory : list Message) (mode : string) (w : World) :
  (exists context w',
     AI.askAI_compose userMessage useSearch chatHistory mode w =
       (Returned (layout_context_after_history
                    {| role := "system"; content := AI.systemPromptFor mode |}
                    context (AI.last8 chatHistory)
                    {| role := "user"; content := JStr userMessage |}), w') /\
     length context <= 1 /\
     (forall m, m ∈ context ->
        role m = "system" /\
        exists r, fst (Search.search userMessage "duckduckgo" 5 w) = Returned r /\
                  truthy r = true /\
                  content m = JStr ("Hasil pencarian:" +:+ nl +:+ tmpl r)) /\
     (useSearch || String.eqb mode "search" = false -> context = []) /\
     length (AI.last8 chatHistory) <= 8 /\
     (exists older, chatHistory = older ++ AI.last8 chatHistory)) /\
  (exists context w',
     Legacy.askAI_compose userMessage useSearch w =
       (Returned (layout_context_after_history
                    {| role := "system"; content := JStr Legacy.SYSTEM_PROMPT |}
                    context []
                    {| role := "user"; content := JStr userMessage |}), w') /\
     length context <= 1 /\
     (forall m, m ∈ context -> role m = "system") /\
     (useSearch = false -> context = [])).
Proof.
  split.
  - assert (Hhist : (if (0 <? length chatHistory)%nat
                     then [{| role := "system"; content := AI.systemPromptFor mode |}]
                            ++ AI.last8 chatHistory
                     else [{| role := "system"; content := AI.systemPromptFor mode |}])
                    = [{| role := "system"; content := AI.systemPromptFor mode |}]
                        ++ AI.last8 chatHistory).
    { destruct chatHistory; reflexivity. }
    unfold AI.askAI_compose. cbn zeta. rewrite Hhist.
    unfold layout_context_after_history.
    destruct (useSearch || String.eqb mode "search") eqn:Hsearch.
    + unfold bind at 1. unfold bind at 1.
      destruct (search_returns userMessage "duckduckgo" 5 w) as (r & w' & Hrun).
      rewrite Hrun. cbn [ret]. destruct (truthy r) eqn:Hr.
      * exists [{| role := "system"; content := JStr ("Hasil pencarian:" +:+ nl +:+ tmpl r) |}], w'.
        split; [unfold bind, ret; cbn beta iota; rewrite <- ?app_assoc; reflexivity |].
        split; [cbn; lia |].
        split; [| split; [discriminate | split; [apply last8_length | apply last8_suffix]]].
        intros m Hm. apply list_elem_of_singleton in Hm as ->.
        split; [reflexivity |]. exists r. auto.
      * exists [], w'.
        split; [unfold bind, ret; cbn beta iota; rewrite <- ?app_assoc; reflexivity |].
        split; [cbn; lia |].
        split; [| split; [reflexivity | split; [apply last8_length | apply last8_suffix]]].
        intros m Hm. inversion Hm.
    + exists [], w.
      split; [unfold bind, ret; cbn beta iota; rewrite <- ?app_assoc; reflexivity |].
      split; [cbn; lia |].
      split; [| split; [reflexivity | split; [apply last8_length | apply last8_suffix]]].
      intros m Hm. inversion Hm.
  - unfold Legacy.askAI_compose, layout_context_after_history. cbn zeta.
    destruct useSearch.
    + unfold bind at 1. unfold bind at 1.
      destruct (legacy_search_returns userMessage w) as (r & w' & ->).
      cbn [ret]. destruct (truthy r).
      * eexists [_], w'. split; [reflexivity |]. split; [cbn; lia |].
        split; [| discriminate].
        intros m Hm. apply list_elem_of_singleton in Hm as ->. reflexivity.
      * exists [], w'. split; [reflexivity |]. split; [cbn; lia |].
        split; [| reflexivity]. intros m Hm. inversion Hm.
    + exists [], w. split; [reflexivity |]. split; [cbn; lia |].
      split; [| reflexivity]. intros m Hm. inversion Hm.
Qed.
End Compose.

(** C3 at a sample input: two turns of history and a search result. *)
Lemma search_context_follows_history_witness :
  exists context w',
    @AI.askAI_compose host_ddg_answers "cuaca jakarta" false two_turns "search" fresh_world =
      (Returned (layout_context_after_history
                   {| role := "system"; content := AI.systemPromptFor "search" |}
                   context (AI.last8 two_turns)
                   {| role := "user"; content := JStr "cuaca jakarta" |}), w') /\
    length context <= 1.
Proof.
  destruct (@search_context_follows_history host_ddg_answers "cuaca jakarta" false two_turns
              "search" fresh_world) as [(context & w' & Hrun & Hlen & _) _].
  exists context, w'. split; [exact Hrun | exact Hlen].
Defined.

(** C3 as stated fails: with two turns of history and a search result, the
    search context sits after the history, so the list has no layout with the
    context between the base prompt and the history window. *)
Lemma search_context_not_before_history :
  fst (@AI.askAI_compose host_ddg_answers "cuaca jakarta" false two_turns "search" fresh_world)
  = Returned [ {| role := "system"; content := AI.systemPromptFor "search" |};
               {| role := "user"; content := JStr "halo" |};
               {| role := "assistant"; content := JStr "hai" |};
               {| role := "system";
                  content := JStr ("Hasil pencarian:" +:+ nl +:+ "📌 Jakarta: 31 C, cerah") |};
               {| role := "user"; content := JStr "cuaca jakarta" |} ] /\
  forall context,
    fst (@AI.askAI_compose host_ddg_answers "cuaca jakarta" false two_turns "search" fresh_world)
    <> Returned (layout_context_before_history
                   {| role := "system"; content := AI.systemPromptFor "search" |}
                   context (AI.last8 two_turns)
                   {| role := "user"; content := JStr "cuaca jakarta" |}).
Proof.
  assert (Hrun : fst (@AI.askAI_compose host_ddg_answers "cuaca jakarta" false two_turns "search"
                        fresh_world)
                 = Returned [ {| role := "system"; content := AI.systemPromptFor "search" |};
                              {| role := "user"; content := JStr "halo" |};
                              {| role := "assistant"; content := JStr "hai" |};
                              {| role := "system";
                                 content := JStr ("Hasil pencarian:" +:+ nl +:+ "📌 Jakarta: 31 C, cerah") |};
                              {| role := "user"; content := JStr "cuaca jakarta" |} ])
    by (vm_compute; reflexivity).
  split; [exact Hrun |].
  intros context Heq. rewrite Hrun in Heq. injection Heq as Heq.
  unfold layout_context_before_history in Heq.
  change (AI.last8 two_turns) with two_turns in Heq. unfold two_turns in Heq.
  destruct context as [| c1 [| c2 [| c3 [| c4 rest]]]]; cbn [app] in Heq; try discriminate.
  apply (f_equal length) in Heq. cbn [length] in Heq. rewrite length_app in Heq.
  cbn [length] in Heq. lia.
Qed.

(** ** The raw-generate adapter *)

Section RawGenerate.
Context `{Host}.

Lemma find_head_filter {A} (f : A -> bool) (l : list A) :
  List.find f l = head (List.filter f l).
Proof.
  induction l as [| x l IH]; [reflexivity |].
  cbn. destruct (f x); [reflexivity | exact IH].
Qed.

Lemma mlvoca_prompt_first_system_last_message messages :
  AI.mlvoca_payload_prompt messages = prompt_of_first_system_and_last_message messages.
Proof.
  unfold AI.mlvoca_payload_prompt, prompt_of_first_system_and_last_message,
    AI.mlvoca_sys, AI.mlvoca_prompt, system_then_prompt, content_or_empty.
  rewrite find_head_filter.
  destruct (head (List.filter (fun m => String.eqb (role m) "system") messages)) as [s |];
    destruct (last messages) as [l |]; reflexivity.
Qed.

(** C8, as the code has it.  [mlvocaRequest] issues one request whose prompt
    is the content of the first system message (when not empty), a blank
    line, and the content of the last message of the list, whatever lies in
    between: for a list that starts with a system message [s] and ends with a
    message [l], every message between them is discarded. *)
Theorem mlvoca_prompt_first_system_and_last (model : option string) (messages : list Message)
    (w : World) :
  http_log (snd (AI.mlvocaRequest model messages w))
  = http_log w ++
      [{| req_method := POST; req_url := "https://mlvoca.com/api/generate"; req_params := [];
          req_body := JObj [("model", model_json model);
                            ("prompt", prompt_of_first_system_and_last_message messages);
                            ("stream", JBool false)];
          req_headers := []; req_timeout := 60000 |}] /\
  (forall s between l,
     messages = s :: between ++ [l] -> role s = "system" ->
     prompt_of_first_system_and_last_message messages
     = system_then_prompt (js_or (content s) (JStr "")) (js_or (content l) (JStr "")) /\
     forall text_s text_l, content s = JStr text_s -> content l = JStr text_l ->
       prompt_of_first_system_and_last_message messages
       = JStr (if String.eqb text_s "" then text_l
               else text_s +:+ nl +:+ nl +:+ text_l)).
Proof.
  split.
  - unfold AI.mlvocaRequest. rewrite mlvoca_prompt_first_system_last_message.
    unfold bind at 1. unfold axios_call.
    match goal with |- context [axios ?log ?req] => destruct (axios log req) as [data | msg] end.
    + cbn match. unfold bind, lift, ret. destruct (get data "response"); reflexivity.
    + reflexivity.
  - intros s between l -> Hs.
    assert (Hprompt : prompt_of_first_system_and_last_message (s :: between ++ [l])
                      = system_then_prompt (js_or (content s) (JStr ""))
                          (js_or (content l) (JStr ""))).
    { unfold prompt_of_first_system_and_last_message, content_or_empty.
      cbn [List.filter]. rewrite Hs. cbn [String.eqb Ascii.eqb Bool.eqb andb head from_option].
      replace (last (s :: between ++ [l])) with (Some l); [reflexivity |].
      symmetry. change (s :: between ++ [l]) with ((s :: between) ++ [l]). apply last_snoc. }
    split; [exact Hprompt |].
    intros text_s text_l Es El. rewrite Hprompt, Es, El.
    destruct text_s, text_l; reflexivity.
Qed.
End RawGenerate.

(** C8 at a sample input: the two turns between the system prompt and the
    question leave no trace in the prompt. *)
Lemma mlvoca_prompt_first_system_and_last_witness :
  @prompt_of_first_system_and_last_message host_offline
    ({| role := "system"; content := JStr "Kamu adalah asisten." |}
       :: two_turns ++ [{| role := "user"; content := JStr "cuaca?" |}])
  = JStr ("Kamu adalah asisten." +:+ nl +:+ nl +:+ "cuaca?").
Proof.
  apply (proj2 (@mlvoca_prompt_first_system_and_last host_offline None
                  ({| role := "system"; content := JStr "Kamu adalah asisten." |}
                     :: two_turns ++ [{| role := "user"; content := JStr "cuaca?" |}])
                  fresh_world)
           {| role := "system"; content := JStr "Kamu adalah asisten." |} two_turns
           {| role := "user"; content := JStr "cuaca?" |} eq_refl eq_refl);
    reflexivity.
Defined.

(** C8 as stated fails: with a search context after the base prompt, the
    prompt carries the first system message (the base prompt), not the last
    one (the search context). *)
Lemma mlvoca_prompt_not_last_system :
  @AI.mlvoca_payload_prompt host_offline
    [ {| role := "system"; content := JStr "Kamu adalah asisten." |};
      {| role := "system"; content := JStr "Hasil pencarian: cerah" |};
      {| role := "user"; content := JStr "cuaca?" |} ]
  = JStr ("Kamu adalah asisten." +:+ nl +:+ nl +:+ "cuaca?") /\
  @prompt_of_last_system_and_last_user host_offline
    [ {| role := "system"; content := JStr "Kamu adalah asisten." |};
      {| role := "system"; content := JStr "Hasil pencarian: cerah" |};
      {| role := "user"; content := JStr "cuaca?" |} ]
  = JStr ("Hasil pencarian: cerah" +:+ nl +:+ nl +:+ "cuaca?") /\
  @AI.mlvoca_payload_prompt host_offline
    [ {| role := "system"; content := JStr "Kamu adalah asisten." |};
      {| role := "system"; content := JStr "Hasil pencarian: cerah" |};
      {| role := "user"; content := JStr "cuaca?" |} ]
  <> @prompt_of_last_system_and_last_user host_offline
       [ {| role := "system"; content := JStr "Kamu adalah asisten." |};
         {| role := "system"; content := JStr "Hasil pencarian: cerah" |};
         {| role := "user"; content := JStr "cuaca?" |} ].
Proof.
  split; [reflexivity | split; [reflexivity |]].
  vm_compute. discriminate.
Qed.

(** ** The search aggregators *)

Section SearchFacts.
Context `{Host}.

Ltac split_completions :=
  repeat match goal with
         | |- context [match ?c with Returned _ => _ | Thrown _ => _ end] => destruct c
         end.



Lemma searchDDG_log query maxResults w :
  http_log (snd (Search.searchDDG query maxResults w)) = http_log w ++ ddg_requests query.
Proof.
  unfold Search.searchDDG, ddg_requests, bind, axios_call, lift, ret. cbn zeta.
  destruct (encodeURIComponent query) as [encoded | e]; [| cbn; rewrite app_nil_r; reflexivity].
  fold (ddg_request encoded).
  destruct (axios (http_log w) (ddg_request encoded)) as [data | msg]; [| reflexivity].
  split_completions; reflexivity.
Qed.

Lemma searchJina_log query w :
  http_log (snd (Search.searchJina query w)) = http_log w ++ jina_requests query.
Proof.
  unfold Search.searchJina, jina_requests, bind, axios_call, lift, ret.
  destruct (encodeURIComponent query) as [encoded | e]; [| cbn; rewrite app_nil_r; reflexivity].
  fold (jina_request encoded).
  destruct (axios (http_log w) (jina_request encoded)) as [data | msg]; [| reflexivity].
  cbn match. destruct (nullish data); [reflexivity |].
  split_completions; reflexivity.
Qed.

Lemma searchTavily_log query maxResults w :
  truthy (Config.tavily Config.API_KEYS) = true ->
  http_log (snd (Search.searchTavily query maxResults w))
  = http_log w ++ [tavily_request query maxResults].
Proof.
  intros Hkey. unfold Search.searchTavily. rewrite Hkey. cbn [negb].
  unfold bind, axios_call, lift, ret. fold (tavily_request query maxResults).
  destruct (axios (http_log w) (tavily_request query maxResults)); [| reflexivity].
  split_completions; reflexivity.
Qed.

Lemma searchBrave_log query maxResults w :
  truthy (Config.brave Config.API_KEYS) = true ->
  http_log (snd (Search.searchBrave query maxResults w))
  = http_log w ++ [brave_request query maxResults].
Proof.
  intros Hkey. unfold Search.searchBrave. rewrite Hkey. cbn [negb].
  unfold bind, axios_call, lift, ret. fold (brave_request query maxResults).
  destruct (axios (http_log w) (brave_request query maxResults)); [| reflexivity].
  split_completions; reflexivity.
Qed.

Lemma searchSerper_log query maxResults w :
  truthy (Config.serper Config.API_KEYS) = true ->
  http_log (snd (Search.searchSerper query maxResults w))
  = http_log w ++ [serper_request query maxResults].
Proof.
  intros Hkey. unfold Search.searchSerper. rewrite Hkey. cbn [negb].
  unfold bind, axios_call, lift, ret. fold (serper_request query maxResults).
  destruct (axios (http_log w) (serper_request query maxResults)); [| reflexivity].
  split_completions; reflexivity.
Qed.

Lemma search_failed_log (body : Async JValue) engine w :
  http_log (snd (try_catch body (search_failed engine) w)) = http_log (snd (body w)).
Proof. unfold try_catch. destruct (body w) as [[v | e] w1]; reflexivity. Qed.

(** [search] as a dispatch on its [engine] argument. *)
Lemma search_dispatch query engine maxResults :
  Search.search query engine maxResults
  = try_catch
      (if String.eqb engine "tavily" && truthy (Config.tavily Config.API_KEYS)
       then Search.searchTavily query maxResults
       else if String.eqb engine "brave" && truthy (Config.brave Config.API_KEYS)
       then Search.searchBrave query maxResults
       else if String.eqb engine "serper" && truthy (Config.serper Config.API_KEYS)
       then Search.searchSerper query maxResults
       else if String.eqb engine "jina" then Search.searchJina query
       else Search.searchDDG query maxResults)
      (search_failed engine).
Proof.
  unfold Search.search. fold (search_failed engine). f_equal.
  destruct (String.eqb engine "duckduckgo") eqn:Ed.
  { apply String.eqb_eq in Ed as ->. reflexivity. }
  destruct (String.eqb engine "tavily") eqn:Et.
  { apply String.eqb_eq in Et as ->. cbn [andb String.eqb Ascii.eqb Bool.eqb].
    unfold Search.searchTavily at 1.
    destruct (truthy (Config.tavily Config.API_KEYS)) eqn:Hk; cbn [negb]; [| reflexivity].
    unfold Search.searchTavily. rewrite Hk. reflexivity. }
  destruct (String.eqb engine "brave") eqn:Eb.
  { apply String.eqb_eq in Eb as ->. cbn [andb String.eqb Ascii.eqb Bool.eqb].
    unfold Search.searchBrave at 1.
    destruct (truthy (Config.brave Config.API_KEYS)) eqn:Hk; cbn [negb]; [| reflexivity].
    unfold Search.searchBrave. rewrite Hk. reflexivity. }
  destruct (String.eqb engine "serper") eqn:Es.
  { apply String.eqb_eq in Es as ->. cbn [andb String.eqb Ascii.eqb Bool.eqb].
    unfold Search.searchSerper at 1.
    destruct (truthy (Config.serper Config.API_KEYS)) eqn:Hk; cbn [negb]; [| reflexivity].
    unfold Search.searchSerper. rewrite Hk. reflexivity. }
  reflexivity.
Qed.

Lemma search_log query engine maxResults w :
  http_log (snd (Search.search query engine maxResults w))
  = http_log w ++ requests_of_engine query engine maxResults.
Proof.
  rewrite search_dispatch, search_failed_log. unfold requests_of_engine.
  destruct (String.eqb engine "tavily" && truthy (Config.tavily Config.API_KEYS)) eqn:Et.
  { apply andb_true_iff in Et as [_ Hk]. apply searchTavily_log, Hk. }
  destruct (String.eqb engine "brave" && truthy (Config.brave Config.API_KEYS)) eqn:Eb.
  { apply andb_true_iff in Eb as [_ Hk]. apply searchBrave_log, Hk. }
  destruct (String.eqb engine "serper" && truthy (Config.serper Config.API_KEYS)) eqn:Es.
  { apply andb_true_iff in Es as [_ Hk]. apply searchSerper_log, Hk. }
  destruct (String.eqb engine "jina"); [apply searchJina_log | apply searchDDG_log].
Qed.

Lemma requests_of_engine_length query engine maxResults :
  length (requests_of_engine query engine maxResults) <= 1.
Proof.
  unfold requests_of_engine, jina_requests, ddg_requests.
  repeat match goal with |- context [if ?b then _ else _] => destruct b end;
    destruct (encodeURIComponent query); cbn; lia.
Qed.









End SearchFacts.



(** ** Chat history *)

Section History.
Import Database.

Lemma filter_of_user_cleared u rows :
  List.filter (of_user u) (List.filter (fun r => negb (of_user u r)) rows) = [].
Proof.
  induction rows as [| r rows IH]; [reflexivity |].
  cbn. destruct (of_user u r) eqn:Hr; cbn; [exact IH |].
  rewrite Hr. exact IH.
Qed.

Lemma filter_of_other_user u v rows :
  v <> u ->
  List.filter (of_user v) (List.filter (fun r => negb (of_user u r)) rows)
  = List.filter (of_user v) rows.
Proof.
  intros Hvu. induction rows as [| r rows IH]; [reflexivity |].
  cbn. destruct (of_user u r) eqn:Hu; cbn.
  - assert (Hv : of_user v r = false).
    { unfold of_user in *. apply String.eqb_eq in Hu. apply String.eqb_neq. congruence. }
    rewrite Hv. exact IH.
  - destruct (of_user v r); [rewrite IH |]; auto.
Qed.

Lemma limit_rows_nil {A} limit : limit_rows limit ([] : list A) = [].
Proof. unfold limit_rows. destruct (limit <? 0)%Z; [reflexivity | apply firstn_nil]. Qed.

(** C10. [clearHistory userId] deletes exactly the conversation rows of that
    user, keeping the others in order.  Afterwards [getStats userId] is 0 and
    [getHistory userId n] is empty for every [n]; the settings of every user
    (the cleared one included) are what they were, and for any other user
    [getHistory] and [getStats] answer as before. *)
Theorem clearHistory_removes_only_that_users_rows (userId : string) (db : Db) :
  getStats userId (clearHistory userId db) = 0%Z /\
  (forall limit, getHistory userId limit (clearHistory userId db) = []) /\
  (forall r, r ∈ conversations (clearHistory userId db)
             <-> r ∈ conversations db /\ user_id r <> userId) /\
  (forall other, getSettings other (clearHistory userId db) = getSettings other db) /\
  user_settings (clearHistory userId db) = user_settings db /\
  (forall other, other <> userId ->
     List.filter (of_user other) (conversations (clearHistory userId db))
       = List.filter (of_user other) (conversations db) /\
     (forall limit, getHistory other limit (clearHistory userId db) = getHistory other limit db) /\
     getStats other (clearHistory userId db) = getStats other db).
Proof.
  split; [| split; [| split; [| split; [| split]]]].
  - unfold getStats, clearHistory. cbn [conversations].
    rewrite filter_of_user_cleared. reflexivity.
  - intros limit. unfold getHistory, clearHistory. cbn [conversations].
    rewrite filter_of_user_cleared. cbn. rewrite limit_rows_nil. reflexivity.
  - intros r. unfold clearHistory. cbn [conversations].
    rewrite list_elem_of_In, filter_In, <- list_elem_of_In.
    unfold of_user. rewrite negb_true_iff, String.eqb_neq. reflexivity.
  - intros other. reflexivity.
  - reflexivity.
  - intros other Hother.
    assert (Hrows : List.filter (of_user other) (conversations (clearHistory userId db))
                    = List.filter (of_user other) (conversations db)).
    { unfold clearHistory. cbn [conversations]. apply filter_of_other_user, Hother. }
    split; [exact Hrows |]. split.
    + intros limit. unfold getHistory. rewrite Hrows. reflexivity.
    + unfold getStats. rewrite Hrows. reflexivity.
Qed.
End History.

(** C10 at a sample input: two users, the first one cleared. *)
Lemma clearHistory_removes_only_that_users_rows_witness :
  Database.getHistory "628111@s.whatsapp.net" 10
    (Database.clearHistory "628111@s.whatsapp.net" two_users_db) = [] /\
  Database.getHistory "628222@s.whatsapp.net" 10
    (Database.clearHistory "628111@s.whatsapp.net" two_users_db)
  = [{| role := "user"; content := JStr "hai" |}; {| role := "assistant"; content := JStr "hai juga" |}] /\
  Database.getSettings "628111@s.whatsapp.net"
    (Database.clearHistory "628111@s.whatsapp.net" two_users_db)
  = Some ("groq", "llama-3.3-70b-versatile", "search").
Proof.
  destruct (clearHistory_removes_only_that_users_rows "628111@s.whatsapp.net" two_users_db)
    as (_ & Hcleared & _ & Hsettings & _ & Hothers).
  split; [apply Hcleared |]. split.
  - destruct (Hothers "628222@s.whatsapp.net") as (_ & Hhistory & _); [discriminate |].
    rewrite Hhistory. vm_compute. reflexivity.
  - rewrite Hsettings. vm_compute. reflexivity.
Defined.

(** ** The earlier bridge's loop *)

Section LegacyDispatch.
Context `{Host}.

Lemma legacy_askAI_compose_returns userMessage useSearch w :
  exists messages w', Legacy.askAI_compose userMessage useSearch w = (Returned messages, w').
Proof.
  unfold Legacy.askAI_compose. cbn zeta. destruct useSearch.
  - unfold bind at 1. unfold bind at 1.
    destruct (legacy_search_returns userMessage w) as (r & w' & ->). cbn. eauto.
  - cbn. eauto.
Qed.

Lemma legacy_PROVIDERS_chain c :
  c ∈ Legacy.FALLBACK_CHAIN -> is_Some (Legacy.PROVIDERS !! provider c).
Proof.
  unfold Legacy.FALLBACK_CHAIN. intros Hc.
  repeat (apply elem_of_cons in Hc as [-> | Hc]; [eexists; reflexivity |]).
  inversion Hc.
Qed.

(** The loop deals with its first candidate as it would alone, and goes on
    only when that candidate hands back nothing. *)
Lemma legacy_loop_cons c rest messages w :
  Legacy.askAI_loop (c :: rest) messages w
  = match Legacy.askAI_loop [c] messages w with
    | (Returned None, w1) => Legacy.askAI_loop rest messages w1
    | other => other
    end.
Proof.
  cbn [Legacy.askAI_loop].
  destruct (table_get Legacy.PROVIDERS (provider c)) as [p | name |];
    [| reflexivity | reflexivity].
  destruct (negb (truthy (Legacy.key p)) && negb (String.eqb (provider c) "pollinations"));
    [reflexivity |].
  unfold bind.
  match goal with |- context [try_catch ?b ?h w] => destruct (try_catch b h w) as [[[v |] | e] w1] end;
    reflexivity.
Qed.

(** On a registered candidate the loop never throws. *)
Lemma legacy_loop_single_returns c messages w :
  is_Some (Legacy.PROVIDERS !! provider c) ->
  exists found w', Legacy.askAI_loop [c] messages w = (Returned found, w') /\
    (legacy_available c = false -> found = None /\ w' = w) /\
    (forall v, found = Some v -> truthy v = true /\ legacy_available c = true).
Proof.
  intros [p Hp]. unfold legacy_available. cbn [Legacy.askAI_loop].
  rewrite (table_get_Own _ _ _ Hp), Hp.
  destruct (truthy (Legacy.key p) || String.eqb (provider c) "pollinations") eqn:Hav.
  - apply orb_true_iff in Hav.
    assert (Hgo : negb (truthy (Legacy.key p)) && negb (String.eqb (provider c) "pollinations")
                  = false).
    { apply andb_false_iff. rewrite !negb_false_iff. exact Hav. }
    rewrite Hgo. unfold bind at 1, try_catch. unfold bind at 1.
    destruct (Legacy.attempt (provider c) p (Legacy.key p) (model c) messages w)
      as [[reply | e] w1].
    + destruct (truthy reply) eqn:Hr; cbn.
      * eexists _, _. split; [reflexivity |]. split; [discriminate |].
        intros v [= <-]. split; [exact Hr | reflexivity].
      * eexists _, _. split; [reflexivity |]. split; [discriminate | discriminate].
    + cbn. eexists _, _. split; [reflexivity |]. split; [discriminate | discriminate].
  - apply orb_false_iff in Hav as [Hk Hpoll]. rewrite Hk, Hpoll. cbn.
    exists None, w. split; [reflexivity |]. split; [auto | discriminate].
Qed.

Lemma legacy_world_before_S c chain messages w k :
  legacy_world_before (c :: chain) messages w (S k)
  = legacy_world_before chain messages (legacy_passed messages w c) k.
Proof. reflexivity. Qed.

Lemma legacy_loop_first_match chain : forall messages w k c v,
  (forall c', c' ∈ chain -> is_Some (Legacy.PROVIDERS !! provider c')) ->
  chain !! k = Some c ->
  (forall j cj, j < k -> chain !! j = Some cj ->
     fst (Legacy.askAI_loop [cj] messages (legacy_world_before chain messages w j))
       = Returned None) ->
  fst (Legacy.askAI_loop [c] messages (legacy_world_before chain messages w k))
    = Returned (Some v) ->
  Legacy.askAI_loop chain messages w
    = (Returned (Some v), legacy_world_before chain messages w (S k)).
Proof.
  induction chain as [| c0 rest IH]; intros messages w k c v Hreg Hk Hbefore Hwin.
  - rewrite lookup_nil in Hk. discriminate.
  - rewrite legacy_loop_cons. destruct k as [| k].
    + injection Hk as ->. unfold legacy_world_before in *. cbn [take fold_left] in *.
      unfold legacy_passed.
      destruct (Legacy.askAI_loop [c] messages w) as [r w1]. cbn in Hwin. subst r. reflexivity.
    + cbn in Hk.
      pose proof (Hbefore 0 c0 ltac:(lia) eq_refl) as H0.
      unfold legacy_world_before in H0. cbn [take fold_left] in H0.
      destruct (Legacy.askAI_loop [c0] messages w) as [r w1] eqn:Hrun. cbn in H0. subst r.
      assert (Hw : forall j, legacy_world_before (c0 :: rest) messages w (S j)
                             = legacy_world_before rest messages w1 j).
      { intros j. rewrite legacy_world_before_S. unfold legacy_passed.
        rewrite Hrun. reflexivity. }
      rewrite Hw. apply (IH messages w1 k c v).
      * intros c' Hc'. apply Hreg. right. exact Hc'.
      * exact Hk.
      * intros j cj Hj Hcj. rewrite <- Hw. apply Hbefore; [lia | exact Hcj].
      * rewrite <- Hw. exact Hwin.
Qed.

Lemma legacy_loop_returns chain : forall messages w,
  (forall c', c' ∈ chain -> is_Some (Legacy.PROVIDERS !! provider c')) ->
  exists found w', Legacy.askAI_loop chain messages w = (Returned found, w') /\
    ((forall j cj, chain !! j = Some cj ->
        fst (Legacy.askAI_loop [cj] messages (legacy_world_before chain messages w j))
          = Returned None) ->
     found = None /\ w' = legacy_world_before chain messages w (length chain)).
Proof.
  induction chain as [| c0 rest IH]; intros messages w Hreg.
  - exists None, w. split; [reflexivity | auto].
  - rewrite legacy_loop_cons.
    destruct (legacy_loop_single_returns c0 messages w (Hreg c0 ltac:(left)))
      as (found0 & w1 & Hrun & _).
    pose proof Hrun as Hrun'.
    destruct found0 as [v |].
    + rewrite Hrun. exists (Some v), w1. split; [reflexivity |].
      intros Hall. specialize (Hall 0 c0 eq_refl).
      unfold legacy_world_before in Hall. cbn [take fold_left] in Hall.
      rewrite Hrun in Hall. discriminate.
    + rewrite Hrun.
      destruct (IH messages w1 (fun c' Hc' => Hreg c' ltac:(right; exact Hc')))
        as (found & w' & Hrest & Hnone).
      exists found, w'. split; [exact Hrest |].
      assert (Hw : forall j, legacy_world_before (c0 :: rest) messages w (S j)
                             = legacy_world_before rest messages w1 j).
      { intros j. rewrite legacy_world_before_S. unfold legacy_passed.
        rewrite Hrun'. reflexivity. }
      intros Hall. cbn [length]. rewrite Hw. apply Hnone.
      intros j cj Hcj. rewrite <- Hw. apply Hall. exact Hcj.
Qed.

(** X1. The earlier bridge's loop over its static chain is a first-match-wins
    scan as well: the candidate that first hands back a reply, every candidate
    before it handing back nothing, decides the result, and nothing after it
    is attempted. *)
Theorem legacy_dispatch_first_match_wins (messages : list Message) (w : World) (k : nat)
    (c : Candidate) (v : JValue) :
  Legacy.FALLBACK_CHAIN !! k = Some c ->
  (forall j cj, j < k -> Legacy.FALLBACK_CHAIN !! j = Some cj ->
     fst (Legacy.askAI_loop [cj] messages
            (legacy_world_before Legacy.FALLBACK_CHAIN messages w j)) = Returned None) ->
  fst (Legacy.askAI_loop [c] messages (legacy_world_before Legacy.FALLBACK_CHAIN messages w k))
    = Returned (Some v) ->
  Legacy.askAI_loop Legacy.FALLBACK_CHAIN messages w
    = (Returned (Some v), legacy_world_before Legacy.FALLBACK_CHAIN messages w (S k)) /\
  truthy v = true /\ legacy_available c = true.
Proof.
  intros Hk Hbefore Hwin. split.
  - apply (legacy_loop_first_match _ messages w k c v); auto using legacy_PROVIDERS_chain.
  - assert (Hc : c ∈ Legacy.FALLBACK_CHAIN) by (eapply list_elem_of_lookup_2; exact Hk).
    destruct (legacy_loop_single_returns c messages
                (legacy_world_before Legacy.FALLBACK_CHAIN messages w k)
                (legacy_PROVIDERS_chain c Hc)) as (found & w' & Hrun & _ & Hfound).
    rewrite Hrun in Hwin. cbn in Hwin. injection Hwin as ->. apply Hfound. reflexivity.
Qed.

(** X2. The earlier bridge's [askAI] never throws, and returns its own fixed
    apology when every candidate of its chain hands back nothing. *)
Theorem legacy_askAI_returns_apology_when_exhausted (userMessage : string) (useSearch : bool)
    (w : World) :
  (exists v w', Legacy.askAI userMessage useSearch w = (Returned v, w')) /\
  (forall messages w1,
     Legacy.askAI_compose userMessage useSearch w = (Returned messages, w1) ->
     (forall j cj, Legacy.FALLBACK_CHAIN !! j = Some cj ->
        fst (Legacy.askAI_loop [cj] messages
               (legacy_world_before Legacy.FALLBACK_CHAIN messages w1 j)) = Returned None) ->
     fst (Legacy.askAI userMessage useSearch w)
       = Returned (JStr "Maaf, semua provider AI sedang tidak tersedia. Coba lagi nanti.")).
Proof.
  destruct (legacy_askAI_compose_returns userMessage useSearch w) as (messages & w1 & Hcompose).
  split.
  - unfold Legacy.askAI. unfold bind at 1. rewrite Hcompose. unfold bind at 1.
    destruct (legacy_loop_returns Legacy.FALLBACK_CHAIN messages w1
                (fun c Hc => legacy_PROVIDERS_chain c Hc)) as (found & w' & Hrun & _).
    rewrite Hrun. destruct found; cbn; eauto.
  - intros messages' w1' Hcompose' Hall. rewrite Hcompose in Hcompose'.
    injection Hcompose' as <- <-.
    unfold Legacy.askAI. unfold bind at 1. rewrite Hcompose. unfold bind at 1.
    destruct (legacy_loop_returns Legacy.FALLBACK_CHAIN messages w1
                (fun c Hc => legacy_PROVIDERS_chain c Hc)) as (found & w' & Hrun & Hnone).
    rewrite Hrun. destruct (Hnone Hall) as [-> _]. reflexivity.
Qed.
End LegacyDispatch.

(** The earlier loop at a sample input: Groq is down, Pollinations answers. *)
Lemma legacy_dispatch_first_match_wins_witness :
  @Legacy.askAI_loop host_groq_down Legacy.FALLBACK_CHAIN hello_messages fresh_world
    = (Returned (Some (JStr "hi there")),
       @legacy_world_before host_groq_down Legacy.FALLBACK_CHAIN hello_messages fresh_world 5) /\
  truthy (JStr "hi there") = true /\
  @legacy_available host_groq_down (Config.cand "pollinations" "openai") = true.
Proof.
  apply (@legacy_dispatch_first_match_wins host_groq_down hello_messages fresh_world 4
           (Config.cand "pollinations" "openai") (JStr "hi there")).
  - reflexivity.
  - intros j cj Hj Hcj.
    do 4 (destruct j as [| j]; [injection Hcj as <-; vm_compute; reflexivity |]).
    lia.
  - vm_compute. reflexivity.
Defined.


(** ** The apology *)

Section Apology.
Context `{Host}.
Import Providers.

Lemma legacy_loop_truthy chain : forall messages w v w',
  (forall c', c' ∈ chain -> is_Some (Legacy.PROVIDERS !! provider c')) ->
  Legacy.askAI_loop chain messages w = (Returned (Some v), w') ->
  truthy v = true.
Proof.
  induction chain as [| c0 rest IH]; intros messages w v w' Hreg Hrun.
  - discriminate.
  - rewrite legacy_loop_cons in Hrun.
    destruct (legacy_loop_single_returns c0 messages w (Hreg c0 ltac:(left)))
      as (found0 & w1 & Hsingle & _ & Hfound).
    rewrite Hsingle in Hrun. destruct found0 as [v0 |].
    + injection Hrun as <- _. apply (Hfound v0 eq_refl).
    + apply (IH messages w1 v w'); [| exact Hrun].
      intros c' Hc'. apply Hreg. right. exact Hc'.
Qed.

(** C2, as the code has it.  In a mode, and with an override, that do not
    name a member every object inherits, [askAI] never throws: it returns
    either a truthy reply of a provider or its fixed apology, the only
    failure value it has.  When the probe of the override hands back nothing
    (no override to try, or it failed) and every available candidate of the
    mode's chain, attempted in turn, returns nothing truthy, it returns the
    apology, having attempted every available candidate once.  The earlier
    bridge's [askAI] never throws either and has a fixed apology of its own,
    in other words, which it returns when every candidate of its chain hands
    back nothing. *)
Theorem askAI_returns_apology_when_exhausted (userMessage : string) (useSearch : bool)
    (selectedProvider selectedModel : option string) (chatHistory : list Message)
    (mode : string) (w : World) :
  inherited mode = false ->
  (AI.given selectedProvider && AI.given selectedModel = true ->
   inherited (default "" selectedProvider) = false) ->
  (exists v w',
     AI.askAI userMessage useSearch selectedProvider selectedModel chatHistory mode w
       = (Returned v, w') /\
     (v = JStr "Maaf, semua provider tidak tersedia saat ini." \/
      (truthy v = true /\
       exists p m messages w0, fst (AI.tryProvider p m messages w0) = Returned v))) /\
  (forall messages w1 w2,
     AI.askAI_compose userMessage useSearch chatHistory mode w = (Returned messages, w1) ->
     AI.askAI_probe messages selectedProvider selectedModel w1 = (Returned None, w2) ->
     (forall j cj, chain_of mode !! j = Some cj ->
        isProviderAvailable (provider cj) = Returned true ->
        forall r, fst (AI.tryProvider (provider cj) (model cj) messages
                         (world_before (chain_of mode) messages w2 j)) = Returned r ->
                  truthy r = false) ->
     AI.askAI userMessage useSearch selectedProvider selectedModel chatHistory mode w
       = (Returned (JStr "Maaf, semua provider tidak tersedia saat ini."),
          world_before (chain_of mode) messages w2 (length (chain_of mode)))) /\
  (exists v w',
     Legacy.askAI userMessage useSearch w = (Returned v, w') /\
     (v = JStr "Maaf, semua provider AI sedang tidak tersedia. Coba lagi nanti." \/
      truthy v = true)) /\
  (forall messages w1,
     Legacy.askAI_compose userMessage useSearch w = (Returned messages, w1) ->
     (forall j cj, Legacy.FALLBACK_CHAIN !! j = Some cj ->
        fst (Legacy.askAI_loop [cj] messages
               (legacy_world_before Legacy.FALLBACK_CHAIN messages w1 j)) = Returned None) ->
     Legacy.askAI userMessage useSearch w
       = (Returned (JStr "Maaf, semua provider AI sedang tidak tersedia. Coba lagi nanti."),
          legacy_world_before Legacy.FALLBACK_CHAIN messages w1
            (length Legacy.FALLBACK_CHAIN))).
Proof.
  intros Hmode Hoverride. split; [| split; [| split]].
  - apply askAI_never_throws; assumption.
  - intros messages w1 w2. apply askAI_exhausted, Hmode.
  - destruct (legacy_askAI_compose_returns userMessage useSearch w)
      as (messages & w1 & Hcompose).
    unfold Legacy.askAI. unfold bind at 1. rewrite Hcompose. unfold bind at 1.
    destruct (legacy_loop_returns Legacy.FALLBACK_CHAIN messages w1
                (fun c Hc => legacy_PROVIDERS_chain c Hc)) as (found & w' & Hrun & _).
    rewrite Hrun. destruct found as [v |]; cbn.
    + exists v, w'. split; [reflexivity |]. right.
      apply (legacy_loop_truthy _ _ _ _ _ (fun c Hc => legacy_PROVIDERS_chain c Hc) Hrun).
    + eexists _, w'. split; [reflexivity |]. left. reflexivity.
  - intros messages w1 Hcompose Hall.
    unfold Legacy.askAI. unfold bind at 1. rewrite Hcompose. unfold bind at 1.
    destruct (legacy_loop_returns Legacy.FALLBACK_CHAIN messages w1
                (fun c Hc => legacy_PROVIDERS_chain c Hc)) as (found & w' & Hrun & Hnone).
    rewrite Hrun. destruct (Hnone Hall) as [-> ->]. reflexivity.
Qed.
End Apology.

(** C2 at a sample input: a Groq override and a network that is down. *)
Lemma askAI_returns_apology_when_exhausted_witness :
  @AI.askAI host_offline "hello" false (Some "groq") (Some "llama-3.3-70b-versatile") []
     "normal" fresh_world
  = (Returned (JStr "Maaf, semua provider tidak tersedia saat ini."),
     @world_before host_offline (chain_of "normal") hello_messages
       (snd (@AI.askAI_probe host_offline hello_messages (Some "groq")
               (Some "llama-3.3-70b-versatile") fresh_world))
       (length (chain_of "normal"))).
Proof.
  destruct (@askAI_returns_apology_when_exhausted host_offline "hello" false (Some "groq")
              (Some "llama-3.3-70b-versatile") [] "normal" fresh_world eq_refl
              (fun _ => eq_refl)) as (_ & Hexhausted & _).
  apply (Hexhausted hello_messages fresh_world).
  - reflexivity.
  - vm_compute. reflexivity.
  - intros j cj Hcj Hav r Hr.
    do 11 (destruct j as [| j]; [ injection Hcj as <-; vm_compute in Hav; vm_compute in Hr;
                                  try discriminate; injection Hr as <-; reflexivity | ]).
    discriminate.
Defined.

(** C2 as stated fails on the earlier bridge: with every provider out of
    reach its [askAI] returns an apology, but in other words than the ones
    quoted. *)
Lemma legacy_apology_is_another_text :
  fst (@Legacy.askAI host_offline "hello" false fresh_world)
  = Returned (JStr "Maaf, semua provider AI sedang tidak tersedia. Coba lagi nanti.") /\
  fst (@Legacy.askAI host_offline "hello" false fresh_world)
  <> Returned (JStr "Maaf, semua provider tidak tersedia saat ini.").
Proof. split; [vm_compute; reflexivity | vm_compute; discriminate]. Qed.

(** ** Chat history: order, bounds and round trips *)

Section HistoryOrder.
Import Database.

Lemma insert_desc_perm r sorted : Permutation (r :: sorted) (insert_desc r sorted).
Proof.
  induction sorted as [| x rest IH]; [reflexivity |].
  cbn. destruct (timestamp x <? timestamp r)%Z; [reflexivity |].
  rewrite perm_swap. constructor. exact IH.
Qed.

Lemma insert_desc_sorted r sorted : newest_first sorted -> newest_first (insert_desc r sorted).
Proof.
  unfold newest_first. induction sorted as [| x rest IH]; intros Hs.
  - repeat constructor.
  - cbn. destruct (timestamp x <? timestamp r)%Z eqn:Hlt.
    + apply Z.ltb_lt in Hlt. constructor; [exact Hs |].
      apply StronglySorted_inv in Hs as [_ Hx].
      constructor; [lia |].
      eapply Forall_impl; [exact Hx |]. cbn. intros a Ha. lia.
    + apply Z.ltb_ge in Hlt. apply StronglySorted_inv in Hs as [Hrest Hx].
      constructor; [apply IH, Hrest |].
      rewrite <- insert_desc_perm. constructor; [lia | exact Hx].
Qed.

Lemma order_by_from rows : forall sorted,
  Permutation (fold_left (fun acc r => insert_desc r acc) rows sorted) (sorted ++ rows) /\
  (newest_first sorted ->
   newest_first (fold_left (fun acc r => insert_desc r acc) rows sorted)).
Proof.
  induction rows as [| r rows IH]; intros sorted; cbn.
  - rewrite app_nil_r. auto.
  - destruct (IH (insert_desc r sorted)) as [Hperm Hsorted]. split.
    + rewrite Hperm, <- insert_desc_perm. cbn. apply Permutation_middle.
    + intros Hs. apply Hsorted, insert_desc_sorted, Hs.
Qed.

Lemma order_by_perm rows : Permutation (order_by_timestamp_desc rows) rows.
Proof. apply (order_by_from rows []). Qed.

Lemma order_by_sorted rows : newest_first (order_by_timestamp_desc rows).
Proof. apply (order_by_from rows []). constructor. Qed.

Lemma getStats_count userId db :
  getStats userId db = Z.of_nat (length (List.filter (of_user userId) (conversations db))).
Proof.
  unfold getStats. cbn zeta.
  destruct (Z.of_nat (length (List.filter (of_user userId) (conversations db))) =? 0)%Z eqn:E;
    [apply Z.eqb_eq in E; lia | reflexivity].
Qed.

Lemma StronglySorted_rev_flip {A} (R : A -> A -> Prop) l :
  StronglySorted R l -> StronglySorted (fun a b => R b a) (rev l).
Proof.
  induction 1 as [| x l Hs IH Hx]; cbn; [constructor |].
  apply StronglySorted_app_2; [| exact IH | repeat constructor].
  intros a b Ha Hb. apply list_elem_of_singleton in Hb as ->.
  rewrite Forall_forall in Hx. apply Hx.
  apply list_elem_of_In, in_rev. apply list_elem_of_In in Ha. exact Ha.
Qed.

Lemma take_drop_sorted {A} (R : A -> A -> Prop) n l a b :
  StronglySorted R l -> a ∈ take n l -> b ∈ drop n l -> R a b.
Proof.
  intros Hs Ha Hb. rewrite <- (take_drop n l) in Hs.
  eapply StronglySorted_app_1_elem_of; eassumption.
Qed.

(** X4. [getHistory] hands back the most recent messages of the user, oldest
    first: the rows behind the messages are rows of that user, sorted by
    ascending timestamp, at most [limit] of them (all of them for a negative
    limit), and no row of the user that was left out is newer than one that
    was kept. *)
Theorem getHistory_most_recent_oldest_first (userId : string) (limit : Z) (db : Db) :
  getHistory userId limit db = map message_of_row (rev (selected_rows userId limit db)) /\
  oldest_first (rev (selected_rows userId limit db)) /\
  (forall r, r ∈ selected_rows userId limit db -> r ∈ conversations db /\ user_id r = userId) /\
  Z.of_nat (length (getHistory userId limit db))
    = (if (limit <? 0)%Z then getStats userId db else Z.min limit (getStats userId db)) /\
  (forall kept left_out,
     kept ∈ selected_rows userId limit db ->
     left_out ∈ conversations db -> user_id left_out = userId ->
     left_out ∉ selected_rows userId limit db ->
     (timestamp left_out <= timestamp kept)%Z).
Proof.
  set (mine := List.filter (of_user userId) (conversations db)).
  assert (Hsorted := order_by_sorted mine).
  assert (Hperm := order_by_perm mine).
  assert (Hsel : selected_rows userId limit db
                 = if (limit <? 0)%Z then order_by_timestamp_desc mine
                   else take (Z.to_nat limit) (order_by_timestamp_desc mine)).
  { unfold selected_rows, limit_rows. fold mine. destruct (limit <? 0)%Z; reflexivity. }
  assert (Hmine : forall r, r ∈ order_by_timestamp_desc mine
                            <-> r ∈ conversations db /\ user_id r = userId).
  { intros r. rewrite Hperm. unfold mine.
    rewrite list_elem_of_In, filter_In, <- list_elem_of_In. unfold of_user.
    rewrite String.eqb_eq. reflexivity. }
  split; [| split; [| split; [| split]]].
  - unfold getHistory, selected_rows. cbn zeta. rewrite map_rev. reflexivity.
  - apply (StronglySorted_rev_flip (fun a b => (timestamp b <= timestamp a)%Z)).
    rewrite Hsel. destruct (limit <? 0)%Z; [exact Hsorted |].
    rewrite <- (take_drop (Z.to_nat limit)) in Hsorted.
    apply StronglySorted_app_1_l in Hsorted. exact Hsorted.
  - intros r Hr. apply Hmine. rewrite Hsel in Hr.
    destruct (limit <? 0)%Z; [exact Hr |].
    rewrite <- (take_drop (Z.to_nat limit)). apply elem_of_app. left. exact Hr.
  - rewrite getStats_count. fold mine. unfold getHistory. cbn zeta.
    fold mine. rewrite length_rev, length_map.
    change (limit_rows limit (order_by_timestamp_desc mine)) with (selected_rows userId limit db).
    rewrite Hsel. rewrite <- (Permutation_length Hperm).
    destruct (limit <? 0)%Z eqn:Hneg; [reflexivity |].
    apply Z.ltb_ge in Hneg. rewrite length_take. lia.
  - intros kept left_out Hkept Hin Huser Hout.
    rewrite Hsel in Hkept, Hout. destruct (limit <? 0)%Z.
    + exfalso. apply Hout, Hmine. auto.
    + assert (Hdrop : left_out ∈ drop (Z.to_nat limit) (order_by_timestamp_desc mine)).
      { assert (Hall : left_out ∈ order_by_timestamp_desc mine) by (apply Hmine; auto).
        rewrite <- (take_drop (Z.to_nat limit)) in Hall.
        apply elem_of_app in Hall as [Hl | Hr]; [contradiction | exact Hr]. }
      exact (take_drop_sorted _ _ _ _ _ Hsorted Hkept Hdrop).
Qed.

Lemma insert_desc_newest r sorted :
  Forall (fun x => (timestamp x < timestamp r)%Z) sorted -> insert_desc r sorted = r :: sorted.
Proof.
  destruct sorted as [| x rest]; [reflexivity |]. intros Hall.
  apply Forall_cons in Hall as [Hx _]. cbn. apply Z.ltb_lt in Hx. rewrite Hx. reflexivity.
Qed.

Lemma order_by_snoc rows r :
  order_by_timestamp_desc (rows ++ [r]) = insert_desc r (order_by_timestamp_desc rows).
Proof. unfold order_by_timestamp_desc. rewrite fold_left_app. reflexivity. Qed.

(** X5. Appending a message that is newer than everything the user has stored
    extends the history at its end: one more row asked for gives the old
    answer followed by the new message.  The count of the user goes up by
    one, and other users and all settings are left alone. *)
Theorem addMessage_extends_history (now : Z) (userId role content : string) (db : Db) :
  (forall r, r ∈ conversations db -> user_id r = userId -> (timestamp r < now)%Z) ->
  (forall n : nat,
     getHistory userId (Z.of_nat (S n)) (addMessage now userId role content db)
     = getHistory userId (Z.of_nat n) db ++ [{| role := role; content := JStr content |}]) /\
  getStats userId (addMessage now userId role content db) = (getStats userId db + 1)%Z /\
  (forall other limit, other <> userId ->
     getHistory other limit (addMessage now userId role content db) = getHistory other limit db /\
     getStats other (addMessage now userId role content db) = getStats other db) /\
  (forall other, getSettings other (addMessage now userId role content db) = getSettings other db).
Proof.
  intros Hnewer.
  set (row := {| id := (last_id db + 1)%Z; user_id := userId; row_role := role;
                 row_content := content; timestamp := now |}).
  assert (Hmine : List.filter (of_user userId) (conversations (addMessage now userId role content db))
                  = List.filter (of_user userId) (conversations db) ++ [row]).
  { unfold addMessage. cbn [conversations]. rewrite List.filter_app. cbn.
    unfold of_user at 2. cbn. rewrite String.eqb_refl. reflexivity. }
  assert (Hothers : forall other, other <> userId ->
            List.filter (of_user other) (conversations (addMessage now userId role content db))
            = List.filter (of_user other) (conversations db)).
  { intros other Hother. unfold addMessage. cbn [conversations]. rewrite List.filter_app. cbn.
    unfold of_user at 2. cbn. apply String.eqb_neq in Hother.
    rewrite String.eqb_sym, Hother. apply app_nil_r. }
  split; [| split; [| split]].
  - intros n. unfold getHistory. cbn zeta. rewrite Hmine, order_by_snoc.
    rewrite insert_desc_newest.
    + unfold limit_rows.
      replace (Z.of_nat (S n) <? 0)%Z with false by (symmetry; apply Z.ltb_ge; lia).
      replace (Z.of_nat n <? 0)%Z with false by (symmetry; apply Z.ltb_ge; lia).
      rewrite !Nat2Z.id. cbn [firstn map rev]. reflexivity.
    + apply Forall_forall. intros x Hx. cbn.
      rewrite order_by_perm in Hx.
      apply list_elem_of_In in Hx. apply filter_In in Hx as [Hx Hu].
      apply Hnewer; [apply list_elem_of_In, Hx | apply String.eqb_eq, Hu].
  - rewrite !getStats_count, Hmine, length_app. cbn. lia.
  - intros other limit Hother. split.
    + unfold getHistory. rewrite (Hothers other Hother). reflexivity.
    + rewrite !getStats_count, (Hothers other Hother). reflexivity.
  - intros other. reflexivity.
Qed.

(** X6. Settings round trip: what [saveSettings] stores for a user is what
    [getSettings] reads back; a second save replaces the first (one row per
    user); other users' settings and every conversation row are left alone. *)
Theorem saveSettings_round_trip (now : Z) (userId provider model mode : string) (db : Db) :
  getSettings userId (saveSettings now userId provider model mode db)
    = Some (provider, model, mode) /\
  (forall other, other <> userId ->
     getSettings other (saveSettings now userId provider model mode db) = getSettings other db) /\
  (forall earlier provider0 model0 mode0,
     user_settings (saveSettings now userId provider model mode
                      (saveSettings earlier userId provider0 model0 mode0 db))
     = user_settings (saveSettings now userId provider model mode db)) /\
  conversations (saveSettings now userId provider model mode db) = conversations db /\
  (forall other limit,
     getHistory other limit (saveSettings now userId provider model mode db)
       = getHistory other limit db /\
     getStats other (saveSettings now userId provider model mode db) = getStats other db).
Proof.
  split; [| split; [| split; [| split]]].
  - unfold getSettings, saveSettings. cbn [user_settings].
    rewrite lookup_insert_eq. reflexivity.
  - intros other Hother. unfold getSettings, saveSettings. cbn [user_settings].
    rewrite lookup_insert_ne by congruence. reflexivity.
  - intros earlier provider0 model0 mode0. unfold saveSettings. cbn [user_settings].
    apply insert_insert_eq.
  - reflexivity.
  - intros other limit. split; reflexivity.
Qed.
End HistoryOrder.

(** At a sample input: a third message of the first user, stored after the
    other four rows, is the last of that user's history. *)
Lemma addMessage_extends_history_witness :
  Database.getHistory "628111@s.whatsapp.net" 3
    (Database.addMessage 1700000010 "628111@s.whatsapp.net" "user" "apa kabar" two_users_db)
  = [{| role := "user"; content := JStr "halo" |};
     {| role := "assistant"; content := JStr "halo juga" |};
     {| role := "user"; content := JStr "apa kabar" |}].
Proof.
  destruct (addMessage_extends_history 1700000010 "628111@s.whatsapp.net" "user" "apa kabar"
              two_users_db) as (Hext & _).
  - intros r Hr _. vm_compute in Hr.
    repeat (apply elem_of_cons in Hr as [-> | Hr]); try (cbn; lia). inversion Hr.
  - change 3%Z with (Z.of_nat 3). rewrite (Hext 2%nat). vm_compute. reflexivity.
Defined.

(** ** The list of available providers *)

Section AvailableList.
Context `{Host}.
Import Providers.

Lemma isProviderAvailable_anonymous :
  isProviderAvailable "pollinations" = Returned true /\
  isProviderAvailable "mlvoca" = Returned true.
Proof. split; reflexivity. Qed.

Lemma filter_sublist {A} (f : A -> bool) (l : list A) : sublist (List.filter f l) l.
Proof.
  induction l as [| x l IH]; cbn; [constructor |].
  destruct (f x); [apply sublist_skip | apply sublist_cons]; exact IH.
Qed.

(** Over names the resolver answers for, [filter] keeps the available ones. *)
Lemma filter_available_answers names :
  Forall (fun name => exists answer, isProviderAvailable name = Returned answer) names ->
  filter_available names = Returned (List.filter available names).
Proof.
  induction names as [| name rest IH]; intros Hall; [reflexivity |].
  apply Forall_cons in Hall as [[answer Hanswer] Hrest].
  cbn [filter_available List.filter]. rewrite (available_false _ _ Hanswer), Hanswer.
  unfold cbind. rewrite (IH Hrest). reflexivity.
Qed.

Lemma listAvailableProviders_filter :
  listAvailableProviders = Returned (List.filter available catalog_names).
Proof.
  unfold listAvailableProviders. rewrite catalog_names_keys.
  apply filter_available_answers, Forall_forall. intros name Hin.
  apply PROVIDERS_registered in Hin as [p E]. rewrite (isProviderAvailable_Some _ _ E). eauto.
Qed.

(** X7. [listAvailableProviders] returns the catalog with the unavailable names
    taken out: it holds exactly the names [isProviderAvailable] accepts, each
    once and in catalog order; the two anonymous-tier providers are always in
    it, and they are all of it when no credential variable holds a non-empty
    string. *)
Theorem listAvailableProviders_exactly_the_available :
  exists names,
    listAvailableProviders = Returned names /\
    (forall name, name ∈ names <-> isProviderAvailable name = Returned true) /\
    NoDup names /\
    sublist names catalog_names /\
    "pollinations" ∈ names /\
    "mlvoca" ∈ names /\
    ((forall name var, (name, var) ∈ credential_variables -> truthy (env_get var) = false) ->
     names = ["pollinations"; "mlvoca"]).
Proof.
  exists (List.filter available catalog_names).
  split; [apply listAvailableProviders_filter |].
  assert (Hiff : forall name, name ∈ List.filter available catalog_names
                              <-> isProviderAvailable name = Returned true).
  { intros name.
    rewrite list_elem_of_In, filter_In, <- list_elem_of_In, available_iff. split.
    - intros [_ Hav]. exact Hav.
    - intros Hav. split; [| exact Hav]. apply isProviderAvailable_true_registered, Hav. }
  split; [exact Hiff |]. split; [| split; [| split; [| split]]].
  - apply NoDup_ListNoDup, List.NoDup_filter, NoDup_ListNoDup. apply catalog_NoDup.
  - apply filter_sublist.
  - apply Hiff, isProviderAvailable_anonymous.
  - apply Hiff, isProviderAvailable_anonymous.
  - intros Hnone.
    assert (Hoff : forall name var, (name, var) ∈ credential_variables ->
                                    available name = false).
    { intros name var Hin. apply available_false.
      rewrite (isProviderAvailable_credentialed _ _ Hin). f_equal. eauto. }
    unfold catalog_names. cbn [List.filter].
    rewrite (Hoff "groq" "GROQ_API_KEY"), (Hoff "openrouter" "OPENROUTER_API_KEY"),
      (Hoff "gemini" "GEMINI_API_KEY"), (Hoff "cerebras" "CEREBRAS_API_KEY"),
      (Hoff "sambanova" "SAMBANOVA_API_KEY"), (Hoff "cloudflare" "CLOUDFLARE_API_TOKEN"),
      (Hoff "huggingface" "HUGGINGFACE_TOKEN"), (Hoff "cohere" "COHERE_API_KEY"),
      (Hoff "siliconflow" "SILICONFLOW_API_KEY"), (Hoff "routeway" "ROUTEWAY_API_KEY"),
      (Hoff "puter" "PUTER_API_KEY")
      by (apply (bool_decide_unpack _); vm_compute; exact I).
    reflexivity.
Qed.
End AvailableList.

(** ** How many requests an answer may cost *)

Section RequestBudget.
Context `{Host}.
Import Providers.

Lemma issues_ret {A} (a : A) : issues_at_most 0 (ret a).
Proof. intros w. exists []. rewrite app_nil_r. split; [reflexivity | cbn; lia]. Qed.

Lemma issues_console_log line : issues_at_most 0 (console_log line).
Proof. intros w. exists []. rewrite app_nil_r. split; [reflexivity | cbn; lia]. Qed.

Lemma issues_mono {A} n n' (m : Async A) : n <= n' -> issues_at_most n m -> issues_at_most n' m.
Proof. intros Hle Hm w. destruct (Hm w) as (reqs & Hlog & Hlen). exists reqs. split; [exact Hlog | lia]. Qed.

Lemma issues_bind {A B} n1 n2 (m : Async A) (k : A -> Async B) :
  issues_at_most n1 m -> (forall a, issues_at_most n2 (k a)) ->
  issues_at_most (n1 + n2) (bind m k).
Proof.
  intros Hm Hk w. unfold bind. destruct (Hm w) as (r1 & Hlog1 & Hlen1).
  destruct (m w) as [[a | e] w1]; cbn in *.
  - destruct (Hk a w1) as (r2 & Hlog2 & Hlen2). exists (r1 ++ r2).
    rewrite Hlog2, Hlog1, app_assoc, length_app. split; [reflexivity | lia].
  - exists r1. split; [exact Hlog1 | lia].
Qed.

Lemma issues_try_catch {A} n1 n2 (body : Async A) (handler : JsError -> Async A) :
  issues_at_most n1 body -> (forall e, issues_at_most n2 (handler e)) ->
  issues_at_most (n1 + n2) (try_catch body handler).
Proof.
  intros Hm Hk w. unfold try_catch. destruct (Hm w) as (r1 & Hlog1 & Hlen1).
  destruct (body w) as [[a | e] w1]; cbn in *.
  - exists r1. split; [exact Hlog1 | lia].
  - destruct (Hk e w1) as (r2 & Hlog2 & Hlen2). exists (r1 ++ r2).
    rewrite Hlog2, Hlog1, app_assoc, length_app. split; [reflexivity | lia].
Qed.

(** An adapter body: one [axios] call, then reads of the reply. *)
Ltac one_request :=
  intros w; unfold bind, axios_call, lift, ret; cbn zeta;
  lazymatch goal with
  | |- context [axios ?log ?req] =>
      exists [req]; split; [| cbn; lia];
      destruct (axios log req); [| reflexivity];
      repeat match goal with
             | |- context [match ?c with Returned _ => _ | Thrown _ => _ end] => destruct c
             end; reflexivity
  end.

Lemma openAIRequest_issues endpoint apiKey model messages extra :
  issues_at_most 1 (AI.openAIRequest endpoint apiKey model messages extra).
Proof. unfold AI.openAIRequest. one_request. Qed.

Lemma geminiRequest_issues model messages : issues_at_most 1 (AI.geminiRequest model messages).
Proof.
  unfold AI.geminiRequest.
  destruct (negb (truthy (Config.gemini Config.API_KEYS)));
    [apply (issues_mono 0); [lia | apply issues_ret] |].
  one_request.
Qed.

Lemma cohereRequest_issues model messages : issues_at_most 1 (AI.cohereRequest model messages).
Proof.
  unfold AI.cohereRequest.
  destruct (negb (truthy (Config.cohere Config.API_KEYS)));
    [apply (issues_mono 0); [lia | apply issues_ret] |].
  one_request.
Qed.

Lemma cloudflareRequest_issues model messages :
  issues_at_most 1 (AI.cloudflareRequest model messages).
Proof.
  unfold AI.cloudflareRequest.
  destruct (negb (truthy (Config.cloudflare Config.API_KEYS))
            || negb (truthy (Config.cloudflareAccount Config.API_KEYS)));
    [apply (issues_mono 0); [lia | apply issues_ret] |].
  one_request.
Qed.

Lemma mlvocaRequest_issues model messages : issues_at_most 1 (AI.mlvocaRequest model messages).
Proof. unfold AI.mlvocaRequest. one_request. Qed.

Lemma puterRequest_issues model messages : issues_at_most 1 (AI.puterRequest model messages).
Proof.
  unfold AI.puterRequest.
  destruct (negb (truthy (Config.puter Config.API_KEYS)));
    [apply (issues_mono 0); [lia | apply issues_ret] |].
  destruct model as [m |].
  - unfold bind at 1, lift at 1. cbn [AI.puter_driver]. one_request.
  - intros w. exists []. rewrite app_nil_r. split; [reflexivity | cbn; lia].
Qed.

Lemma callAdapter_issues providerName provider apiKey model messages :
  issues_at_most 1 (AI.callAdapter providerName provider apiKey model messages).
Proof.
  unfold AI.callAdapter.
  repeat match goal with |- context [if ?b then _ else _] => destruct b end;
    auto using openAIRequest_issues, geminiRequest_issues, cohereRequest_issues,
      cloudflareRequest_issues, mlvocaRequest_issues, puterRequest_issues.
Qed.

Lemma issues_lift {A} (c : Completion A) : issues_at_most 0 (lift c).
Proof. intros w. exists []. rewrite app_nil_r. split; [reflexivity | cbn; lia]. Qed.

Lemma issues_throw {A} (e : JsError) : issues_at_most 0 (@throw A e).
Proof. intros w. exists []. rewrite app_nil_r. split; [reflexivity | cbn; lia]. Qed.

Lemma tryProvider_issues providerName model messages :
  issues_at_most 1 (AI.tryProvider providerName model messages).
Proof.
  unfold AI.tryProvider. destruct (table_get PROVIDERS providerName) as [p | name |];
    [| apply (issues_mono 0); [lia | apply issues_throw]
     | apply (issues_mono 0); [lia | apply issues_ret]].
  destruct (negb (truthy (key p)) && negb (anonymous_tier providerName));
    [apply (issues_mono 0); [lia | apply issues_ret] |].
  apply (issues_try_catch 1 0); [apply callAdapter_issues |].
  intros e. apply (issues_bind 0 0); [apply issues_console_log | intros _; apply issues_ret].
Qed.

Lemma tryProvider_unavailable providerName model messages w :
  isProviderAvailable providerName = Returned false ->
  AI.tryProvider providerName model messages w = (Returned JNull, w).
Proof.
  unfold isProviderAvailable, AI.tryProvider.
  destruct (table_get PROVIDERS providerName) as [p | name |]; [| | reflexivity];
    destruct (anonymous_tier providerName); try discriminate.
  intros [= ->]. reflexivity.
Qed.

Lemma tryProvider_resolver_throws providerName model messages w e :
  isProviderAvailable providerName = Thrown e ->
  AI.tryProvider providerName model messages w
  = (Thrown (TypeError "provider.key is not a function"), w).
Proof.
  unfold isProviderAvailable, AI.tryProvider.
  destruct (table_get PROVIDERS providerName) as [p | name |]; [| reflexivity | discriminate].
  destruct (anonymous_tier providerName); discriminate.
Qed.

(** X8. One call of [tryProvider] costs at most one request, appended to the
    log.  A provider for which the resolver answers [false] is never
    contacted: the call answers [null] and leaves the world as it was.  For a
    name on which the resolver throws, the call throws as well, and the
    world is as it was. *)
Theorem tryProvider_contacts_only_available (providerName : string) (model : option string)
    (messages : list Message) (w : World) :
  (exists reqs,
     http_log (snd (AI.tryProvider providerName model messages w)) = http_log w ++ reqs /\
     length reqs <= 1) /\
  (isProviderAvailable providerName = Returned false ->
   AI.tryProvider providerName model messages w = (Returned JNull, w)) /\
  (forall e, isProviderAvailable providerName = Thrown e ->
   AI.tryProvider providerName model messages w
   = (Thrown (TypeError "provider.key is not a function"), w)).
Proof.
  split; [apply tryProvider_issues |].
  split; [apply tryProvider_unavailable |].
  intros e. apply tryProvider_resolver_throws.
Qed.

Lemma tryChain_issues chain messages :
  issues_at_most (length (available_candidates chain)) (AI.tryChain chain messages).
Proof.
  induction chain as [| c rest IH]; cbn [AI.tryChain available_candidates List.filter].
  - apply issues_ret.
  - fold (available_candidates rest). unfold available at 1.
    destruct (isProviderAvailable (provider c)) as [[|] | e]; cbn [negb length].
    + apply (issues_bind 0 (S _)); [apply issues_lift |]. intros answer.
      destruct answer; cbn [negb]; [| apply (issues_mono _ _ _ (Nat.le_succ_diag_r _) IH)].
      apply (issues_bind 1 _); [apply tryProvider_issues |].
      intros r. destruct (truthy r); [| exact IH].
      apply (issues_mono 0); [lia |].
      apply (issues_bind 0 0); [apply issues_console_log | intros _; apply issues_ret].
    + intros w. unfold bind, lift. cbn [negb]. apply IH.
    + intros w. unfold bind, lift. exists []. rewrite app_nil_r.
      split; [reflexivity | cbn; lia].
Qed.

Lemma search_issues query engine maxResults :
  issues_at_most 1 (Search.search query engine maxResults).
Proof.
  intros w. exists (requests_of_engine query engine maxResults).
  split; [apply search_log | apply requests_of_engine_length].
Qed.

Lemma chain_of_length mode : length (chain_of mode) <= 11.
Proof.
  destruct (chain_of_cases mode) as [E | [E | [E | E]]]; rewrite E; vm_compute; lia.
Qed.

(** X9. What one answer costs: [askAI] only appends to the request log, at most
    one search request (when searching is asked for or the mode is
    [search]), one probe of the override (when one is given and available)
    and one request per available candidate of the chain of the mode; never
    more than thirteen in all. *)
Theorem askAI_request_budget (userMessage : string) (useSearch : bool)
    (selectedProvider selectedModel : option string) (chatHistory : list Message)
    (mode : string) (w : World) :
  exists reqs,
    http_log (snd (AI.askAI userMessage useSearch selectedProvider selectedModel chatHistory
                     mode w)) = http_log w ++ reqs /\
    length reqs <=
      (if useSearch || String.eqb mode "search" then 1 else 0)
      + (if AI.given selectedProvider && AI.given selectedModel
            && available (default "" selectedProvider) then 1 else 0)
      + length (available_candidates (chain_of mode)) /\
    length reqs <= 13.
Proof.
  assert (Hbudget : issues_at_most
            ((if useSearch || String.eqb mode "search" then 1 else 0)
             + ((if AI.given selectedProvider && AI.given selectedModel
                    && available (default "" selectedProvider) then 1 else 0)
                + length (available_candidates (chain_of mode))))
            (AI.askAI userMessage useSearch selectedProvider selectedModel chatHistory mode)).
  { unfold AI.askAI. apply issues_bind.
    - unfold AI.askAI_compose. cbn zeta.
      replace (if useSearch || String.eqb mode "search" then 1 else 0)
        with ((if useSearch || String.eqb mode "search" then 1 else 0) + 0) by lia.
      apply issues_bind; [| intros a; apply issues_ret].
      destruct (useSearch || String.eqb mode "search"); [| apply issues_ret].
      apply (issues_bind 1 0); [apply search_issues | intros a; apply issues_ret].
    - intros messages. unfold AI.askAI_dispatch. apply issues_bind.
      + unfold AI.askAI_probe, available.
        destruct (AI.given selectedProvider && AI.given selectedModel); cbn [andb];
          [| apply issues_ret].
        destruct (isProviderAvailable (default "" selectedProvider)) as [[|] | e].
        * apply (issues_bind 0 1); [apply issues_lift |]. intros answer.
          destruct answer; [| apply (issues_mono 0); [lia | apply issues_ret]].
          apply (issues_bind 1 0); [apply tryProvider_issues |].
          intros r. destruct (truthy r);
            apply (issues_bind 0 0); (apply issues_console_log || (intros _; apply issues_ret)).
        * intros w0. exists []. rewrite app_nil_r. split; [reflexivity | cbn; lia].
        * intros w0. exists []. rewrite app_nil_r. split; [reflexivity | cbn; lia].
      + intros [result |].
        * apply (issues_mono 0); [lia | apply issues_ret].
        * unfold AI.askAI_chain, chain_of.
          destruct (AI.chainFor mode) as [chain | name |];
            [| apply (issues_mono 0); [lia | apply issues_throw]
             | apply (issues_mono 0); [lia | apply issues_throw]].
          replace (length (available_candidates chain))
            with (length (available_candidates chain) + 0) by lia.
          apply issues_bind; [apply tryChain_issues |].
          intros [result |]; apply issues_ret. }
  destruct (Hbudget w) as (reqs & Hlog & Hlen). exists reqs.
  split; [exact Hlog |]. split; [lia |].
  assert (Hchain : length (available_candidates (chain_of mode)) <= 11).
  { etransitivity; [apply List.filter_length_le | apply chain_of_length]. }
  destruct (useSearch || String.eqb mode "search");
    destruct (AI.given selectedProvider && AI.given selectedModel
              && available (default "" selectedProvider)); lia.
Qed.
End RequestBudget.

(** ** What the adapters put on the wire *)

Section Wire.
Context `{Host}.
Import Providers.

Lemma last_with_role_snoc r messages m :
  last_with_role r (messages ++ [m])
  = if String.eqb (role m) r then Some m else last_with_role r messages.
Proof. unfold last_with_role. rewrite rev_app_distr. reflexivity. Qed.

Lemma gemini_loop messages : forall st,
  fold_left AI.gemini_step messages st
  = (fst st ++ map gemini_turn (conversation_turns messages),
     match last_with_role "system" messages with
     | Some m => content m
     | None => snd st
     end).
Proof.
  induction messages as [| m messages IH] using rev_ind; intros [contents instruction].
  - cbn. rewrite app_nil_r. reflexivity.
  - rewrite fold_left_app. cbn [fold_left]. rewrite IH, last_with_role_snoc.
    unfold conversation_turns. rewrite List.filter_app. cbn [List.filter].
    unfold AI.gemini_step. cbn [fst snd].
    destruct (String.eqb (role m) "system"); cbn [negb].
    + rewrite app_nil_r. reflexivity.
    + rewrite map_app, app_assoc. reflexivity.
Qed.

(** X10. With a Gemini key configured, [geminiRequest] sends every message that
    is not a system message as one turn, in order, and of the system
    messages only the last one: an earlier system message never reaches the
    model.  On the list [askAI] composes around a search result that is the
    search context, not the system prompt of the mode. *)
Theorem geminiRequest_sends_last_system_message_only (model : option string)
    (messages : list Message) (w : World) :
  truthy (Config.gemini Config.API_KEYS) = true ->
  exists req,
    http_log (snd (AI.geminiRequest model messages w)) = http_log w ++ [req] /\
    opt_get (req_body req) "contents" = JArr (map gemini_turn (conversation_turns messages)) /\
    opt_get (req_body req) "systemInstruction"
      = match last_with_role "system" messages with
        | Some m => if truthy (content m) then gemini_instruction (content m) else JUndef
        | None => JUndef
        end /\
    (forall prompt chatHistory context question,
       messages = [{| role := "system"; content := prompt |}] ++ chatHistory
                    ++ [{| role := "system"; content := context |};
                        {| role := "user"; content := question |}] ->
       truthy context = true ->
       opt_get (req_body req) "systemInstruction" = gemini_instruction context).
Proof.
  intros Hkey. unfold AI.geminiRequest. rewrite Hkey. cbn [negb]. cbn zeta.
  rewrite gemini_loop. cbn [fst snd app].
  unfold bind, axios_call, lift, ret.
  match goal with |- context [axios ?log ?req] => exists req end.
  split; [| split; [| split]].
  - match goal with |- context [axios ?log ?req] => destruct (axios log req) end; [| reflexivity].
    repeat match goal with
           | |- context [match ?c with Returned _ => _ | Thrown _ => _ end] => destruct c
           end; reflexivity.
  - cbn [req_body]. destruct (last_with_role "system" messages) as [m |]; [| reflexivity].
    destruct (truthy (content m)); reflexivity.
  - cbn [req_body].
    destruct (last_with_role "system" messages) as [m |]; [| reflexivity].
    destruct (truthy (content m)); reflexivity.
  - intros prompt chatHistory context question Hmessages Hcontext. cbn [req_body].
    assert (Hlast : last_with_role "system" messages
                    = Some {| role := "system"; content := context |}).
    { unfold last_with_role. rewrite Hmessages. cbn [rev]. rewrite rev_app_distr. reflexivity. }
    rewrite Hlast. cbn [content]. rewrite Hcontext. reflexivity.
Qed.

Lemma header_set_header k v headers : header k (set_header k v headers) = Some v.
Proof.
  unfold header. induction headers as [| [k' v'] rest IH]; cbn.
  - rewrite String.eqb_refl. reflexivity.
  - destruct (String.eqb k' k) eqn:E; cbn.
    + rewrite String.eqb_refl. reflexivity.
    + rewrite E. exact IH.
Qed.

Lemma header_set_other k k' v headers :
  k' <> k -> header k' (set_header k v headers) = header k' headers.
Proof.
  intros Hne. apply String.eqb_neq in Hne as Hneb.
  unfold header. induction headers as [| [k0 v0] rest IH]; cbn.
  - rewrite String.eqb_sym, Hneb. reflexivity.
  - destruct (String.eqb k0 k) eqn:E; cbn.
    + apply String.eqb_eq in E as ->. rewrite String.eqb_sym, Hneb. reflexivity.
    + destruct (String.eqb k0 k'); [reflexivity | exact IH].
Qed.

Lemma header_spread k extra : forall headers,
  k ∉ map fst extra -> header k (spread_headers headers extra) = header k headers.
Proof.
  unfold spread_headers. induction extra as [| [k0 v0] extra IH]; intros headers Hout.
  - reflexivity.
  - cbn [fold_left fst snd]. cbn [map fst] in Hout.
    apply not_elem_of_cons in Hout as [Hne Hout].
    rewrite (IH _ Hout). apply header_set_other. exact Hne.
Qed.

(** X11. [openAIRequest] of [ai.js] sends an [Authorization] header only when it
    has a key: a keyless call (the anonymous Pollinations tier) goes out
    without one.  The earlier bridge always sends one; without a key it
    reads [Bearer null] or [Bearer undefined]. *)
Theorem openAIRequest_authorization_only_with_key (endpoint : string) (apiKey : JValue)
    (model : option string) (messages : list Message) (extraHeaders : list (string * string))
    (w : World) :
  "Authorization" ∉ map fst extraHeaders ->
  (exists req,
     http_log (snd (AI.openAIRequest endpoint apiKey model messages extraHeaders w))
       = http_log w ++ [req] /\
     req_url req = endpoint /\
     header "Authorization" (req_headers req)
       = if truthy apiKey then Some ("Bearer " +:+ tmpl apiKey) else None) /\
  (exists req,
     http_log (snd (Legacy.openAIRequest endpoint apiKey model messages extraHeaders w))
       = http_log w ++ [req] /\
     req_url req = endpoint /\
     header "Authorization" (req_headers req) = Some ("Bearer " +:+ tmpl apiKey)).
Proof.
  intros Hextra. split.
  - unfold AI.openAIRequest, bind, axios_call, lift, ret. cbn zeta.
    match goal with |- context [axios ?log ?req] => exists req end.
    split; [| split; [reflexivity |]].
    + match goal with |- context [axios ?log ?req] => destruct (axios log req) end;
        [| reflexivity].
      repeat match goal with
             | |- context [match ?c with Returned _ => _ | Thrown _ => _ end] => destruct c
             end; reflexivity.
    + cbn [req_headers]. destruct (truthy apiKey).
      * apply header_set_header.
      * rewrite (header_spread _ _ _ Hextra). reflexivity.
  - unfold Legacy.openAIRequest, bind, axios_call, lift, ret. cbn zeta.
    match goal with |- context [axios ?log ?req] => exists req end.
    split; [| split; [reflexivity |]].
    + match goal with |- context [axios ?log ?req] => destruct (axios log req) end;
        [| reflexivity].
      repeat match goal with
             | |- context [match ?c with Returned _ => _ | Thrown _ => _ end] => destruct c
             end; reflexivity.
    + cbn [req_headers]. rewrite (header_spread _ _ _ Hextra). reflexivity.
Qed.

Lemma cloudflare_entry :
  exists p, PROVIDERS !! "cloudflare" = Some p /\ key p = env_get "CLOUDFLARE_API_TOKEN".
Proof. eexists. split; reflexivity. Qed.

(** X12. A Cloudflare token without the account id: [isProviderAvailable] counts
    the provider as available, yet [tryProvider] answers [null] without a
    request and without a line on the console, so the chain passes it in
    silence.  The earlier bridge sends the request all the same, to an
    address with [undefined] in the place of the account. *)
Theorem cloudflare_without_account_is_available_but_silent (model : option string)
    (messages : list Message) (w : World) :
  truthy (env_get "CLOUDFLARE_API_TOKEN") = true ->
  process_env !! "CLOUDFLARE_ACCOUNT_ID" = None ->
  isProviderAvailable "cloudflare" = Returned true /\
  AI.tryProvider "cloudflare" model messages w = (Returned JNull, w) /\
  (forall rest, AI.tryChain ({| provider := "cloudflare"; model := model |} :: rest) messages w
                = AI.tryChain rest messages w) /\
  map req_url (http_log (snd (Legacy.cloudflareRequest model messages w)))
    = map req_url (http_log w)
      ++ ["https://api.cloudflare.com/client/v4/accounts/undefined/ai/run/"
            +:+ tmpl (model_json model)].
Proof.
  intros Htoken Haccount.
  assert (Hid : env_get "CLOUDFLARE_ACCOUNT_ID" = JUndef)
    by (unfold env_get; rewrite Haccount; reflexivity).
  assert (Hav : isProviderAvailable "cloudflare" = Returned true).
  { destruct cloudflare_entry as (p & E & Hk).
    rewrite (isProviderAvailable_Some _ _ E), Hk, Htoken. reflexivity. }
  assert (Htry : AI.tryProvider "cloudflare" model messages w = (Returned JNull, w)).
  { destruct cloudflare_entry as (p & E & Hk).
    rewrite (tryProvider_Own _ _ _ _ E), Hk, Htoken. cbn [negb andb]. unfold try_catch.
    unfold AI.callAdapter. cbn [String.eqb Ascii.eqb Bool.eqb].
    unfold AI.cloudflareRequest, Config.API_KEYS. cbn [Config.cloudflare Config.cloudflareAccount].
    rewrite Htoken, Hid. reflexivity. }
  split; [exact Hav |]. split; [exact Htry |]. split.
  - intros rest.
    rewrite (tryChain_attempt {| provider := "cloudflare"; model := model |} rest messages w
               JNull w Hav Htry).
    reflexivity.
  - unfold Legacy.cloudflareRequest, bind, axios_call, lift, ret. cbn zeta.
    rewrite Hid.
    match goal with |- context [axios ?log ?req] => destruct (axios log req) end;
      [| cbn; rewrite map_app; reflexivity].
    repeat match goal with
           | |- context [match ?c with Returned _ => _ | Thrown _ => _ end] => destruct c
           end; cbn; rewrite map_app; reflexivity.
Qed.
End Wire.

(** At a sample input: the list composed around a search result, with a
    Gemini key configured. *)
Lemma geminiRequest_sends_last_system_message_only_witness :
  exists req,
    http_log (snd (@AI.geminiRequest host_gemini_offline (Some "gemini-2.0-flash")
                     searched_messages fresh_world)) = [req] /\
    opt_get (req_body req) "systemInstruction"
      = gemini_instruction (JStr ("Hasil pencarian:" +:+ nl +:+ "📌 Jakarta: 31 C, cerah")).
Proof.
  destruct (@geminiRequest_sends_last_system_message_only host_gemini_offline
              (Some "gemini-2.0-flash") searched_messages fresh_world)
    as (req & Hlog & _ & _ & Hcontext); [reflexivity |].
  exists req. split; [exact Hlog |].
  apply (Hcontext (AI.systemPromptFor "search") two_turns
           (JStr ("Hasil pencarian:" +:+ nl +:+ "📌 Jakarta: 31 C, cerah"))
           (JStr "cuaca jakarta"));
    reflexivity.
Defined.

(** At a sample input: Pollinations without a key. *)
Lemma openAIRequest_authorization_only_with_key_witness :
  exists req,
    http_log (snd (@AI.openAIRequest host_offline "https://gen.pollinations.ai/v1/chat/completions"
                     JNull (Some "openai") hello_messages [] fresh_world)) = [req] /\
    header "Authorization" (req_headers req) = None.
Proof.
  destruct (@openAIRequest_authorization_only_with_key host_offline
              "https://gen.pollinations.ai/v1/chat/completions" JNull (Some "openai")
              hello_messages [] fresh_world) as ((req & Hlog & _ & Hauth) & _).
  - cbn. apply not_elem_of_nil.
  - exists req. split; [exact Hlog | exact Hauth].
Defined.

(** At a sample input: the token is configured, the account id is not. *)
Lemma cloudflare_without_account_is_available_but_silent_witness :
  @Providers.isProviderAvailable host_cloudflare_token_only "cloudflare" = Returned true /\
  @AI.tryProvider host_cloudflare_token_only "cloudflare" (Some "@cf/meta/llama-3.1-8b-instruct")
    hello_messages fresh_world = (Returned JNull, fresh_world).
Proof.
  destruct (@cloudflare_without_account_is_available_but_silent host_cloudflare_token_only
              (Some "@cf/meta/llama-3.1-8b-instruct") hello_messages fresh_world)
    as (Hav & Htry & _); [reflexivity | reflexivity |].
  split; [exact Hav | exact Htry].
Defined.

(** ** Premium search engines *)

Section PremiumSearch.
Context `{Host}.

(** X13. A premium engine with its key configured is asked alone: [search] sends
    one request, to the address of that engine, and when that request fails
    the answer is [null] with one line on the console; DuckDuckGo is not
    tried in its place. *)
Theorem premium_engine_failure_is_final (query engine : string) (maxResults : nat)
    (credential : JValue) (url : string) (w : World) :
  (engine, (credential, url)) ∈ premium_engines ->
  truthy credential = true ->
  exists req,
    req_url req = url /\
    http_log (snd (Search.search query engine maxResults w)) = http_log w ++ [req] /\
    (forall msg,
       axios (http_log w) req = Rejected msg ->
       Search.search query engine maxResults w
       = (Returned JNull,
          {| http_log := http_log w ++ [req];
             console := console w ++ ["Search error (" +:+ engine +:+ "): " +:+ msg] |})).
Proof.
  intros Hengine Hkey. unfold premium_engines in Hengine.
  repeat (apply elem_of_cons in Hengine as [Hengine | Hengine];
          [ injection Hengine as -> -> -> | ]); [ | | | inversion Hengine].
  - unfold Search.search. cbn [String.eqb Ascii.eqb Bool.eqb].
    unfold Search.searchTavily, Config.API_KEYS in *. cbn [Config.tavily] in *.
    rewrite Hkey. cbn [negb].
    unfold try_catch, bind, axios_call, lift, ret, console_log.
    match goal with |- context [axios ?log ?req] => exists req end.
    split; [reflexivity |]. split.
    + match goal with |- context [axios ?log ?req] => destruct (axios log req) end;
        [| reflexivity].
      repeat match goal with
             | |- context [match ?c with Returned _ => _ | Thrown _ => _ end] => destruct c
             end; reflexivity.
    + intros msg ->. reflexivity.
  - unfold Search.search. cbn [String.eqb Ascii.eqb Bool.eqb].
    unfold Search.searchBrave, Config.API_KEYS in *. cbn [Config.brave] in *.
    rewrite Hkey. cbn [negb].
    unfold try_catch, bind, axios_call, lift, ret, console_log.
    match goal with |- context [axios ?log ?req] => exists req end.
    split; [reflexivity |]. split.
    + match goal with |- context [axios ?log ?req] => destruct (axios log req) end;
        [| reflexivity].
      repeat match goal with
             | |- context [match ?c with Returned _ => _ | Thrown _ => _ end] => destruct c
             end; reflexivity.
    + intros msg ->. reflexivity.
  - unfold Search.search. cbn [String.eqb Ascii.eqb Bool.eqb].
    unfold Search.searchSerper, Config.API_KEYS in *. cbn [Config.serper] in *.
    rewrite Hkey. cbn [negb].
    unfold try_catch, bind, axios_call, lift, ret, console_log.
    match goal with |- context [axios ?log ?req] => exists req end.
    split; [reflexivity |]. split.
    + match goal with |- context [axios ?log ?req] => destruct (axios log req) end;
        [| reflexivity].
      repeat match goal with
             | |- context [match ?c with Returned _ => _ | Thrown _ => _ end] => destruct c
             end; reflexivity.
    + intros msg ->. reflexivity.
Qed.
End PremiumSearch.

(** At a sample input: the Tavily key is configured and the network is
    down. *)
Lemma premium_engine_failure_is_final_witness :
  fst (@Search.search host_tavily_offline "cuaca" "tavily" 5 fresh_world) = Returned JNull /\
  map req_url (http_log (snd (@Search.search host_tavily_offline "cuaca" "tavily" 5 fresh_world)))
    = ["https://api.tavily.com/search"].
Proof.
  destruct (@premium_engine_failure_is_final host_tavily_offline "cuaca" "tavily" 5
              (Config.tavily (@Config.API_KEYS host_tavily_offline))
              "https://api.tavily.com/search" fresh_world) as (req & Hurl & Hlog & Hfail).
  - apply elem_of_cons. left. reflexivity.
  - reflexivity.
  - split.
    + rewrite (Hfail "connect ECONNREFUSED"); reflexivity.
    + rewrite Hlog. cbn. rewrite Hurl. reflexivity.
Defined.

(** ** Sessions and commands *)

Section Sessions.
Context `{Host} `{Index.Engine}.
Import Index.

Lemma truthy_JStr s : truthy (JStr s) = true <-> s <> "".
Proof. destruct s; cbn; split; intros; congruence. Qed.

Lemma or_default_nonempty field fallback : tmpl fallback <> "" -> or_default field fallback <> "".
Proof.
  intros Hf. unfold or_default. destruct field as [s |]; [| exact Hf].
  destruct (truthy (JStr s)) eqn:E; [apply truthy_JStr, E | exact Hf].
Qed.

Lemma or_default_Some s fallback : s <> "" -> or_default (Some s) fallback = s.
Proof. intros Hs. unfold or_default. apply truthy_JStr in Hs. rewrite Hs. reflexivity. Qed.

Lemma default_or_env_nonempty var fallback :
  fallback <> "" -> tmpl (js_or (env_get var) (JStr fallback)) <> "".
Proof.
  intros Hf. unfold js_or. destruct (truthy (env_get var)) eqn:E; [| exact Hf].
  apply truthy_env_get in E as (s & -> & Hs). exact Hs.
Qed.

(** What a restart loads for a user: no field of it is empty, and it is the
    stored row when no field of that is empty. *)
Lemma getSession_restarted userId st :
  exists session,
    getSession userId (restarted st)
      = (Returned session,
         {| world := world st; db := db st; sessionCache := <[userId := session]> ∅ |}) /\
    session_provider session <> "" /\ session_model session <> "" /\
    session_mode session <> "" /\
    (forall provider model mode,
       Database.getSettings userId (db st) = Some (provider, model, mode) ->
       provider <> "" -> model <> "" -> mode <> "" ->
       session = {| session_provider := provider; session_model := model;
                    session_mode := mode |}).
Proof.
  unfold getSession, restarted. cbn [sessionCache db world]. rewrite lookup_empty.
  eexists. split; [reflexivity |]. cbn [session_provider session_model session_mode].
  split; [| split; [| split]].
  - apply or_default_nonempty, default_or_env_nonempty. discriminate.
  - apply or_default_nonempty, default_or_env_nonempty. discriminate.
  - apply or_default_nonempty. discriminate.
  - intros provider model mode -> Hp Hm Hmode. cbn [option_map fst snd].
    rewrite !or_default_Some by assumption. reflexivity.
Qed.

Lemma getSession_returns userId st :
  exists session,
    getSession userId st
      = (Returned session,
         {| world := world st; db := db st;
            sessionCache := <[userId := session]> (sessionCache st) |}) /\
    (sessionCache st !! userId = Some session \/
     sessionCache st !! userId = None /\
     fst (getSession userId (restarted st)) = Returned session).
Proof.
  unfold getSession at 1. destruct (sessionCache st !! userId) as [session |] eqn:Hhit.
  - exists session. split; [| left; reflexivity].
    rewrite insert_id by exact Hhit. destruct st; reflexivity.
  - eexists. split; [reflexivity |]. right. split; [reflexivity |].
    unfold getSession, restarted. cbn [sessionCache db world]. rewrite lookup_empty. reflexivity.
Qed.

Lemma cache_coherent_loaded userId st session :
  cache_coherent st ->
  (sessionCache st !! userId = Some session \/
   sessionCache st !! userId = None /\
   fst (getSession userId (restarted st)) = Returned session) ->
  fst (getSession userId (restarted st)) = Returned session.
Proof. intros Hco [Hhit | [_ Hload]]; [apply Hco, Hhit | exact Hload]. Qed.

Lemma loaded_fields_nonempty userId st session :
  fst (getSession userId (restarted st)) = Returned session ->
  session_provider session <> "" /\ session_model session <> "" /\ session_mode session <> "".
Proof.
  destruct (getSession_restarted userId st) as (s & Hrun & Hfields & _).
  rewrite Hrun. cbn. intros [= <-]. 
  destruct (getSession_restarted userId st) as (s' & Hrun' & Hp & Hm & Hmode & _).
  rewrite Hrun in Hrun'. injection Hrun' as <-. auto.
Qed.

(** What a command does to the state, whatever it answers: nothing beyond
    caching the session of the sender, or one of four writes. *)
(** A branch of [handleCommand] that answers. *)
Ltac shape_returned Hsource :=
  split; [reflexivity |]; split; [exact Hsource |]; split; [reflexivity |];
  split; [intros _; left; eexists; reflexivity |].

Lemma handleCommand_shape from text st :
  exists session c st',
    getSession from st
      = (Returned session,
         {| world := world st; db := db st;
            sessionCache := <[from := session]> (sessionCache st) |}) /\
    (sessionCache st !! from = Some session \/
     sessionCache st !! from = None /\
     fst (getSession from (restarted st)) = Returned session) /\
    handleCommand from text st = (c, st') /\
    (split_whitespace (trim text) <> [] ->
     (exists v, c = Returned v) \/
     (exists first p rest e,
        split_whitespace (trim text) = first :: p :: rest /\
        toLowerCase first = "!set" /\ inherited (toLowerCase p) = true /\
        c = Thrown e /\
        st' = {| world := world st; db := db st;
                 sessionCache := <[from := session]> (sessionCache st) |})) /\
    (st' = {| world := world st; db := db st;
              sessionCache := <[from := session]> (sessionCache st) |}
     \/ (command_word text = Some "!clear" /\
         st' = {| world := world st; db := Database.clearHistory from (db st);
                  sessionCache := <[from := session]> (sessionCache st) |})
     \/ (exists mode,
           command_word text = Some "!mode" /\ mode ∈ valid_modes /\
           st' = snd (saveSession from (session_provider session) (session_model session) mode
                        {| world := world st; db := db st;
                           sessionCache := <[from := session]> (sessionCache st) |}))
     \/ (exists providerName provider validModel,
           command_word text = Some "!set" /\
           Providers.PROVIDERS !! providerName = Some provider /\
           validModel ∈ Providers.models provider /\ validModel <> "" /\
           st' = snd (saveSession from providerName validModel (session_mode session)
                        {| world := world st; db := db st;
                           sessionCache := <[from := session]> (sessionCache st) |}))
     \/ (exists query,
           command_word text = Some "!search" /\
           st' = {| world := snd (Search.search query "duckduckgo" 5 (world st));
                    db := db st;
                    sessionCache := <[from := session]> (sessionCache st) |})).
Proof.
  destruct (getSession_returns from st) as (session & Hsession & Hsource).
  exists session. unfold handleCommand, app_bind. rewrite Hsession.
  unfold command_word.
  destruct (split_whitespace (trim text)) as [| first more].
  { do 2 eexists. split; [reflexivity |]. split; [exact Hsource |].
    split; [reflexivity |]. split; [congruence | left; reflexivity]. }
  cbn [head option_map].
  destruct (String.eqb (toLowerCase first) "!help") eqn:Ehelp.
  { do 2 eexists. shape_returned Hsource.
    left. reflexivity. }
  destruct (String.eqb (toLowerCase first) "!status") eqn:Estatus.
  { unfold app_lift. rewrite listAvailableProviders_filter. do 2 eexists. shape_returned Hsource.
    left. reflexivity. }
  destruct (String.eqb (toLowerCase first) "!stats") eqn:Estats.
  { do 2 eexists. shape_returned Hsource.
    left. reflexivity. }
  destruct (String.eqb (toLowerCase first) "!clear") eqn:Eclear.
  { apply String.eqb_eq in Eclear.
    do 2 eexists. shape_returned Hsource.
    right; left. split; [congruence | reflexivity]. }
  destruct (String.eqb (toLowerCase first) "!mode") eqn:Emode.
  { apply String.eqb_eq in Emode.
    destruct (negb (AI.given (option_map toLowerCase (head more)))).
    { do 2 eexists. shape_returned Hsource.
      left. reflexivity. }
    destruct (negb (listed (default "" (option_map toLowerCase (head more))) valid_modes))
      eqn:Elisted.
    { do 2 eexists. shape_returned Hsource.
      left. reflexivity. }
    do 2 eexists. shape_returned Hsource.
    right; right; left. eexists. split; [congruence |]. split; [| reflexivity].
    apply negb_false_iff in Elisted. unfold listed in Elisted.
    apply existsb_exists in Elisted as (m & Hin & Heq).
    apply String.eqb_eq in Heq as ->. apply list_elem_of_In, Hin. }
  destruct (String.eqb (toLowerCase first) "!search") eqn:Esearch.
  { apply String.eqb_eq in Esearch.
    destruct (negb (truthy (JStr (String.concat " " more)))).
    { do 2 eexists. shape_returned Hsource.
      left. reflexivity. }
    unfold on_world. cbn [world db sessionCache].
    destruct (search_returns (String.concat " " more) "duckduckgo" 5 (world st))
      as (v & w' & Hsearch).
    rewrite Hsearch.
    do 2 eexists. shape_returned Hsource.
    right; right; right; right. eexists. split; [congruence |].
    rewrite Hsearch. reflexivity. }
  destruct (String.eqb (toLowerCase first) "!set") eqn:Eset; cbn [andb];
    [| do 2 eexists; shape_returned Hsource;
       left; reflexivity].
  apply String.eqb_eq in Eset.
  destruct (length (first :: more) =? 1)%nat.
  { do 2 eexists. shape_returned Hsource.
    left. reflexivity. }
  destruct (length (first :: more) =? 2)%nat eqn:Etwo.
  { destruct more as [| p rest]; [discriminate |]. cbn [head default from_option]. unfold id.
    destruct (table_get Providers.PROVIDERS (toLowerCase p)) as [provider | name |] eqn:Hp.
    - do 2 eexists. shape_returned Hsource. left. reflexivity.
    - apply table_get_Inherited_inv in Hp as (_ & Hin & _).
      do 2 eexists. split; [reflexivity |]. split; [exact Hsource |]. split; [reflexivity |].
      split; [| left; reflexivity].
      intros _. right. do 4 eexists. repeat (split; [first [reflexivity | eassumption] |]).
      reflexivity.
    - do 2 eexists. shape_returned Hsource. left. reflexivity. }
  destruct (3 <=? length (first :: more))%nat eqn:Ethree;
    [| do 2 eexists; shape_returned Hsource;
       left; reflexivity].
  destruct more as [| p rest]; [discriminate |]. cbn [head default from_option drop]. unfold id.
  rewrite drop_0.
  destruct (table_get Providers.PROVIDERS (toLowerCase p)) as [provider | name |] eqn:Hp.
  2: { apply table_get_Inherited_inv in Hp as (_ & Hin & _).
       do 2 eexists. split; [reflexivity |]. split; [exact Hsource |]. split; [reflexivity |].
       split; [| left; reflexivity].
       intros _. right. do 4 eexists. repeat (split; [first [reflexivity | eassumption] |]).
       reflexivity. }
  2: { do 2 eexists. shape_returned Hsource. left. reflexivity. }
  apply table_get_Own_inv in Hp.
  destruct (find_model (String.concat " " rest) (Providers.models provider))
    as [validModel |] eqn:Hfind; cbn [AI.given negb];
    [| do 2 eexists; shape_returned Hsource;
       left; reflexivity].
  destruct (truthy (JStr validModel)) eqn:Hvalid; cbn [negb];
    [| do 2 eexists; shape_returned Hsource;
       left; reflexivity].
  do 2 eexists. shape_returned Hsource.
  right; right; right; left. exists (toLowerCase p), provider, validModel.
  split; [congruence |]. split; [exact Hp |].
  split; [apply list_elem_of_In; eapply find_some; exact Hfind |].
  split; [apply truthy_JStr, Hvalid | reflexivity].
Qed.

Lemma restarted_load_ext userId st st2 :
  Database.getSettings userId (db st) = Database.getSettings userId (db st2) ->
  fst (getSession userId (restarted st)) = fst (getSession userId (restarted st2)).
Proof.
  intros Hsame. unfold getSession, restarted. cbn [sessionCache db world].
  rewrite lookup_empty. cbn [fst]. rewrite Hsame. reflexivity.
Qed.

Lemma cache_coherent_ext st st2 :
  (forall userId, Database.getSettings userId (db st) = Database.getSettings userId (db st2)) ->
  sessionCache st2 = sessionCache st ->
  cache_coherent st -> cache_coherent st2.
Proof.
  intros Hdb Hcache Hco userId session Hhit. rewrite Hcache in Hhit.
  rewrite <- (restarted_load_ext userId st st2 (Hdb userId)). apply Hco, Hhit.
Qed.

Lemma cache_coherent_insert_loaded userId session st :
  cache_coherent st ->
  fst (getSession userId (restarted st)) = Returned session ->
  cache_coherent {| world := world st; db := db st;
                    sessionCache := <[userId := session]> (sessionCache st) |}.
Proof.
  intros Hco Hload other s Hhit. cbn [sessionCache] in Hhit.
  change (fst (getSession other (restarted st)) = Returned s).
  destruct (decide (other = userId)) as [-> | Hne].
  - rewrite lookup_insert_eq in Hhit. injection Hhit as <-. exact Hload.
  - rewrite lookup_insert_ne in Hhit by congruence. apply Hco, Hhit.
Qed.

Lemma saveSession_reload userId provider model mode st :
  provider <> "" -> model <> "" -> mode <> "" ->
  fst (getSession userId (restarted (snd (saveSession userId provider model mode st))))
  = Returned {| session_provider := provider; session_model := model; session_mode := mode |}.
Proof.
  intros Hp Hm Hmode.
  destruct (getSession_restarted userId (snd (saveSession userId provider model mode st)))
    as (s & Hrun & _ & _ & _ & Hrow).
  rewrite Hrun. cbn [fst]. f_equal. apply Hrow; try assumption.
  unfold saveSession, Database.getSettings, Database.saveSettings.
  cbn [snd db Database.user_settings]. rewrite lookup_insert_eq. reflexivity.
Qed.

Lemma saveSession_other_settings userId provider model mode st other :
  other <> userId ->
  Database.getSettings other (db (snd (saveSession userId provider model mode st)))
  = Database.getSettings other (db st).
Proof.
  intros Hne. unfold saveSession, Database.getSettings, Database.saveSettings.
  cbn [snd db Database.user_settings]. rewrite lookup_insert_ne by congruence. reflexivity.
Qed.

Lemma saveSession_coherent userId provider model mode st :
  provider <> "" -> model <> "" -> mode <> "" ->
  cache_coherent st -> cache_coherent (snd (saveSession userId provider model mode st)).
Proof.
  intros Hp Hm Hmode Hco other s Hhit.
  destruct (decide (other = userId)) as [-> | Hne].
  - unfold saveSession in Hhit. cbn [snd sessionCache] in Hhit.
    rewrite lookup_insert_eq in Hhit. injection Hhit as <-.
    apply saveSession_reload; assumption.
  - unfold saveSession in Hhit. cbn [snd sessionCache] in Hhit.
    rewrite lookup_insert_ne in Hhit by congruence.
    rewrite (restarted_load_ext other _ st (saveSession_other_settings _ _ _ _ _ _ Hne)).
    apply Hco, Hhit.
Qed.

(** X14. Settings survive a restart.  After [saveSession] the session of the user
    is the saved one, both from the cache and, the cache lost, from the
    database; the sessions of other users are what they were, and a cache
    that agreed with the database still does. *)
Theorem saveSession_survives_restart (userId provider model mode : string) (st : AppState) :
  provider <> "" -> model <> "" -> mode <> "" ->
  fst (getSession userId (snd (saveSession userId provider model mode st)))
    = Returned {| session_provider := provider; session_model := model; session_mode := mode |} /\
  fst (getSession userId (restarted (snd (saveSession userId provider model mode st))))
    = Returned {| session_provider := provider; session_model := model; session_mode := mode |} /\
  (forall other, other <> userId ->
     fst (getSession other (snd (saveSession userId provider model mode st)))
       = fst (getSession other st)) /\
  (cache_coherent st -> cache_coherent (snd (saveSession userId provider model mode st))).
Proof.
  intros Hp Hm Hmode. split; [| split; [| split]].
  - unfold saveSession, getSession. cbn [snd sessionCache]. rewrite lookup_insert_eq. reflexivity.
  - apply saveSession_reload; assumption.
  - intros other Hne. unfold getSession.
    pose proof (saveSession_other_settings userId provider model mode st other Hne) as Hdb.
    unfold saveSession in *. cbn [snd sessionCache db] in *.
    rewrite lookup_insert_ne by congruence.
    destruct (sessionCache st !! other); [reflexivity |]. cbn [fst]. rewrite Hdb. reflexivity.
  - apply saveSession_coherent; assumption.
Qed.

Lemma registered_name_nonempty name provider :
  Providers.PROVIDERS !! name = Some provider -> name <> "".
Proof. intros Hp ->. discriminate Hp. Qed.

Lemma valid_modes_nonempty mode : mode ∈ valid_modes -> mode <> "".
Proof.
  intros Hin ->. unfold valid_modes in Hin.
  repeat (apply elem_of_cons in Hin as [Hin | Hin]; [discriminate |]). inversion Hin.
Qed.

(** X15. The cache never says what a restart would not say: a command keeps a
    cache that agrees with the database in agreement with it, whatever the
    command is and whatever it answers. *)
Theorem handleCommand_keeps_cache_coherent (from text : string) (st : AppState) :
  cache_coherent st -> cache_coherent (snd (handleCommand from text st)).
Proof.
  intros Hco.
  destruct (handleCommand_shape from text st)
    as (session & c & st' & _ & Hsource & Hrun & _ & Hcases).
  rewrite Hrun. cbn [snd].
  pose proof (cache_coherent_loaded from st session Hco Hsource) as Hload.
  pose proof (cache_coherent_insert_loaded from session st Hco Hload) as Hco1.
  destruct (loaded_fields_nonempty from st session Hload) as (Hp & Hm & Hmode).
  destruct Hcases as [-> | [[_ ->] | [(mode & _ & Hvalid & ->) |
                     [(providerName & provider & validModel & _ & Hreg & _ & Hne & ->) |
                      (query & _ & ->)]]]].
  - exact Hco1.
  - eapply cache_coherent_ext; [| | exact Hco1]; [intros userId | ]; reflexivity.
  - apply saveSession_coherent; auto using valid_modes_nonempty.
  - apply saveSession_coherent; eauto using registered_name_nonempty.
  - eapply cache_coherent_ext; [| | exact Hco1]; [intros userId | ]; reflexivity.
Qed.

Lemma clearHistory_other_history other from limit d :
  other <> from ->
  Database.getHistory other limit (Database.clearHistory from d) = Database.getHistory other limit d /\
  Database.getStats other (Database.clearHistory from d) = Database.getStats other d.
Proof.
  intros Hne. unfold Database.getHistory, Database.getStats, Database.clearHistory.
  cbn [Database.conversations]. rewrite (filter_of_other_user from other _ Hne). split; reflexivity.
Qed.

Lemma clear_command from text st :
  command_word text = Some "!clear" ->
  exists session,
    handleCommand from text st
    = (Returned (JStr ("🗑️ History dihapus!" +:+ nl +:+ "(Settings tetap tersimpan)")),
       {| world := world st; db := Database.clearHistory from (db st);
          sessionCache := <[from := session]> (sessionCache st) |}).
Proof.
  unfold command_word. intros Hcmd.
  destruct (getSession_returns from st) as (session & Hsession & _).
  exists session. unfold handleCommand, app_bind. rewrite Hsession.
  destruct (split_whitespace (trim text)) as [| first more]; [discriminate |].
  cbn [head option_map] in Hcmd. injection Hcmd as ->. reflexivity.
Qed.

Lemma inherited_not_registered name :
  inherited name = true -> table_get Providers.PROVIDERS name = Inherited name.
Proof.
  intros Hin. apply table_get_None_inherited; [| exact Hin].
  destruct (Providers.PROVIDERS !! name) as [p |] eqn:E; [| reflexivity].
  assert (Hreg : name ∈ catalog_names) by (apply PROVIDERS_registered; eauto).
  apply catalog_not_inherited in Hreg. congruence.
Qed.

Lemma set_inherited_throws from text st :
  sets_inherited_provider text = true ->
  exists msg,
    handleCommand from text st = (Thrown (TypeError msg), snd (getSession from st)).
Proof.
  unfold sets_inherited_provider. intros Hset.
  destruct (getSession_returns from st) as (session & Hsession & _).
  unfold handleCommand, app_bind. rewrite Hsession. cbn [snd].
  destruct (split_whitespace (trim text)) as [| first [| p rest]]; try discriminate.
  apply andb_true_iff in Hset as [Hcmd Hin]. apply String.eqb_eq in Hcmd.
  rewrite Hcmd. cbn [String.eqb Ascii.eqb Bool.eqb andb head default from_option]. unfold id.
  rewrite (inherited_not_registered _ Hin).
  destruct rest as [| m rest]; cbn [length Nat.eqb Nat.leb]; eexists; reflexivity.
Qed.

(** X16. A command touches the sender only.  It answers without throwing
    whenever the message splits into at least one word, as [split] always
    does, unless it is [!set] with the name of a member every object
    inherits in the place of the provider: then it throws a [TypeError],
    with the session of the sender cached and nothing else done.  The cached
    session, the settings, the history and the count of every other user are
    what they were; conversation rows go away only on [!clear], which empties
    the history of the sender and keeps all settings; and the one command
    that uses the network, [!search], costs at most one request. *)
Theorem handleCommand_touches_only_the_sender (from text : string) (st : AppState) :
  (split_whitespace (trim text) <> [] -> sets_inherited_provider text = false ->
   exists v, fst (handleCommand from text st) = Returned v) /\
  (sets_inherited_provider text = true ->
   exists msg,
     handleCommand from text st = (Thrown (TypeError msg), snd (getSession from st))) /\
  (forall other, other <> from ->
     sessionCache (snd (handleCommand from text st)) !! other = sessionCache st !! other /\
     Database.getSettings other (db (snd (handleCommand from text st)))
       = Database.getSettings other (db st) /\
     (forall limit,
        Database.getHistory other limit (db (snd (handleCommand from text st)))
          = Database.getHistory other limit (db st)) /\
     Database.getStats other (db (snd (handleCommand from text st)))
       = Database.getStats other (db st)) /\
  (command_word text <> Some "!clear" ->
   Database.conversations (db (snd (handleCommand from text st)))
     = Database.conversations (db st)) /\
  (command_word text = Some "!clear" ->
   (forall limit, Database.getHistory from limit (db (snd (handleCommand from text st))) = []) /\
   Database.getStats from (db (snd (handleCommand from text st))) = 0%Z /\
   Database.user_settings (db (snd (handleCommand from text st)))
     = Database.user_settings (db st)) /\
  (command_word text <> Some "!search" ->
   world (snd (handleCommand from text st)) = world st) /\
  (exists reqs,
     http_log (world (snd (handleCommand from text st))) = http_log (world st) ++ reqs /\
     length reqs <= 1).
Proof.
  destruct (handleCommand_shape from text st)
    as (session & c & st' & _ & _ & Hrun & Hret & Hcases).
  split; [| split; [| split; [| split; [| split; [| split]]]]].
  - intros Hword Hown. rewrite Hrun.
    destruct (Hret Hword) as [Hv | (first & p & rest & e & Hargs & Hcmd & Hin & _)];
      [exact Hv |].
    unfold sets_inherited_provider in Hown. rewrite Hargs, Hcmd, Hin in Hown. discriminate.
  - apply set_inherited_throws.
  - intros other Hne. rewrite Hrun. cbn [snd].
    destruct Hcases as [-> | [[_ ->] | [(mode & _ & _ & ->) |
                       [(providerName & provider & validModel & _ & _ & _ & _ & ->) |
                        (query & _ & ->)]]]];
      unfold saveSession; cbn [snd sessionCache db];
      (split; [rewrite lookup_insert_ne by congruence; try reflexivity;
               rewrite lookup_insert_ne by congruence; reflexivity |]).
    + repeat split; reflexivity.
    + split; [reflexivity |]. split.
      * intros limit. apply (proj1 (clearHistory_other_history other from limit _ Hne)).
      * apply (proj2 (clearHistory_other_history other from 0 _ Hne)).
    + split; [| split; [intros limit |]; reflexivity].
      unfold Database.getSettings, Database.saveSettings. cbn [Database.user_settings].
      rewrite lookup_insert_ne by congruence. reflexivity.
    + split; [| split; [intros limit |]; reflexivity].
      unfold Database.getSettings, Database.saveSettings. cbn [Database.user_settings].
      rewrite lookup_insert_ne by congruence. reflexivity.
    + repeat split; reflexivity.
  - intros Hcmd. rewrite Hrun. cbn [snd].
    destruct Hcases as [-> | [[Hclear _] | [(mode & _ & _ & ->) |
                       [(providerName & provider & validModel & _ & _ & _ & _ & ->) |
                        (query & _ & ->)]]]];
      [reflexivity | contradiction | reflexivity | reflexivity | reflexivity].
  - intros Hcmd. destruct (clear_command from text st Hcmd) as (s & ->). cbn [snd db].
    split; [| split; [| reflexivity]].
    + intros limit. unfold Database.getHistory, Database.clearHistory.
      cbn [Database.conversations]. rewrite filter_of_user_cleared.
      cbn. rewrite limit_rows_nil. reflexivity.
    + unfold Database.getStats, Database.clearHistory.
      cbn [Database.conversations]. rewrite filter_of_user_cleared. reflexivity.
  - intros Hcmd. rewrite Hrun. cbn [snd].
    destruct Hcases as [-> | [[_ ->] | [(mode & _ & _ & ->) |
                       [(providerName & provider & validModel & _ & _ & _ & _ & ->) |
                        (query & Hsearch & _)]]]];
      [reflexivity | reflexivity | reflexivity | reflexivity | contradiction].
  - rewrite Hrun. cbn [snd].
    destruct Hcases as [-> | [[_ ->] | [(mode & _ & _ & ->) |
                       [(providerName & provider & validModel & _ & _ & _ & _ & ->) |
                        (query & _ & ->)]]]];
      try (exists []; rewrite app_nil_r; split; [reflexivity | cbn; lia]).
    cbn [world]. exists (requests_of_engine query "duckduckgo" 5).
    split; [apply search_log | apply requests_of_engine_length].
Qed.
End Sessions.

(** At a sample input: the first user picks another model. *)
Lemma saveSession_survives_restart_witness :
  fst (@Index.getSession host_offline "628111@s.whatsapp.net"
         (@restarted
            (snd (@Index.saveSession engine_ascii "628111@s.whatsapp.net" "groq"
                    "llama-3.1-8b-instant" "normal" started))))
  = Returned {| Index.session_provider := "groq"; Index.session_model := "llama-3.1-8b-instant";
                Index.session_mode := "normal" |}.
Proof.
  destruct (@saveSession_survives_restart host_offline engine_ascii "628111@s.whatsapp.net"
              "groq" "llama-3.1-8b-instant" "normal" started) as (_ & Hrestart & _);
    [discriminate | discriminate | discriminate |].
  exact Hrestart.
Defined.

(** At a sample input: a command on the bot just started. *)
Lemma handleCommand_keeps_cache_coherent_witness :
  @cache_coherent host_offline
    (snd (@Index.handleCommand host_offline engine_ascii "628111@s.whatsapp.net"
            "!mode reasoning" started)).
Proof.
  apply (@handleCommand_keeps_cache_coherent host_offline engine_ascii).
  intros userId session Hhit. discriminate Hhit.
Defined.

Section SessionCommands.
Context `{Host} `{Index.Engine}.
Import Index.

(** X17. [!mode <name>] takes the name in any case.  One of the three modes is
    stored, in lower case, in the cache and in the database, with the
    provider and the model of the session as they were and no conversation
    row touched; any other name is refused and nothing is stored. *)
Theorem mode_command_stores_valid_modes_only (from text first arg : string) (rest : list string)
    (st : AppState) :
  split_whitespace (trim text) = first :: arg :: rest ->
  toLowerCase first = "!mode" ->
  toLowerCase arg <> "" ->
  exists session,
    fst (getSession from st) = Returned session /\
    if listed (toLowerCase arg) valid_modes then
      fst (handleCommand from text st)
        = Returned (JStr ("✅ Mode: *" +:+ toLowerCase arg +:+ "*")) /\
      fst (getSession from (snd (handleCommand from text st)))
        = Returned {| session_provider := session_provider session;
                      session_model := session_model session;
                      session_mode := toLowerCase arg |} /\
      Database.getSettings from (db (snd (handleCommand from text st)))
        = Some (session_provider session, session_model session, toLowerCase arg) /\
      Database.conversations (db (snd (handleCommand from text st)))
        = Database.conversations (db st)
    else
      handleCommand from text st
        = (Returned (JStr "❌ Mode tidak valid."), snd (getSession from st)).
Proof.
  intros Hargs Hcmd Harg.
  destruct (getSession_returns from st) as (session & Hsession & _).
  exists session. split; [rewrite Hsession; reflexivity |].
  unfold handleCommand, app_bind. rewrite Hsession, Hargs, Hcmd.
  cbn [String.eqb Ascii.eqb Bool.eqb head option_map AI.given default from_option]. unfold id.
  apply truthy_JStr in Harg. rewrite Harg. cbn [negb].
  destruct (listed (toLowerCase arg) valid_modes); cbn [negb]; [| reflexivity].
  unfold saveSession, getSession, app_ret. cbn [fst snd sessionCache db].
  rewrite lookup_insert_eq.
  unfold Database.getSettings, Database.saveSettings. cbn [Database.user_settings].
  rewrite lookup_insert_eq. repeat split; reflexivity.
Qed.

Lemma catalog_models_nonempty name provider :
  Providers.PROVIDERS !! name = Some provider ->
  Forall (fun m => m <> "") (Providers.models provider).
Proof.
  intros Hp. apply PROVIDERS_lookup_Some in Hp. unfold Providers.PROVIDERS_entries in Hp.
  repeat (apply elem_of_cons in Hp as [Hp | Hp];
          [ injection Hp as -> ->; cbn; repeat constructor; discriminate | ]).
  inversion Hp.
Qed.

Lemma find_model_first modelName ms validModel :
  find_model modelName ms = Some validModel ->
  exists before after,
    ms = before ++ validModel :: after /\
    (validModel = modelName \/ includes validModel modelName = true) /\
    Forall (fun m => m <> modelName /\ includes m modelName = false) before.
Proof.
  unfold find_model. induction ms as [| m ms IH]; [discriminate |]. cbn [List.find].
  destruct (String.eqb m modelName || includes m modelName) eqn:Hm.
  - intros [= <-]. exists [], ms. split; [reflexivity |]. split; [| constructor].
    apply orb_true_iff in Hm as [Heq | Hinc]; [left; apply String.eqb_eq, Heq | right; exact Hinc].
  - intros Hfind. destruct (IH Hfind) as (before & after & -> & Hmatch & Hbefore).
    exists (m :: before), after. split; [reflexivity |]. split; [exact Hmatch |].
    constructor; [| exact Hbefore].
    apply orb_false_iff in Hm as [Heq Hinc]. split; [apply String.eqb_neq, Heq | exact Hinc].
Qed.

(** X18. [!set <provider> <model>] stores a pair of the catalog or nothing.  The
    provider is looked up in lower case; the model stored is the first model
    of that provider that equals the words given or contains them, so a part
    of a name selects a model.  The mode of the session, every conversation
    row and the network are left alone; with an unknown provider or no
    matching model nothing is stored, and with the name of a member every
    object inherits in the place of the provider the command throws and
    nothing is stored. *)
Theorem set_command_stores_a_catalog_model (from text first p m : string) (rest : list string)
    (st : AppState) :
  split_whitespace (trim text) = first :: p :: m :: rest ->
  toLowerCase first = "!set" ->
  exists session,
    fst (getSession from st) = Returned session /\
    Database.conversations (db (snd (handleCommand from text st)))
      = Database.conversations (db st) /\
    world (snd (handleCommand from text st)) = world st /\
    match table_get Providers.PROVIDERS (toLowerCase p) with
    | Missing =>
        handleCommand from text st
        = (Returned (JStr ("❌ Provider tidak ada: " +:+ toLowerCase p)), snd (getSession from st))
    | Inherited _ =>
        handleCommand from text st
        = (Thrown (TypeError "Cannot read properties of undefined (reading 'find')"),
           snd (getSession from st))
    | Own provider =>
        match find_model (String.concat " " (m :: rest)) (Providers.models provider) with
        | None =>
            snd (handleCommand from text st) = snd (getSession from st) /\
            Forall (fun known => known <> String.concat " " (m :: rest) /\
                                 includes known (String.concat " " (m :: rest)) = false)
              (Providers.models provider)
        | Some validModel =>
            (exists before after,
               Providers.models provider = before ++ validModel :: after /\
               (validModel = String.concat " " (m :: rest) \/
                includes validModel (String.concat " " (m :: rest)) = true) /\
               Forall (fun known => known <> String.concat " " (m :: rest) /\
                                    includes known (String.concat " " (m :: rest)) = false)
                 before) /\
            fst (getSession from (snd (handleCommand from text st)))
              = Returned {| session_provider := toLowerCase p; session_model := validModel;
                            session_mode := session_mode session |} /\
            Database.getSettings from (db (snd (handleCommand from text st)))
              = Some (toLowerCase p, validModel, session_mode session)
        end
    end.
Proof.
  intros Hargs Hcmd.
  destruct (getSession_returns from st) as (session & Hsession & _).
  exists session. split; [rewrite Hsession; reflexivity |].
  unfold handleCommand, app_bind. rewrite Hsession, Hargs, Hcmd.
  cbn [String.eqb Ascii.eqb Bool.eqb head option_map default from_option andb length Nat.eqb
       Nat.leb drop]. unfold id.
  destruct (table_get Providers.PROVIDERS (toLowerCase p)) as [provider | name |] eqn:Hp;
    [| unfold app_throw; repeat split; reflexivity
     | unfold app_ret; repeat split; reflexivity].
  apply table_get_Own_inv in Hp.
  destruct (find_model (String.concat " " (m :: rest)) (Providers.models provider))
    as [validModel |] eqn:Hfind; cbn [AI.given negb].
  - destruct (find_model_first _ _ _ Hfind) as (before & after & Hms & Hmatch & Hbefore).
    assert (Hne : truthy (JStr validModel) = true).
    { apply truthy_JStr. pose proof (catalog_models_nonempty _ _ Hp) as Hall.
      rewrite Forall_forall in Hall. apply Hall. rewrite Hms.
      apply elem_of_app. right. apply elem_of_cons. left. reflexivity. }
    rewrite Hne. cbn [negb default from_option]. unfold id.
    unfold saveSession, getSession, app_ret. cbn [fst snd sessionCache db world].
    rewrite lookup_insert_eq.
    unfold Database.getSettings, Database.saveSettings.
    cbn [Database.user_settings Database.conversations].
    rewrite lookup_insert_eq. repeat split; try reflexivity.
    exists before, after. auto.
  - unfold app_ret. cbn [fst snd db world]. repeat split; try reflexivity.
    unfold find_model in Hfind. apply Forall_forall. intros known Hknown.
    apply list_elem_of_In in Hknown.
    pose proof (find_none _ _ Hfind known Hknown) as Hno. cbn beta in Hno.
    apply orb_false_iff in Hno as [Heq Hinc]. split; [apply String.eqb_neq, Heq | exact Hinc].
Qed.
End SessionCommands.

(** At a sample input: the mode is given in capitals. *)
Lemma mode_command_stores_valid_modes_only_witness :
  Database.getSettings "628111@s.whatsapp.net"
    (Index.db (snd (@Index.handleCommand host_offline engine_ascii "628111@s.whatsapp.net"
                      " !Mode REASONING " started)))
  = Some ("groq", "llama-3.3-70b-versatile", "reasoning").
Proof.
  destruct (@mode_command_stores_valid_modes_only host_offline engine_ascii
              "628111@s.whatsapp.net" " !Mode REASONING " "!Mode" "REASONING" [] started)
    as (session & Hsession & Hmode); [reflexivity | reflexivity | discriminate |].
  vm_compute in Hsession. injection Hsession as <-.
  change (listed (@Index.toLowerCase engine_ascii "REASONING") Index.valid_modes)
    with true in Hmode.
  destruct Hmode as (_ & _ & Hrow & _). rewrite Hrow. reflexivity.
Defined.

(** At a sample input: a part of a model name. *)
Lemma set_command_stores_a_catalog_model_witness :
  fst (@Index.getSession host_offline "628111@s.whatsapp.net"
         (snd (@Index.handleCommand host_offline engine_ascii "628111@s.whatsapp.net"
                 "!set Groq 8b" started)))
  = Returned {| Index.session_provider := "groq"; Index.session_model := "llama-3.1-8b-instant";
                Index.session_mode := "search" |}.
Proof.
  destruct (@set_command_stores_a_catalog_model host_offline engine_ascii
              "628111@s.whatsapp.net" "!set Groq 8b" "!set" "Groq" "8b" [] started)
    as (session & Hsession & _ & _ & Hset); [reflexivity | reflexivity |].
  vm_compute in Hsession. injection Hsession as <-.
  destruct Hset as (_ & Hcache & _). exact Hcache.
Defined.

(** ** The earlier bot: the window of ten messages *)

Section LegacyWindow.
Import LegacyBot.

(** X19. [addToHistory] keeps the last ten messages: the history of the user
    afterwards is the last ten of the old history followed by the new
    message, so it never holds more than ten when it held at most ten
    before; the mode of the session is kept, a user seen for the first time
    starts in mode [normal], and no other session is touched. *)
Theorem addToHistory_keeps_last_ten (created now : Z) (userId role : string) (content : JValue)
    (sessions : gmap string Session) :
  let old := from_option history [] (sessions !! userId) in
  let pushed := old ++ [{| role := role; content := content |}] in
  (length old <= 10 ->
   exists session,
     addToHistory created now userId role content sessions !! userId = Some session /\
     history session = drop (length pushed - 10) pushed /\
     length (history session) <= 10 /\
     last (history session) = Some {| role := role; content := content |} /\
     mode session = from_option mode "normal" (sessions !! userId) /\
     lastActivity session = now) /\
  (forall other, other <> userId ->
     addToHistory created now userId role content sessions !! other = sessions !! other).
Proof.
  cbn zeta. split.
  - intros Hold. unfold addToHistory, getSession.
    destruct (sessions !! userId) as [session |] eqn:Hhit; cbn [from_option] in *.
    + eexists. split; [apply lookup_insert_eq |]. cbn [history mode lastActivity].
      rewrite length_app. cbn [length].
      destruct (10 <? length (history session) + 1)%nat eqn:Hfull.
      * apply Nat.ltb_lt in Hfull.
        replace (length (history session) + 1 - 10) with 1 by lia.
        repeat split; try reflexivity.
        -- rewrite length_drop, length_app. cbn. lia.
        -- destruct (history session) as [| m0 older]; [cbn in Hfull; lia |].
           cbn [app drop]. rewrite drop_0. apply last_snoc.
      * apply Nat.ltb_ge in Hfull.
        replace (length (history session) + 1 - 10) with 0 by lia.
        rewrite drop_0. repeat split; try reflexivity.
        -- rewrite length_app. cbn. lia.
        -- apply last_snoc.
    + eexists. split; [apply lookup_insert_eq |]. cbn. repeat split; try reflexivity. lia.
  - intros other Hne. unfold addToHistory, getSession.
    destruct (sessions !! userId) as [session |]; rewrite !lookup_insert_ne by congruence;
      reflexivity.
Qed.
End LegacyWindow.

(** At a sample input: the eleventh message pushes the first one out. *)
Lemma addToHistory_keeps_last_ten_witness :
  exists session,
    LegacyBot.addToHistory 1700000000500 1700000000600 "628111@s.whatsapp.net" "user"
      (JStr "11") full_sessions !! "628111@s.whatsapp.net" = Some session /\
    map content (LegacyBot.history session)
      = map JStr ["2"; "3"; "4"; "5"; "6"; "7"; "8"; "9"; "10"; "11"] /\
    LegacyBot.mode session = "search".
Proof.
  destruct (addToHistory_keeps_last_ten 1700000000500 1700000000600 "628111@s.whatsapp.net"
              "user" (JStr "11") full_sessions) as (Hkept & _).
  destruct Hkept as (session & Hlookup & Hhistory & _ & _ & Hmode & _);
    [vm_compute; lia |].
  exists session. split; [exact Hlookup |]. split.
  - rewrite Hhistory. vm_compute. reflexivity.
  - rewrite Hmode. vm_compute. reflexivity.
Defined.

(** ** Reconnecting *)

Section Reconnect.
Import Connection.

Lemma lost_step loggedOut update n :
  lost loggedOut update ->
  on_connection_update loggedOut update n
  = (if (10 <? n + 1)%Z then GiveUp else ReconnectIn (Z.min (3000 * (n + 1)) 30000),
     (n + 1)%Z).
Proof.
  intros (Hqr & Hclose & Hcode). unfold on_connection_update.
  rewrite Hqr, Hclose, Hcode. cbn [bool_decide]. rewrite bool_decide_eq_true_2 by reflexivity.
  unfold MAX_RECONNECT. destruct (10 <? n + 1)%Z; reflexivity.
Qed.

(** X20. After the connection is lost the bot retries at most ten times in a row.
    Counting from a fresh counter, the first ten losses set a timer, of 3, 6,
    ... seconds and never more than 30; every later loss sets none, until an
    [open] event puts the counter back to zero. *)
Theorem reconnect_gives_up_after_ten (loggedOut : Z) (updates : list Update) :
  Forall (lost loggedOut) updates ->
  (forall k action, connection_actions loggedOut updates 0 !! k = Some action ->
     action = if (k <? 10)%nat
              then ReconnectIn (Z.min (3000 * (Z.of_nat k + 1)) 30000)
              else GiveUp) /\
  (forall k delay, connection_actions loggedOut updates 0 !! k = Some (ReconnectIn delay) ->
     (3000 <= delay <= 30000)%Z) /\
  (forall update n,
     connection update = Some "open" -> qr update = false ->
     on_connection_update loggedOut update n = (Connected, 0%Z)).
Proof.
  intros Hlost.
  assert (Hrun : forall n, (0 <= n)%Z -> forall k action,
            connection_actions loggedOut updates n !! k = Some action ->
            action = if (Z.of_nat k + n <? 10)%Z
                     then ReconnectIn (Z.min (3000 * (Z.of_nat k + n + 1)) 30000)
                     else GiveUp).
  { induction Hlost as [| update rest Hupdate Hrest IH]; intros n Hn k action Hk;
      [discriminate |].
    cbn [connection_actions] in Hk. rewrite (lost_step _ _ _ Hupdate) in Hk.
    destruct k as [| k]; cbn in Hk.
    - injection Hk as <-. cbn [Z.of_nat]. rewrite Z.add_0_l.
      destruct (10 <? n + 1)%Z eqn:E1, (n <? 10)%Z eqn:E2; try reflexivity;
        [apply Z.ltb_lt in E1, E2 | apply Z.ltb_ge in E1, E2]; lia.
    - rewrite (IH (n + 1)%Z ltac:(lia) k action Hk).
      replace (Z.of_nat k + (n + 1))%Z with (Z.of_nat (S k) + n)%Z by lia. reflexivity. }
  assert (Hfresh : forall k action, connection_actions loggedOut updates 0 !! k = Some action ->
            action = if (k <? 10)%nat
                     then ReconnectIn (Z.min (3000 * (Z.of_nat k + 1)) 30000)
                     else GiveUp).
  { intros k action Hk. rewrite (Hrun 0%Z ltac:(lia) k action Hk), Z.add_0_r.
    destruct (Z.of_nat k <? 10)%Z eqn:E1, (k <? 10)%nat eqn:E2; try reflexivity;
      [apply Z.ltb_lt in E1; apply Nat.ltb_ge in E2 | apply Z.ltb_ge in E1; apply Nat.ltb_lt in E2];
      lia. }
  split; [exact Hfresh |]. split.
  - intros k delay Hk. apply Hfresh in Hk.
    destruct (k <? 10)%nat; [| discriminate]. injection Hk as ->. lia.
  - intros update n Hopen Hqr. unfold on_connection_update. rewrite Hqr, Hopen. reflexivity.
Qed.
End Reconnect.

(** At a sample input: twelve losses in a row. *)
Lemma reconnect_gives_up_after_ten_witness :
  connection_actions 401 (repeat dropped 12) 0
  = map Connection.ReconnectIn [3000; 6000; 9000; 12000; 15000; 18000; 21000; 24000; 27000;
                                30000]%Z
    ++ [Connection.GiveUp; Connection.GiveUp].
Proof.
  assert (Hlost : Forall (lost 401) (repeat dropped 12))
    by (repeat constructor).
  destruct (reconnect_gives_up_after_ten 401 (repeat dropped 12) Hlost) as (Hactions & _).
  apply list_eq. intros k.
  destruct (connection_actions 401 (repeat dropped 12) 0 !! k) as [action |] eqn:Hk.
  - rewrite (Hactions k action Hk).
    do 12 (destruct k as [| k]; [reflexivity |]). discriminate Hk.
  - do 12 (destruct k as [| k]; [discriminate Hk |]). reflexivity.
Defined.

(** ** Reading the reply *)

Section Decode.
Context `{Host}.
Import Providers.

(** One adapter against a network that resolves its request. *)
Ltac decode_adapter :=
  unfold bind, axios_call, lift, ret; cbn zeta;
  lazymatch goal with
  | |- context [axios ?log ?req] =>
      exists req; split;
      [ destruct (axios log req); [| reflexivity];
        repeat match goal with
               | |- context [match ?c with Returned _ => _ | Thrown _ => _ end] => destruct c
               end; reflexivity
      | let data := fresh "data" in
        let Hdata := fresh "Hdata" in
        intros data Hdata; rewrite Hdata; destruct data; reflexivity ]
  end.

(** X21. [tryProvider] hands back what the reply holds.  An available provider
    whose adapter has what it needs is sent one request; when the network
    resolves it, the answer is the first truthy value on the reply paths of
    that adapter, and [null] when there is none (a body that is [null],
    not an object, or of another shape included). *)
Theorem tryProvider_decodes_the_reply (providerName : string) (model : option string)
    (messages : list Message) (w : World) :
  isProviderAvailable providerName = Returned true ->
  (providerName = "cloudflare" -> truthy (Config.cloudflareAccount Config.API_KEYS) = true) ->
  (providerName = "puter" -> model <> None) ->
  exists req,
    http_log (snd (AI.tryProvider providerName model messages w)) = http_log w ++ [req] /\
    forall data,
      axios (http_log w) req = Resolved data ->
      fst (AI.tryProvider providerName model messages w)
      = Returned (first_truthy (map (fun path => walk path data) (adapter_paths providerName))).
Proof.
  intros Hav Haccount Hmodel.
  destruct (proj2 (PROVIDERS_registered providerName)
              (isProviderAvailable_true_registered _ Hav)) as [p Hp].
  pose proof Hav as Hguard. rewrite (isProviderAvailable_Some _ _ Hp) in Hguard.
  injection Hguard as Hguard.
  rewrite (tryProvider_Own _ _ _ _ Hp).
  replace (negb (truthy (key p)) && negb (anonymous_tier providerName)) with false
    by (destruct (truthy (key p)), (anonymous_tier providerName); cbn in *; congruence).
  unfold try_catch, AI.callAdapter, adapter_paths, first_truthy.
  destruct (String.eqb providerName "gemini") eqn:Egemini.
  { apply String.eqb_eq in Egemini as ->.
    rewrite (isProviderAvailable_credentialed "gemini" "GEMINI_API_KEY") in Hav
      by (apply (bool_decide_unpack _); vm_compute; exact I).
    injection Hav as Hav.
    unfold AI.geminiRequest, Config.API_KEYS. cbn [Config.gemini]. rewrite Hav. cbn [negb].
    decode_adapter. }
  destruct (String.eqb providerName "cohere") eqn:Ecohere.
  { apply String.eqb_eq in Ecohere as ->.
    rewrite (isProviderAvailable_credentialed "cohere" "COHERE_API_KEY") in Hav
      by (apply (bool_decide_unpack _); vm_compute; exact I).
    injection Hav as Hav.
    unfold AI.cohereRequest, Config.API_KEYS. cbn [Config.cohere]. rewrite Hav. cbn [negb].
    decode_adapter. }
  destruct (String.eqb providerName "cloudflare") eqn:Ecloudflare.
  { apply String.eqb_eq in Ecloudflare as ->.
    rewrite (isProviderAvailable_credentialed "cloudflare" "CLOUDFLARE_API_TOKEN") in Hav
      by (apply (bool_decide_unpack _); vm_compute; exact I).
    injection Hav as Hav.
    specialize (Haccount eq_refl). unfold Config.API_KEYS in Haccount.
    cbn [Config.cloudflareAccount] in Haccount.
    unfold AI.cloudflareRequest, Config.API_KEYS. cbn [Config.cloudflare Config.cloudflareAccount].
    rewrite Hav, Haccount. cbn [negb orb].
    decode_adapter. }
  destruct (String.eqb providerName "mlvoca") eqn:Emlvoca.
  { unfold AI.mlvocaRequest. decode_adapter. }
  destruct (String.eqb providerName "puter") eqn:Eputer.
  { apply String.eqb_eq in Eputer as ->.
    rewrite (isProviderAvailable_credentialed "puter" "PUTER_API_KEY") in Hav
      by (apply (bool_decide_unpack _); vm_compute; exact I).
    injection Hav as Hav.
    unfold AI.puterRequest, Config.API_KEYS. cbn [Config.puter]. rewrite Hav. cbn [negb].
    destruct model as [m |]; [| exfalso; apply (Hmodel eq_refl); reflexivity].
    unfold bind at 1, lift at 1. cbn [AI.puter_driver].
    decode_adapter. }
  unfold AI.openAIRequest. decode_adapter.
Qed.
End Decode.

(** At a sample input: Pollinations answers. *)
Lemma tryProvider_decodes_the_reply_witness :
  fst (@AI.tryProvider host_groq_down "pollinations" (Some "openai") hello_messages fresh_world)
  = Returned (JStr "hi there").
Proof.
  destruct (@tryProvider_decodes_the_reply host_groq_down "pollinations" (Some "openai")
              hello_messages fresh_world) as (req & Hlog & Hreply);
    [reflexivity | discriminate | discriminate |].
  vm_compute in Hlog. injection Hlog as <-.
  rewrite (Hreply (chat_reply "hi there")); reflexivity.
Defined.
